(** * HID bus fan-out, I2C framing and USB synchronous bridge

    A shallow embedding of the transport bridging and bus fan-out layer
    of iichid: [hidbus.c] (bus registry: enumeration, open/close,
    dispatch), the I2C backend appended to it (GET_REPORT framing and
    the dual-mode acquisition engine) and [usbhid.c] (synchronous
    transfer bridge over the USB callbacks).

    C integers are modelled as [Z] with the wrap-around of their width
    written out; pointers to functions and devices are handles, with
    [None] for [NULL]; calls into the kernel or into a subscriber are
    recorded as events. *)

From Stdlib Require Import ZArith List Bool Lia Arith.
Import ListNotations.
Open Scope Z_scope.

(** ** errno values (FreeBSD <sys/errno.h>) *)

Definition EIO : Z := 5.
Definition ENXIO : Z := 6.
Definition EINVAL : Z := 22.
Definition ENOBUFS : Z := 55.
Definition ETIMEDOUT : Z := 60.

(** ** The bus registry, [hidbus.c] *)

Module Hidbus.

(** [device_t]: a handle of a newbus device. *)
Definition device_t := nat.

(** [hid_intr_t *]: the address of a subscriber's interrupt handler. *)
Definition hid_intr_t := nat.

Bind Scope nat_scope with device_t hid_intr_t.

(** [enum hid_kind] of the report-descriptor parser. *)
Inductive hid_kind : Type :=
| hid_input | hid_output | hid_feature | hid_collection | hid_endcollection.

Definition hid_kind_eqb (a b : hid_kind) : bool :=
  match a, b with
  | hid_input, hid_input | hid_output, hid_output
  | hid_feature, hid_feature | hid_collection, hid_collection
  | hid_endcollection, hid_endcollection => true
  | _, _ => false
  end.

(** The fields of [struct hid_item] that enumeration reads. *)
Record hid_item : Type := mk_hid_item {
  hi_kind : hid_kind;
  hi_collevel : Z;
  hi_usage : Z                     (* uint32_t *)
}.

(** [struct hidbus_ivar]: one subscriber (top level collection). *)
Record hidbus_ivar : Type := mk_ivar {
  child : device_t;
  index : Z;                       (* uint8_t *)
  usage : Z;                       (* uint32_t *)
  open : bool;
  intr : option hid_intr_t         (* NULL until hid_set_intr *)
}.

(** [struct hidbus_softc]; the [STAILQ] of subscribers is a list in
    insertion order. *)
Record hidbus_softc : Type := mk_softc {
  dev : device_t;
  tlcs : list hidbus_ivar
}.

Definition set_tlcs (sc : hidbus_softc) (l : list hidbus_ivar) : hidbus_softc :=
  mk_softc (dev sc) l.

Definition set_index (t : hidbus_ivar) (v : Z) : hidbus_ivar :=
  mk_ivar (child t) v (usage t) (open t) (intr t).
Definition set_usage (t : hidbus_ivar) (v : Z) : hidbus_ivar :=
  mk_ivar (child t) (index t) v (open t) (intr t).
Definition set_open (t : hidbus_ivar) (v : bool) : hidbus_ivar :=
  mk_ivar (child t) (index t) (usage t) v (intr t).
Definition set_intr (t : hidbus_ivar) (v : option hid_intr_t) : hidbus_ivar :=
  mk_ivar (child t) (index t) (usage t) (open t) v.

(** [uint8_t] and [uint32_t] truncation. *)
Definition u8 (z : Z) : Z := z mod 256.
Definition u32 (z : Z) : Z := z mod 4294967296.

(** [device_add_child_ordered]: the kernel allocates the device with
    [M_NOWAIT], so the call may return [NULL].  [malloc_ok n] tells
    whether the allocation of the [n]-th device of the system succeeds;
    the new device gets the handle [n]. *)
Definition device_add_child_ordered (malloc_ok : nat -> bool) (ndev : nat)
  : option device_t :=
  if malloc_ok ndev then Some ndev else None.

(** [hidbus_add_child]: a new subscriber record, zeroed ([M_ZERO]),
    is appended to the tail of the queue. *)
Definition hidbus_add_child (malloc_ok : nat -> bool) (sc : hidbus_softc)
    (ndev : nat) : option device_t * hidbus_softc :=
  match device_add_child_ordered malloc_ok ndev with
  | None => (None, sc)
  | Some c => (Some c, set_tlcs sc (tlcs sc ++ [mk_ivar c 0 0 false None]))
  end.

Inductive hidbus_ivar_which : Type :=
| HIDBUS_IVAR_INDEX | HIDBUS_IVAR_USAGE | HIDBUS_IVAR_DEVINFO.

(** [hidbus_write_ivar]: [device_get_ivars(child)] is the record whose
    [child] is the device. *)
Definition hidbus_write_ivar (sc : hidbus_softc) (c : device_t)
    (which : hidbus_ivar_which) (value : Z) : Z * hidbus_softc :=
  match which with
  | HIDBUS_IVAR_INDEX =>
      (0, set_tlcs sc (map (fun t => if Nat.eqb (child t) c
                                     then set_index t (u8 value) else t) (tlcs sc)))
  | HIDBUS_IVAR_USAGE =>
      (0, set_tlcs sc (map (fun t => if Nat.eqb (child t) c
                                     then set_usage t (u32 value) else t) (tlcs sc)))
  | HIDBUS_IVAR_DEVINFO => (EINVAL, sc)
  end.

Definition hidbus_set_index (sc : hidbus_softc) (c : device_t) (v : Z) :=
  snd (hidbus_write_ivar sc c HIDBUS_IVAR_INDEX v).
Definition hidbus_set_usage (sc : hidbus_softc) (c : device_t) (v : Z) :=
  snd (hidbus_write_ivar sc c HIDBUS_IVAR_USAGE v).

(** The test of the enumeration loop: a collection at nesting level 1. *)
Definition is_tlc (hi : hid_item) : bool :=
  negb (negb (hid_kind_eqb (hi_kind hi) hid_collection)
        || negb (hi_collevel hi =? 1)).

(** The [while (hid_get_item(hd, &hi))] loop of
    [hidbus_enumerate_children]; [items] is what the parser yields,
    [index] the [uint8_t] counter, [ndev] the kernel's device counter. *)
Fixpoint enumerate_loop (malloc_ok : nat -> bool) (items : list hid_item)
    (sc : hidbus_softc) (index : Z) (ndev : nat) : hidbus_softc * Z * nat :=
  match items with
  | [] => (sc, index, ndev)
  | hi :: rest =>
      if negb (hid_kind_eqb (hi_kind hi) hid_collection)
         || negb (hi_collevel hi =? 1)
      then enumerate_loop malloc_ok rest sc index ndev
      else
        match hidbus_add_child malloc_ok sc ndev with
        | (None, sc') => enumerate_loop malloc_ok rest sc' index (S ndev)
        | (Some c, sc') =>
            let sc1 := hidbus_set_index sc' c index in
            let sc2 := hidbus_set_usage sc1 c (hi_usage hi) in
            enumerate_loop malloc_ok rest sc2 (u8 (index + 1)) (S ndev)
        end
  end.

(** [hidbus_enumerate_children].  [descr] is the outcome of
    [HID_GET_REPORT_DESCR] on the parent: [None] when it fails, else the
    items of the descriptor as the parser walks them. *)
Definition hidbus_enumerate_children (malloc_ok : nat -> bool)
    (descr : option (list hid_item)) (sc : hidbus_softc) (ndev : nat)
  : Z * hidbus_softc * nat :=
  match descr with
  | None => (ENXIO, sc, ndev)
  | Some items =>
      let '(sc', index, ndev') := enumerate_loop malloc_ok items sc 0 ndev in
      if index =? 0 then (ENXIO, sc', ndev') else (0, sc', ndev')
  end.

(** [hidbus_detach]: the children are deleted, the interrupt pipe is
    unset and every subscriber record is removed and freed. *)
Definition hidbus_detach (sc : hidbus_softc) : Z * hidbus_softc :=
  (0, set_tlcs sc []).

(** [hidbus_attach]: the queue is initialised empty ([mtx_init] and
    [HID_INTR_SETUP] do not touch it), then the children are
    enumerated; [generic_attach_rc] is the result of
    [bus_generic_attach], which is only logged. *)
Definition hidbus_attach (malloc_ok : nat -> bool)
    (descr : option (list hid_item)) (generic_attach_rc : Z)
    (d : device_t) (ndev : nat) : Z * hidbus_softc :=
  let sc := mk_softc d [] in
  let '(error, sc', _) := hidbus_enumerate_children malloc_ok descr sc ndev in
  if negb (error =? 0)
  then (ENXIO, snd (hidbus_detach sc'))
  else (0, sc').

(** [hidbus_find_child]: the first subscriber with the usage. *)
Fixpoint find_child_loop (l : list hidbus_ivar) (u : Z) : option device_t :=
  match l with
  | [] => None
  | tlc :: rest => if usage tlc =? u then Some (child tlc)
                   else find_child_loop rest u
  end.

Definition hidbus_find_child (sc : hidbus_softc) (u : Z) : option device_t :=
  find_child_loop (tlcs sc) u.

(** [hid_set_intr]. *)
Fixpoint set_intr_loop (l : list hidbus_ivar) (c : device_t)
    (h : option hid_intr_t) : list hidbus_ivar :=
  match l with
  | [] => []
  | tlc :: rest =>
      (if Nat.eqb (child tlc) c then set_intr tlc h else tlc)
        :: set_intr_loop rest c h
  end.

Definition hid_set_intr (sc : hidbus_softc) (c : device_t)
    (h : option hid_intr_t) : hidbus_softc :=
  set_tlcs sc (set_intr_loop (tlcs sc) c h).

(** A call of a subscriber's handler: [tlc->intr(tlc->child, buf, len)]. *)
Record intr_call : Type := mk_call {
  call_intr : hid_intr_t;
  call_child : device_t;
  call_buf : list Z;
  call_len : Z
}.

(** The outcome of a broadcast: all handlers were called, or the
    [KASSERT] on a [NULL] handler stopped the kernel after the calls
    made so far. *)
Inductive intr_result : Type :=
| Delivered (calls : list intr_call)
| Panic (calls : list intr_call).

Definition add_call (c : intr_call) (r : intr_result) : intr_result :=
  match r with
  | Delivered l => Delivered (c :: l)
  | Panic l => Panic (c :: l)
  end.

(** [hidbus_intr]: the [STAILQ_FOREACH] broadcast, called with the bus
    lock held.  A handler is recorded as a call; it is taken not to
    open or close subscribers of the bus while the broadcast runs. *)
Fixpoint intr_loop (l : list hidbus_ivar) (buf : list Z) (len : Z)
  : intr_result :=
  match l with
  | [] => Delivered []
  | tlc :: rest =>
      if open tlc then
        match intr tlc with
        | None => Panic []
        | Some h => add_call (mk_call h (child tlc) buf len)
                             (intr_loop rest buf len)
        end
      else intr_loop rest buf len
  end.

Definition hidbus_intr (sc : hidbus_softc) (buf : list Z) (len : Z)
  : intr_result :=
  intr_loop (tlcs sc) buf len.

(** Calls of the transport's interrupt-pipe methods. *)
Inductive hid_if_call : Type := HID_INTR_START | HID_INTR_STOP.

(** The loop of [hid_start] (the caller holds the bus lock): [open]
    accumulates the flags as they were found, the flag of [child] is
    set afterwards. *)
Fixpoint start_loop (l : list hidbus_ivar) (c : device_t) (opn : bool)
  : list hidbus_ivar * bool :=
  match l with
  | [] => ([], opn)
  | tlc :: rest =>
      let opn' := opn || open tlc in
      let tlc' := if Nat.eqb (child tlc) c then set_open tlc true else tlc in
      let '(rest', o) := start_loop rest c opn' in
      (tlc' :: rest', o)
  end.

(** [hid_start]; [start_rc] is what the transport's [HID_INTR_START]
    returns. *)
Definition hid_start (start_rc : Z) (sc : hidbus_softc) (c : device_t)
  : Z * hidbus_softc * list hid_if_call :=
  let '(l, opn) := start_loop (tlcs sc) c false in
  if opn then (0, set_tlcs sc l, [])
  else (start_rc, set_tlcs sc l, [HID_INTR_START]).

(** The loop of [hid_stop]: the flag of [child] is cleared first, then
    [open] accumulates. *)
Fixpoint stop_loop (l : list hidbus_ivar) (c : device_t) (opn : bool)
  : list hidbus_ivar * bool :=
  match l with
  | [] => ([], opn)
  | tlc :: rest =>
      let tlc' := if Nat.eqb (child tlc) c then set_open tlc false else tlc in
      let opn' := opn || open tlc' in
      let '(rest', o) := stop_loop rest c opn' in
      (tlc' :: rest', o)
  end.

(** [hid_stop]; [stop_rc] is what the transport's [HID_INTR_STOP]
    returns. *)
Definition hid_stop (stop_rc : Z) (sc : hidbus_softc) (c : device_t)
  : Z * hidbus_softc * list hid_if_call :=
  let '(l, opn) := stop_loop (tlcs sc) c false in
  if opn then (0, set_tlcs sc l, [])
  else (stop_rc, set_tlcs sc l, [HID_INTR_STOP]).

End Hidbus.

(** ** Traces of the bus registry *)

Module BusTrace.
Import Hidbus.

(** The aggregate "some subscriber is open", recomputed from the records. *)
Definition any_open (sc : hidbus_softc) : bool := existsb open (tlcs sc).

(** [c] is the device of a subscriber of the bus. *)
Definition subscriber (sc : hidbus_softc) (c : device_t) : bool :=
  existsb (fun t => Nat.eqb (child t) c) (tlcs sc).

(** What a child driver can call on its bus. *)
Inductive child_op : Type :=
| SetIntr (c : device_t) (h : option hid_intr_t)
| Start (c : device_t)
| Stop (c : device_t).

Definition op_child (o : child_op) : device_t :=
  match o with SetIntr c _ | Start c | Stop c => c end.

(** One call, with the calls it makes into the transport. *)
Definition exec_op (start_rc stop_rc : Z) (sc : hidbus_softc) (o : child_op)
  : hidbus_softc * list hid_if_call :=
  match o with
  | SetIntr c h => (hid_set_intr sc c h, [])
  | Start c => let '(_, sc', calls) := hid_start start_rc sc c in (sc', calls)
  | Stop c => let '(_, sc', calls) := hid_stop stop_rc sc c in (sc', calls)
  end.

(** A step of a run: the state before, the call, the transport calls it
    made, the state after. *)
Record step : Type := mk_step {
  before : hidbus_softc;
  the_op : child_op;
  issued : list hid_if_call;
  after : hidbus_softc
}.

Fixpoint run (start_rc stop_rc : Z) (sc : hidbus_softc) (ops : list child_op)
  : list step :=
  match ops with
  | [] => []
  | o :: rest =>
      let '(sc', calls) := exec_op start_rc stop_rc sc o in
      mk_step sc o calls sc' :: run start_rc stop_rc sc' rest
  end.

Fixpoint exec (start_rc stop_rc : Z) (sc : hidbus_softc) (ops : list child_op)
  : hidbus_softc :=
  match ops with
  | [] => sc
  | o :: rest => exec start_rc stop_rc (fst (exec_op start_rc stop_rc sc o)) rest
  end.

(** The condition of the [KASSERT] of [hidbus_intr], on every record. *)
Definition has_intr (t : hidbus_ivar) : bool :=
  match intr t with Some _ => true | None => false end.

Definition open_has_intr (sc : hidbus_softc) : bool :=
  forallb (fun t => implb (open t) (has_intr t)) (tlcs sc).

(** The discipline a child driver is expected to follow: it opens only
    with a handler registered, and clears its handler only while closed. *)
Definition op_ok (sc : hidbus_softc) (o : child_op) : bool :=
  match o with
  | Start c =>
      forallb (fun t => implb (Nat.eqb (child t) c) (has_intr t)) (tlcs sc)
  | SetIntr c None =>
      forallb (fun t => implb (Nat.eqb (child t) c) (negb (open t))) (tlcs sc)
  | SetIntr _ (Some _) => true
  | Stop _ => true
  end.

Fixpoint ops_ok (start_rc stop_rc : Z) (sc : hidbus_softc)
    (ops : list child_op) : bool :=
  match ops with
  | [] => true
  | o :: rest =>
      op_ok sc o
      && ops_ok start_rc stop_rc (fst (exec_op start_rc stop_rc sc o)) rest
  end.

(** The effect of the open and close loops on one record. *)
Definition mark (c : device_t) (v : bool) (t : hidbus_ivar) : hidbus_ivar :=
  if Nat.eqb (child t) c then set_open t v else t.

(** The transport calls a step of a run may make: an open starts the
    engine exactly when no subscriber was open before it, and leaves a
    subscriber open; a close stops the engine exactly when no
    subscriber is open after it. *)
Definition step_ok (s : step) : Prop :=
  match the_op s with
  | Start _ =>
      issued s = (if any_open (before s) then [] else [HID_INTR_START])
      /\ any_open (after s) = true
  | Stop _ =>
      issued s = (if any_open (after s) then [] else [HID_INTR_STOP])
  | SetIntr _ _ => issued s = []
  end.

End BusTrace.

(** ** The I2C backend, appended to [hidbus.c] *)

Module Iichid.

Definition u8 (z : Z) : Z := z mod 256.

(** The registers of [struct i2c_hid_desc] that the exchanges use
    (each [uint16_t]). *)
Record i2c_hid_desc : Type := mk_desc {
  wMaxInputLength : Z;
  wInputRegister : Z;
  wCommandRegister : Z;
  wDataRegister : Z
}.

(** [htole16] on the little-endian hosts the ACPI attachment serves. *)
Definition htole16 (x : Z) : Z := x.

(** [I2C_HID_CMD_GET_REPORT] is declared in [iichid.h], which is not
    among the sources; this is the opcode of the example frame in the
    comment of [iichid_get_report] ("type 3 id 8: 22 00 38 02 23 00"). *)
Definition I2C_HID_CMD_GET_REPORT : Z := 2.

(** What [iichid_get_report] prints. *)
Inductive message : Type :=
| msg_get_report (id type len : Z)
| msg_response_size (d report_len : Z)
| msg_response_id (d id : Z)
| msg_response (report_len : Z) (tmprep : list Z).

(** The calls [iichid_get_report] makes, in order. *)
Inductive event : Type :=
| device_printf (m : message)
| malloc (n : Z)
| iicbus_transfer (cmd : list Z) (buflen : Z)
| memcpy (n : Z)
| free.

(** The I2C bus: given the bytes written and the number of bytes to
    read, an error code and the bytes the device sent. *)
Definition iicbus := list Z -> Z -> Z * list Z.

(** Bytes [src] written over the start of [dst], at most [n] of them. *)
Definition overlay (src dst : list Z) (n : Z) : list Z :=
  let k := Nat.min (Z.to_nat n) (Nat.min (length src) (length dst)) in
  firstn k src ++ skipn k dst.

(** [iichid_fetch_buffer]: a write of the first [cmdlen] bytes of
    [cmd], then a read of [buflen] bytes into [buf]. *)
Definition iichid_fetch_buffer (bus : iicbus) (cmd : list Z) (cmdlen : Z)
    (buf : list Z) (buflen : Z) : Z * list Z :=
  let '(err, data) := bus (firstn (Z.to_nat cmdlen) cmd) buflen in
  (err, overlay (map u8 data) buf buflen).

(** The [cmd] array of [iichid_get_report] ([uint8_t cmd[7]]). *)
Definition get_report_cmd (desc : i2c_hid_desc) (type id : Z) : list Z :=
  let dtareg := htole16 (wDataRegister desc) in
  let cmdreg := htole16 (wCommandRegister desc) in
  [ u8 (Z.land cmdreg 255);
    u8 (Z.shiftr cmdreg 8);
    u8 (if id >=? 15 then Z.lor 15 (Z.shiftl type 4)
        else Z.lor id (Z.shiftl type 4));
    u8 I2C_HID_CMD_GET_REPORT;
    u8 (if id >=? 15 then id else Z.land dtareg 255);
    u8 (if id >=? 15 then Z.land dtareg 255 else Z.shiftr dtareg 8);
    u8 (if id >=? 15 then Z.shiftr dtareg 8 else 0) ].

Definition get_report_cmdlen (id : Z) : Z := if id >=? 15 then 7 else 6.

(** [tmprep[i]]. *)
Definition byte_at (l : list Z) (i : nat) : Z := nth i l 0.

(** [iichid_get_report]: the return value, the caller's buffer
    afterwards, and the calls made. *)
Definition iichid_get_report (bus : iicbus) (desc : i2c_hid_desc)
    (buf : list Z) (len : Z) (type id : Z) : Z * list Z * list event :=
  let cmd := get_report_cmd desc type id in
  let cmdlen := get_report_cmdlen id in
  let report_id_len := if id >=? 15 then 2 else 1 in
  let report_len := len + 2 in
  let report_len := report_len + report_id_len in
  let ev0 := [device_printf (msg_get_report id type len); malloc report_len;
              iicbus_transfer (firstn (Z.to_nat cmdlen) cmd) report_len] in
  let tmprep := repeat 0 (Z.to_nat report_len) in
  let '(err, tmprep) := iichid_fetch_buffer bus cmd cmdlen tmprep report_len in
  if negb (err =? 0) then (EIO, buf, ev0 ++ [free])
  else
    let d := Z.lor (byte_at tmprep 0) (Z.shiftl (byte_at tmprep 1) 8) in
    let ev1 := if negb (d =? report_len)
               then [device_printf (msg_response_size d report_len)] else [] in
    let d := if report_id_len =? 2
             then Z.lor (byte_at tmprep 2) (Z.shiftl (byte_at tmprep 3) 8)
             else byte_at tmprep 2 in
    if negb (d =? id)
    then (1, buf, ev0 ++ ev1 ++ [device_printf (msg_response_id d id); free])
    else
      (0,
       overlay (skipn (Z.to_nat (2 + report_id_len)) tmprep) buf len,
       ev0 ++ ev1 ++ [device_printf (msg_response report_len tmprep);
                      memcpy len; free]).

(** What the device answers to the GET_REPORT command frame: the
    error of the transfer and the temporary buffer after it. *)
Definition response (bus : iicbus) (desc : i2c_hid_desc) (len type id : Z)
  : Z * list Z :=
  let report_len := len + 2 + (if id >=? 15 then 2 else 1) in
  iichid_fetch_buffer bus (get_report_cmd desc type id) (get_report_cmdlen id)
                      (repeat 0 (Z.to_nat report_len)) report_len.

(** A device that answers [bytes] to a transfer that writes exactly
    the bytes [frame], and fails every other transfer. *)
Definition answering_only (frame bytes : list Z) : iicbus :=
  fun cmd _ =>
    if list_eq_dec Z.eq_dec cmd frame then (0, bytes) else (EIO, []).

(** The length the response declares: its first two bytes, low first. *)
Definition declared_length (tmprep : list Z) : Z :=
  Z.lor (byte_at tmprep 0) (Z.shiftl (byte_at tmprep 1) 8).

(** The report ID the response echoes: one byte, or two for [id >= 15]. *)
Definition echoed_id (id : Z) (tmprep : list Z) : Z :=
  if id >=? 15
  then Z.lor (byte_at tmprep 2) (Z.shiftl (byte_at tmprep 3) 8)
  else byte_at tmprep 2.

(** *** The acquisition engine *)

(** The fields of [struct iichid] the engine switches: the rate, the
    callout ([Some ticks] while it is armed) and the interrupt
    resources ([None] for 0). *)
Record iichid : Type := mk_iichid {
  sampling_rate : Z;
  callout_setup : bool;
  periodic_callout : option Z;
  irq_rid : Z;
  irq_cookie : option nat;
  irq_res : option nat
}.

(** What the kernel answers to the interrupt set-up: the resource
    [bus_alloc_resource_any] returns ([None] for [NULL]), the resource
    id it stores, the error of [bus_setup_intr] and the cookie it
    stores on success. *)
Record irq_env : Type := mk_irq_env {
  alloc_res : option nat;
  alloc_rid : Z;
  setup_intr_rc : Z;
  setup_cookie : nat
}.

(** [iichid_setup_callout]. *)
Definition iichid_setup_callout (sc : iichid) : Z * iichid :=
  if sampling_rate sc <? 0 then (EINVAL, sc)
  else (0, mk_iichid (sampling_rate sc) true None
                     (irq_rid sc) (irq_cookie sc) (irq_res sc)).

(** [iichid_reset_callout]; [hz] is the kernel's tick rate. *)
Definition iichid_reset_callout (hz : Z) (sc : iichid) : Z * iichid :=
  if sampling_rate sc <=? 0 then (EINVAL, sc)
  else if callout_setup sc
  then (0, mk_iichid (sampling_rate sc) (callout_setup sc)
                     (Some (Z.quot hz (sampling_rate sc)))
                     (irq_rid sc) (irq_cookie sc) (irq_res sc))
  else (EINVAL, sc).

(** [iichid_teardown_callout]. *)
Definition iichid_teardown_callout (sc : iichid) : iichid :=
  mk_iichid (sampling_rate sc) false None
            (irq_rid sc) (irq_cookie sc) (irq_res sc).

(** [iichid_setup_interrupt]. *)
Definition iichid_setup_interrupt (env : irq_env) (sc : iichid) : Z * iichid :=
  match alloc_res env with
  | Some r =>
      if negb (setup_intr_rc env =? 0)
      then (setup_intr_rc env,
            mk_iichid (sampling_rate sc) (callout_setup sc) (periodic_callout sc)
                      (alloc_rid env) None (Some r))
      else (0,
            mk_iichid (sampling_rate sc) (callout_setup sc) (periodic_callout sc)
                      (alloc_rid env) (Some (setup_cookie env)) (Some r))
  | None =>
      (0, mk_iichid (sampling_rate sc) (callout_setup sc) (periodic_callout sc)
                    0 None None)
  end.

(** [iichid_teardown_interrupt]. *)
Definition iichid_teardown_interrupt (sc : iichid) : iichid :=
  mk_iichid (sampling_rate sc) (callout_setup sc) (periodic_callout sc)
            0 None None.

(** [iichid_sysctl_sampling_rate_handler].  [err] is the result of
    [sysctl_handle_int]; [newval] is the value written, [None] for a
    read ([req->newptr == NULL]). *)
Definition iichid_sysctl_sampling_rate_handler (hz : Z) (env : irq_env)
    (err : Z) (newval : option Z) (sc : iichid) : Z * iichid :=
  let value := match newval with
               | Some v => if err =? 0 then v else sampling_rate sc
               | None => sampling_rate sc
               end in
  let oldval := sampling_rate sc in
  if negb (err =? 0)
     || match newval with None => true | Some _ => false end
     || (value =? sampling_rate sc)
  then (err, sc)
  else
    let sc := mk_iichid value (callout_setup sc) (periodic_callout sc)
                        (irq_rid sc) (irq_cookie sc) (irq_res sc) in
    let sc :=
      if (oldval <? 0) && (value >=? 0)
      then snd (iichid_setup_callout (iichid_teardown_interrupt sc))
      else if (oldval >=? 0) && (value <? 0)
      then snd (iichid_setup_interrupt env (iichid_teardown_callout sc))
      else sc in
    let sc := if value >? 0 then snd (iichid_reset_callout hz sc) else sc in
    (0, sc).

(** The part of [iichid_set_intr] that selects the mode at set-up;
    [hw_irq] is [sc->hw.irq] and [default_rate] is
    [IICHID_DEFAULT_SAMPLING_RATE] (declared in [iichid.h]). *)
Definition iichid_set_intr (hz default_rate : Z) (env : irq_env) (hw_irq : Z)
    (sc : iichid) : Z * iichid :=
  let with_rate (sc : iichid) (r : Z) :=
    mk_iichid r (callout_setup sc) (periodic_callout sc)
              (irq_rid sc) (irq_cookie sc) (irq_res sc) in
  let sc := with_rate sc (if hw_irq >? 0 then -1 else default_rate) in
  let sc :=
    if sampling_rate sc <? 0 then
      let '(error, sc') := iichid_setup_interrupt env sc in
      if negb (error =? 0) then with_rate sc' default_rate else sc'
    else sc in
  let sc :=
    if sampling_rate sc >=? 0
    then snd (iichid_reset_callout hz (snd (iichid_setup_callout sc)))
    else sc in
  (0, sc).

(** The two event sources of the engine. *)
Definition interrupt_registered (sc : iichid) : bool :=
  match irq_cookie sc with Some _ => true | None => false end.

Definition timer_armed (sc : iichid) : bool :=
  match periodic_callout sc with Some _ => true | None => false end.

Definition active_sources (sc : iichid) : nat :=
  (if interrupt_registered sc then 1 else 0)
  + (if timer_armed sc then 1 else 0).

End Iichid.

(** ** The USB backend, [usbhid.c] *)

Module Usbhid.

(** The indices of the transfers of a device. *)
Inductive xfer_index : Type :=
| USBHID_INTR_DT_WR | USBHID_INTR_DT_RD | USBHID_CTRL_DT_WR | USBHID_CTRL_DT_RD.

(** [usb_error_t], the values the callbacks can be handed. *)
Inductive usb_error_t : Type :=
| USB_ERR_NORMAL_COMPLETION
| USB_ERR_CANCELLED
| USB_ERR_STALLED
| USB_ERR_TIMEOUT
| USB_ERR_IOERROR
| USB_ERR_SHORT_XFER.

Definition is_cancelled (e : usb_error_t) : bool :=
  match e with USB_ERR_CANCELLED => true | _ => false end.

(** [USB_GET_STATE(xfer)]. *)
Inductive usb_state : Type := USB_ST_SETUP | USB_ST_TRANSFERRED | USB_ST_ERROR.

(** [struct usb_device_request]: eight bytes. *)
Record usb_device_request : Type := mk_req {
  bmRequestType : Z;
  bRequest : Z;
  wValue : Z * Z;
  wIndex : Z * Z;
  wLength : Z * Z
}.

Definition sizeof_req : Z := 8.

(** [struct usbhid_xfer_ctx], the shared transfer context.  [buf] is
    the address of the caller's buffer. *)
Record usbhid_xfer_ctx : Type := mk_ctx {
  req : option usb_device_request;
  buf : option nat;
  len : Z;                         (* uint16_t *)
  error : Z;
  waiters : Z;
  influx : bool
}.

Definition set_error (c : usbhid_xfer_ctx) (e : Z) : usbhid_xfer_ctx :=
  mk_ctx (req c) (buf c) (len c) e (waiters c) (influx c).

(** What a callback asks of the USB stack, and whom it wakes. *)
Inductive usb_action : Type :=
| usbd_copy_in_buf (frame : nat) (src : option nat) (n : Z)
| usbd_copy_in_req (frame : nat) (r : option usb_device_request)
| usbd_copy_out (offset : Z) (dst : option nat) (n : Z)
| usbd_xfer_set_frame_len (frame : nat) (n : Z)
| usbd_xfer_set_frames (n : Z)
| usbd_xfer_set_stall
| usbd_transfer_submit
| intr_handler (n : Z)
| wakeup
| wakeup_one.

Definition is_submit (a : usb_action) : bool :=
  match a with usbd_transfer_submit => true | _ => false end.
Definition is_stall (a : usb_action) : bool :=
  match a with usbd_xfer_set_stall => true | _ => false end.
Definition is_wakeup (a : usb_action) : bool :=
  match a with wakeup => true | _ => false end.

(** The exit of the three bridge callbacks ([tr_exit]). *)
Definition tr_exit (polling : bool) : list usb_action :=
  if negb polling then [wakeup] else [].

(** [usbhid_intr_wr_callback]; [max_len] is [usbd_xfer_max_len(xfer)],
    [polling] is [HID_IN_POLLING_MODE_FUNC()]. *)
Definition usbhid_intr_wr_callback (polling : bool) (st : usb_state)
    (err : usb_error_t) (max_len : Z) (c : usbhid_xfer_ctx)
  : usbhid_xfer_ctx * list usb_action :=
  let tr_setup := [usbd_copy_in_buf 0 (buf c) (len c);
                   usbd_xfer_set_frame_len 0 (len c);
                   usbd_transfer_submit] in
  match st with
  | USB_ST_SETUP =>
      if len c >? max_len then (set_error c ENOBUFS, tr_exit polling)
      else (c, tr_setup)
  | USB_ST_TRANSFERRED => (set_error c 0, tr_exit polling)
  | USB_ST_ERROR =>
      if negb (is_cancelled err) then (c, usbd_xfer_set_stall :: tr_setup)
      else (set_error c EIO, tr_exit polling)
  end.

(** [usbhid_ctrl_wr_callback]. *)
Definition usbhid_ctrl_wr_callback (polling : bool) (st : usb_state)
    (err : usb_error_t) (max_len : Z) (c : usbhid_xfer_ctx)
  : usbhid_xfer_ctx * list usb_action :=
  match st with
  | USB_ST_SETUP =>
      if len c >? max_len then (set_error c ENOBUFS, tr_exit polling)
      else
        (c,
         (if len c >? 0
          then [usbd_copy_in_buf 1 (buf c) (len c);
                usbd_xfer_set_frame_len 1 (len c)]
          else [])
         ++ [usbd_copy_in_req 0 (req c);
             usbd_xfer_set_frame_len 0 sizeof_req;
             usbd_xfer_set_frames (if len c >? 0 then 2 else 1);
             usbd_transfer_submit])
  | USB_ST_TRANSFERRED => (set_error c 0, tr_exit polling)
  | USB_ST_ERROR => (set_error c EIO, tr_exit polling)
  end.

(** [usbhid_ctrl_rd_callback]. *)
Definition usbhid_ctrl_rd_callback (polling : bool) (st : usb_state)
    (err : usb_error_t) (max_len : Z) (c : usbhid_xfer_ctx)
  : usbhid_xfer_ctx * list usb_action :=
  match st with
  | USB_ST_SETUP =>
      if len c >? max_len then (set_error c ENOBUFS, tr_exit polling)
      else
        (c,
         [usbd_copy_in_req 0 (req c);
          usbd_xfer_set_frame_len 0 sizeof_req;
          usbd_xfer_set_frame_len 1 (len c);
          usbd_xfer_set_frames (if negb (len c =? 0) then 2 else 1);
          usbd_transfer_submit])
  | USB_ST_TRANSFERRED =>
      (set_error c 0, usbd_copy_out sizeof_req (buf c) (len c) :: tr_exit polling)
  | USB_ST_ERROR => (set_error c EIO, tr_exit polling)
  end.

(** [usbhid_intr_rd_callback]: it works on the softc, not on the
    transfer context; [actlen] is the length [usbd_xfer_status]
    reports, [rdsize] is [sc_hw.rdsize] and [ibuf] is [sc_ibuf]. *)
Definition usbhid_intr_rd_callback (st : usb_state) (err : usb_error_t)
    (max_len actlen rdsize : Z) (ibuf : option nat) : list usb_action :=
  let re_submit := [usbd_xfer_set_frame_len 0 max_len; usbd_transfer_submit] in
  match st with
  | USB_ST_TRANSFERRED =>
      let actlen := if actlen >? rdsize then rdsize else actlen in
      [usbd_copy_out 0 ibuf actlen; intr_handler actlen] ++ re_submit
  | USB_ST_SETUP => re_submit
  | USB_ST_ERROR =>
      if negb (is_cancelled err) then usbd_xfer_set_stall :: re_submit else []
  end.

(** A transfer of the USB stack, as the bridge sees it: its maximal
    length and whether it is submitted and not yet completed. *)
Record usb_xfer : Type := mk_xfer {
  max_len : Z;
  pending : bool
}.

(** The part of [struct usbhid_softc] the bridge works on;
    [sc_xfer i] is [None] when the transfer could not be set up. *)
Record usbhid_softc : Type := mk_softc {
  sc_iface_no : Z;
  sc_rdsize : Z;
  sc_ibuf : option nat;
  sc_xfer : xfer_index -> option usb_xfer;
  sc_tr : usbhid_xfer_ctx
}.

Definition xfer_index_eqb (a b : xfer_index) : bool :=
  match a, b with
  | USBHID_INTR_DT_WR, USBHID_INTR_DT_WR | USBHID_INTR_DT_RD, USBHID_INTR_DT_RD
  | USBHID_CTRL_DT_WR, USBHID_CTRL_DT_WR | USBHID_CTRL_DT_RD, USBHID_CTRL_DT_RD
      => true
  | _, _ => false
  end.

Definition set_tr (sc : usbhid_softc) (c : usbhid_xfer_ctx) : usbhid_softc :=
  mk_softc (sc_iface_no sc) (sc_rdsize sc) (sc_ibuf sc) (sc_xfer sc) c.

Definition set_pending (sc : usbhid_softc) (i : xfer_index) (p : bool)
  : usbhid_softc :=
  mk_softc (sc_iface_no sc) (sc_rdsize sc) (sc_ibuf sc)
    (fun j => if xfer_index_eqb j i
              then match sc_xfer sc j with
                   | Some x => Some (mk_xfer (max_len x) p)
                   | None => None
                   end
              else sc_xfer sc j)
    (sc_tr sc).

(** The USB stack and the device, as far as the bridge depends on
    them: [completion k] is what the hardware reports at tick [k] for a
    pending transfer ([None]: nothing yet; else the status and the
    number of bytes moved); [stop_calls_back] tells whether
    [usbd_transfer_stop] runs the callback of a transfer it cancels
    before it returns. *)
Record usb_stack : Type := mk_stack {
  completion : nat -> option (usb_error_t * Z);
  stop_calls_back : bool
}.

(** The stack calls the callback of transfer [i] in state [st]. *)
Definition run_callback (polling : bool) (sc : usbhid_softc) (i : xfer_index)
    (x : usb_xfer) (st : usb_state) (err : usb_error_t) (actlen : Z)
  : usbhid_softc * list usb_action :=
  let '(c, acts) :=
    match i with
    | USBHID_INTR_DT_WR =>
        usbhid_intr_wr_callback polling st err (max_len x) (sc_tr sc)
    | USBHID_CTRL_DT_WR =>
        usbhid_ctrl_wr_callback polling st err (max_len x) (sc_tr sc)
    | USBHID_CTRL_DT_RD =>
        usbhid_ctrl_rd_callback polling st err (max_len x) (sc_tr sc)
    | USBHID_INTR_DT_RD =>
        (sc_tr sc,
         usbhid_intr_rd_callback st err (max_len x) actlen (sc_rdsize sc)
                                 (sc_ibuf sc))
    end in
  (set_pending (set_tr sc c) i (existsb is_submit acts), acts).

(** [usbd_transfer_start]: nothing for a [NULL] or a pending transfer;
    else the callback runs in [USB_ST_SETUP]. *)
Definition usbd_transfer_start (polling : bool) (sc : usbhid_softc)
    (i : xfer_index) : usbhid_softc * list usb_action :=
  match sc_xfer sc i with
  | None => (sc, [])
  | Some x =>
      if pending x then (sc, [])
      else run_callback polling sc i x USB_ST_SETUP USB_ERR_NORMAL_COMPLETION 0
  end.

(** The hardware's report at tick [k] reaches the callback of a
    pending transfer: [usbd_transfer_poll] in polling mode, the
    interrupt of the host controller otherwise. *)
Definition deliver (stack : usb_stack) (polling : bool) (k : nat)
    (sc : usbhid_softc) (i : xfer_index) : usbhid_softc * list usb_action :=
  match sc_xfer sc i with
  | None => (sc, [])
  | Some x =>
      if pending x then
        match completion stack k with
        | None => (sc, [])
        | Some (USB_ERR_NORMAL_COMPLETION, n) =>
            run_callback polling sc i x USB_ST_TRANSFERRED
                         USB_ERR_NORMAL_COMPLETION n
        | Some (e, n) => run_callback polling sc i x USB_ST_ERROR e n
        end
      else (sc, [])
  end.

(** [usbd_transfer_stop]. *)
Definition usbd_transfer_stop (stack : usb_stack) (polling : bool)
    (sc : usbhid_softc) (i : xfer_index) : usbhid_softc * list usb_action :=
  match sc_xfer sc i with
  | None => (sc, [])
  | Some x =>
      if pending x then
        if stop_calls_back stack
        then
          let '(sc', acts) :=
            run_callback polling sc i x USB_ST_ERROR USB_ERR_CANCELLED 0 in
          (set_pending sc' i false, acts)
        else (set_pending sc i false, [])
      else (sc, [])
  end.

(** [USB_DEFAULT_TIMEOUT], in milliseconds (<dev/usb/usb.h>). *)
Definition USB_DEFAULT_TIMEOUT : nat := 5000%nat.

(** The polling loop of [usbhid_sync_xfer]:
    [while (timeout > 0 && sc->sc_tr.error == ETIMEDOUT)]. *)
Fixpoint poll_loop (stack : usb_stack) (timeout k : nat) (sc : usbhid_softc)
    (i : xfer_index) : usbhid_softc * list usb_action :=
  match timeout with
  | O => (sc, [])
  | S timeout' =>
      if error (sc_tr sc) =? ETIMEDOUT then
        let '(sc1, a1) := deliver stack true k sc i in
        let '(sc2, a2) := poll_loop stack timeout' (S k) sc1 i in
        (sc2, a1 ++ a2)
      else (sc, [])
  end.

(** [msleep_sbt] for [timeout] milliseconds: the sleep ends with the
    time or when a callback wakes the channel. *)
Fixpoint sleep_loop (stack : usb_stack) (timeout k : nat) (sc : usbhid_softc)
    (i : xfer_index) : usbhid_softc * list usb_action :=
  match timeout with
  | O => (sc, [])
  | S timeout' =>
      let '(sc1, a1) := deliver stack false k sc i in
      if existsb is_wakeup a1 then (sc1, a1)
      else
        let '(sc2, a2) := sleep_loop stack timeout' (S k) sc1 i in
        (sc2, a1 ++ a2)
  end.

(** [usbhid_sync_xfer].  [polling] is [HID_IN_POLLING_MODE_FUNC()].
    The result is [None] when the caller stays asleep in the admission
    loop, because an exchange of another thread is in flux.  This is
    the exchange of one caller: no other thread runs while it sleeps,
    so the properties below are about the outcome and the calls made,
    not about the number of waiters. *)
Definition usbhid_sync_xfer (stack : usb_stack) (polling : bool)
    (sc : usbhid_softc) (xfer_idx : xfer_index)
    (rq : option usb_device_request) (bf : option nat) (ln : Z)
  : option (Z * usbhid_softc * list usb_action) :=
  let save := sc_tr sc in
  if negb polling && influx (sc_tr sc) then None
  else
    let tr := sc_tr sc in
    let tr := if polling then tr
              else
                let tr := mk_ctx (req tr) (buf tr) (len tr) (error tr)
                                 (waiters tr + 1) (influx tr) in
                mk_ctx (req tr) (buf tr) (len tr) (error tr)
                       (waiters tr - 1) true in
    let tr := mk_ctx rq bf ln ETIMEDOUT (waiters tr) (influx tr) in
    let sc := set_tr sc tr in
    let '(sc, a0) := usbd_transfer_start polling sc xfer_idx in
    let '(sc, a1) :=
      if polling then poll_loop stack USB_DEFAULT_TIMEOUT 0 sc xfer_idx
      else sleep_loop stack USB_DEFAULT_TIMEOUT 0 sc xfer_idx in
    let '(sc, a2) := usbd_transfer_stop stack polling sc xfer_idx in
    let err := error (sc_tr sc) in
    let tr := sc_tr sc in
    let sc :=
      if polling then set_tr sc save
      else set_tr sc (mk_ctx (req tr) (buf tr) (len tr) (error tr)
                             (waiters tr) false) in
    let a3 := if negb polling && negb (waiters tr =? 0)
              then [wakeup_one] else [] in
    Some (err, sc, a0 ++ a1 ++ a2 ++ a3).

Definition UT_READ_CLASS_INTERFACE : Z := 161.
Definition UR_GET_REPORT : Z := 1.

(** [USETW2(w, h, l)] and [USETW(w, v)]: two bytes, low one first. *)
Definition USETW2 (h l : Z) : Z * Z := (l mod 256, h mod 256).
Definition USETW (v : Z) : Z * Z := (v mod 256, Z.shiftr v 8 mod 256).

(** [usbhid_get_report].  [actlen] is the caller's [uint16_t *actlen]:
    [None] for [NULL], else the value it points at; the result holds
    that value afterwards. *)
Definition usbhid_get_report (stack : usb_stack) (polling : bool)
    (sc : usbhid_softc) (bf : option nat) (maxlen : Z) (actlen : option Z)
    (type id : Z) : option (Z * usbhid_softc * option Z) :=
  let rq := mk_req UT_READ_CLASS_INTERFACE UR_GET_REPORT (USETW2 type id)
                   (sc_iface_no sc, 0) (USETW maxlen) in
  match usbhid_sync_xfer stack polling sc USBHID_CTRL_DT_RD (Some rq) bf maxlen with
  | None => None
  | Some (err, sc', _) =>
      Some (err, sc',
            match actlen with
            | Some v => if err =? 0 then Some maxlen else Some v
            | None => None
            end)
  end.

(** Two stacks that agree on every status the hardware reports, and
    differ at most in the numbers of bytes moved. *)
Definition same_statuses (s s' : usb_stack) : Prop :=
  (forall k, option_map fst (completion s k) = option_map fst (completion s' k))
  /\ stop_calls_back s = stop_calls_back s'.

(** A device that completes a transfer at the third tick, having
    moved [n] bytes. *)
Definition short_device (n : Z) : usb_stack :=
  mk_stack (fun k => match k with
                     | 2%nat => Some (USB_ERR_NORMAL_COMPLETION, n)
                     | _ => None
                     end) false.

(** An idle interface 0 whose transfers hold 64 bytes. *)
Definition idle_softc : usbhid_softc :=
  mk_softc 0 64 None (fun _ => Some (mk_xfer 64 false))
           (mk_ctx None None 0 0 0 false).

(** An exchange of one byte on a device whose transfers hold 64, with
    the hardware reporting [first] at tick 0 and success afterwards. *)
Definition one_byte_exchange (i : xfer_index) (first : usb_error_t)
  : option (Z * list usb_action) :=
  match
    usbhid_sync_xfer
      (mk_stack (fun k => match k with
                          | O => Some (first, 0)
                          | _ => Some (USB_ERR_NORMAL_COMPLETION, 1)
                          end) false)
      false
      (mk_softc 0 64 None (fun _ => Some (mk_xfer 64 false))
                (mk_ctx None None 0 0 0 false))
      i None (Some 7%nat) 1
  with
  | Some (e, _, acts) => Some (e, acts)
  | None => None
  end.

End Usbhid.

(** ** What enumeration is expected to build *)

Module Expected.
Import Hidbus.

(** The records of the top level collections [l], the first one on
    device [ndev] with counter value [idx]. *)
Fixpoint records (ndev : nat) (idx : Z) (l : list hid_item) : list hidbus_ivar :=
  match l with
  | [] => []
  | hi :: rest =>
      mk_ivar ndev (u8 idx) (u32 (hi_usage hi)) false None
        :: records (S ndev) (idx + 1) rest
  end.

(** A descriptor of [n] empty top level collections of usage [u]. *)
Definition collections (n : nat) (u : Z) : list hid_item :=
  concat (repeat [mk_hid_item hid_collection 1 u;
                  mk_hid_item hid_endcollection 0 u] n).

End Expected.

(** ** More of the bus registry and of its users *)

Module HidbusMore.
Import Hidbus BusTrace.

(** [device_get_ivars(child)]: the record attached to the device by
    [hidbus_add_child], [None] for a device that has none. *)
Fixpoint device_get_ivars (l : list hidbus_ivar) (c : device_t)
  : option hidbus_ivar :=
  match l with
  | [] => None
  | t :: rest => if Nat.eqb (child t) c then Some t else device_get_ivars rest c
  end.

(** The [which] argument of the ivar methods: an [int], of which three
    values are known. *)
Inductive ivar_selector : Type :=
| Known (w : hidbus_ivar_which)
| Unknown (n : Z).

(** [hidbus_read_ivar]: the error and [*result]; [devinfo] is
    [device_get_ivars(bus)].  The result is [None] when the child has
    no record (the C code dereferences [NULL]). *)
Definition hidbus_read_ivar (devinfo : Z) (sc : hidbus_softc) (c : device_t)
    (which : ivar_selector) : option (Z * option Z) :=
  match device_get_ivars (tlcs sc) c with
  | None => None
  | Some info =>
      Some match which with
           | Known HIDBUS_IVAR_INDEX => (0, Some (index info))
           | Known HIDBUS_IVAR_USAGE => (0, Some (usage info))
           | Known HIDBUS_IVAR_DEVINFO => (0, Some devinfo)
           | Unknown _ => (EINVAL, None)
           end
  end.

(** [hidbus_get_index(child)], the accessor over [hidbus_read_ivar]. *)
Definition hidbus_get_index (sc : hidbus_softc) (c : device_t) : option Z :=
  match hidbus_read_ivar 0 sc c (Known HIDBUS_IVAR_INDEX) with
  | Some (_, Some v) => Some v
  | _ => None
  end.

(** [hidraw.c]: the index reserved for the raw device, and the probe
    priority it answers with (<sys/bus.h>). *)
Definition UHID_INDEX : Z := 255.
Definition BUS_PROBE_GENERIC : Z := -100.

(** [uhid_match]. *)
Definition uhid_match (sc : hidbus_softc) (self : device_t) : option Z :=
  match hidbus_get_index sc self with
  | None => None
  | Some i => Some (if negb (i =? UHID_INDEX) then ENXIO else BUS_PROBE_GENERIC)
  end.

(** [HID_TLC_FOREACH_ITEM(hd, hi, tidx)] of [hid.h]: the items for which
    the body of the loop runs.  [iter] is the [uint8_t] counter, bumped
    by an end of collection at level 0 before it is compared. *)
Fixpoint tlc_foreach_from (items : list hid_item) (iter tidx : Z)
  : list hid_item :=
  match items with
  | [] => []
  | hi :: rest =>
      let iter' :=
        u8 (iter + (if hid_kind_eqb (hi_kind hi) hid_endcollection
                       && (hi_collevel hi =? 0) then 1 else 0)) in
      if iter' =? tidx then hi :: tlc_foreach_from rest iter' tidx
      else tlc_foreach_from rest iter' tidx
  end.

Definition HID_TLC_FOREACH_ITEM (items : list hid_item) (tidx : Z)
  : list hid_item :=
  tlc_foreach_from items 0 tidx.

(** [HID_GET_USAGE] and [HID_GET_USAGE_PAGE] of [hid.h]. *)
Definition HID_GET_USAGE (u : Z) : Z := Z.land u 65535.
Definition HID_GET_USAGE_PAGE (u : Z) : Z := Z.land (Z.shiftr u 16) 65535.

(** A top level collection as the parser yields it: the collection
    item at level 1, the items inside, the end of collection at
    level 0. *)
Record tlc_block : Type := mk_block {
  block_usage : Z;
  block_body : list hid_item
}.

Definition block_head (b : tlc_block) : hid_item :=
  mk_hid_item hid_collection 1 (block_usage b).
Definition block_end (b : tlc_block) : hid_item :=
  mk_hid_item hid_endcollection 0 (block_usage b).
Definition block_items (b : tlc_block) : list hid_item :=
  block_head b :: block_body b ++ [block_end b].

(** The items inside a top level collection are neither a collection
    at level 1 nor an end of collection at level 0. *)
Definition inner_item (hi : hid_item) : bool :=
  negb (is_tlc hi)
  && negb (hid_kind_eqb (hi_kind hi) hid_endcollection && (hi_collevel hi =? 0)).

Definition well_nested (b : tlc_block) : bool := forallb inner_item (block_body b).

(** The end of collection of the last of the blocks [pre]. *)
Fixpoint prev_end (pre : list tlc_block) : list hid_item :=
  match pre with
  | [] => []
  | p :: rest => match rest with [] => [block_end p] | _ => prev_end rest end
  end.

(** Whether the acquisition engine runs after the transport calls
    [calls], having been [running] before them. *)
Fixpoint engine_after (running : bool) (calls : list hid_if_call) : bool :=
  match calls with
  | [] => running
  | HID_INTR_START :: rest => engine_after true rest
  | HID_INTR_STOP :: rest => engine_after false rest
  end.

(** The records enumeration builds when some child devices cannot be
    created: collection number [j] of [l] asks for device [ndev + j],
    and gets the next index when the device is there. *)
Fixpoint created (malloc_ok : nat -> bool) (ndev : nat) (idx : Z)
    (l : list hid_item) : list hidbus_ivar :=
  match l with
  | [] => []
  | hi :: rest =>
      if malloc_ok ndev
      then mk_ivar ndev (u8 idx) (u32 (hi_usage hi)) false None
             :: created malloc_ok (S ndev) (idx + 1) rest
      else created malloc_ok (S ndev) idx rest
  end.

(** The handler calls a broadcast made, however it ended. *)
Definition calls_of (r : intr_result) : list intr_call :=
  match r with Delivered l | Panic l => l end.

(** What identifies a subscriber: its device, its index and its usage. *)
Definition identity (t : hidbus_ivar) : device_t * Z * Z :=
  (child t, index t, usage t).

End HidbusMore.

(** ** More of the I2C backend *)

Module IichidMore.
Import Iichid.

(** The command of an input read: the [uint16_t] input register as it
    lies in memory, low byte first. *)
Definition input_cmd (desc : i2c_hid_desc) : list Z :=
  [u8 (Z.land (wInputRegister desc) 255); u8 (Z.shiftr (wInputRegister desc) 8)].

(** [iichid_fetch_input_report]: the error, [data] afterwards and
    [*actual_len] when it was written.  The local array [buf] is read
    into by the transfer; it is taken to hold zeros before. *)
Definition iichid_fetch_input_report (bus : iicbus) (desc : i2c_hid_desc)
    (data : list Z) (len : Z) : Z * list Z * option Z :=
  let cmd := input_cmd desc in
  let cmdlen := 2 in
  let '(error, buf) :=
    iichid_fetch_buffer bus cmd cmdlen (repeat 0 (Z.to_nat len)) len in
  if negb (error =? 0) then (error, data, None)
  else
    let data := overlay buf data len in
    (0, data, Some (Z.lor (byte_at data 0) (Z.shiftl (byte_at data 1) 8))).

(** [iichid_event_task]: the input buffer afterwards, the call of the
    interrupt handler if one is made (the bytes from [input_buf + 2] to
    the end of the buffer, and the length passed), and the engine
    state after the callout was or was not reset. *)
Definition iichid_event_task (hz : Z) (bus : iicbus) (desc : i2c_hid_desc)
    (input_buf : list Z) (input_size : Z) (sc : iichid)
  : list Z * option (list Z * Z) * iichid :=
  let '(error, input_buf, actual_len) :=
    iichid_fetch_input_report bus desc input_buf input_size in
  let actual := match actual_len with Some a => a | None => 0 end in
  let call :=
    if negb (error =? 0) then None
    else if actual <=? 2 then None
    else Some (skipn 2 input_buf, actual - 2) in
  let sc :=
    if callout_setup sc && (sampling_rate sc >? 0)
    then mk_iichid (sampling_rate sc) (callout_setup sc)
                   (Some (Z.quot hz (sampling_rate sc)))
                   (irq_rid sc) (irq_cookie sc) (irq_res sc)
    else sc in
  (input_buf, call, sc).

(** What a device that follows the protocol answers to GET_REPORT:
    the length of the whole response, the report ID (in two bytes for
    IDs from 15 on) and the report. *)
Definition report_response (id : Z) (payload : list Z) : list Z :=
  let n := Z.of_nat (length payload) + 2 + (if id >=? 15 then 2 else 1) in
  [n mod 256; n / 256 mod 256]
    ++ (if id >=? 15 then [id; 0] else [id]) ++ payload.

(** A device that answers every transfer with [bytes]. *)
Definition answering (bytes : list Z) : iicbus := fun _ _ => (0, bytes).

End IichidMore.

(** ** More of the USB backend *)

Module UsbhidMore.
Import Usbhid.

(** Request codes of the HID class (<dev/usb/usb.h>, <dev/usb/usbhid.h>)
    and [ENOTSUP] (<sys/errno.h>). *)
Definition UT_WRITE_CLASS_INTERFACE : Z := 33.
Definition UR_SET_REPORT : Z := 9.
Definition UR_SET_IDLE : Z := 10.
Definition UR_SET_PROTOCOL : Z := 11.
Definition ENOTSUP : Z := 45.

(** The request [usbhid_set_idle] builds; [duration] is a [uint16_t]
    in milliseconds. *)
Definition set_idle_request (sc : usbhid_softc) (duration id : Z)
  : usb_device_request :=
  mk_req UT_WRITE_CLASS_INTERFACE UR_SET_IDLE
         (USETW2 (Z.quot (duration + 3) 4) id)
         (sc_iface_no sc, 0) (USETW 0).

(** [usbhid_set_idle]. *)
Definition usbhid_set_idle (stack : usb_stack) (polling : bool)
    (sc : usbhid_softc) (duration id : Z) :=
  usbhid_sync_xfer stack polling sc USBHID_CTRL_DT_WR
                   (Some (set_idle_request sc duration id)) None 0.

(** [usbhid_set_protocol]. *)
Definition usbhid_set_protocol (stack : usb_stack) (polling : bool)
    (sc : usbhid_softc) (protocol : Z) :=
  usbhid_sync_xfer stack polling sc USBHID_CTRL_DT_WR
    (Some (mk_req UT_WRITE_CLASS_INTERFACE UR_SET_PROTOCOL (USETW protocol)
                  (sc_iface_no sc, 0) (USETW 0)))
    None 0.

(** [usbhid_set_report]. *)
Definition usbhid_set_report (stack : usb_stack) (polling : bool)
    (sc : usbhid_softc) (bf : option nat) (ln type id : Z) :=
  usbhid_sync_xfer stack polling sc USBHID_CTRL_DT_WR
    (Some (mk_req UT_WRITE_CLASS_INTERFACE UR_SET_REPORT (USETW2 type id)
                  (sc_iface_no sc, 0) (USETW ln)))
    bf ln.

(** [usbhid_write]: the report goes out on the interrupt pipe. *)
Definition usbhid_write (stack : usb_stack) (polling : bool)
    (sc : usbhid_softc) (bf : option nat) (ln : Z) :=
  usbhid_sync_xfer stack polling sc USBHID_INTR_DT_WR None bf ln.

(** [usbhid_read]. *)
Definition usbhid_read (sc : usbhid_softc) (bf : option nat) (maxlen : Z) : Z :=
  ENOTSUP.

(** The three transfers the bridge drives ([usbhid_sync_xfer] is never
    called on the interrupt-in transfer). *)
Definition bridged (i : xfer_index) : bool :=
  match i with USBHID_INTR_DT_RD => false | _ => true end.

Definition is_control (i : xfer_index) : bool :=
  match i with USBHID_CTRL_DT_WR | USBHID_CTRL_DT_RD => true | _ => false end.

(** The status is an error that is not a cancellation. *)
Definition is_failure (e : usb_error_t) : bool :=
  match e with
  | USB_ERR_NORMAL_COMPLETION | USB_ERR_CANCELLED => false
  | _ => true
  end.

Definition is_normal (e : usb_error_t) : bool :=
  match e with USB_ERR_NORMAL_COMPLETION => true | _ => false end.

(** The caller enters at once: polling mode, or no exchange in flux. *)
Definition enters (polling : bool) (sc : usbhid_softc) : bool :=
  polling || negb (influx (sc_tr sc)).

(** The results of an exchange that interest the caller. *)
Definition outcome (r : option (Z * usbhid_softc * list usb_action))
  : option Z :=
  match r with Some (e, _, _) => Some e | None => None end.

Definition actions (r : option (Z * usbhid_softc * list usb_action))
  : list usb_action :=
  match r with Some (_, _, a) => a | None => [] end.

(** The wait of either mode: the polling loop, or the sleep. *)
Definition wait_loop (stack : usb_stack) (polling : bool) :=
  if polling then poll_loop stack else sleep_loop stack.

End UsbhidMore.

(** ** Properties of the bus registry *)

Module HidbusFacts.
Import Hidbus BusTrace Expected.

Lemma u8_succ (a : Z) : u8 (u8 a + 1) = u8 (a + 1).
Proof. unfold u8. now rewrite Zplus_mod_idemp_l. Qed.

Lemma u8_idem (a : Z) : u8 (u8 a) = u8 a.
Proof. unfold u8. now rewrite Z.mod_mod. Qed.

Lemma u8_small (a : Z) : 0 <= a < 256 -> u8 a = a.
Proof. intros H. unfold u8. now apply Z.mod_small. Qed.

Lemma map_untouched (f : hidbus_ivar -> hidbus_ivar) (c : device_t)
    (l : list hidbus_ivar) :
  (forall t, In t l -> (child t < c)%nat) ->
  map (fun t => if Nat.eqb (child t) c then f t else t) l = l.
Proof.
  intros H. induction l as [|t l IH]; simpl; [reflexivity|].
  rewrite IH by (intros; apply H; now right).
  assert (Hc : (child t < c)%nat) by (apply H; now left).
  destruct (Nat.eqb_spec (child t) c); [lia | reflexivity].
Qed.

Lemma records_length (l : list hid_item) :
  forall ndev idx, length (records ndev idx l) = length l.
Proof. induction l; intros; simpl; auto. Qed.

Lemma records_index (l : list hid_item) :
  forall ndev (k : nat),
    (k + length l <= 256)%nat ->
    map index (records ndev (Z.of_nat k) l)
    = map Z.of_nat (seq k (length l)).
Proof.
  induction l as [|hi l IH]; intros ndev k Hk; simpl in *; [reflexivity|].
  rewrite u8_small by lia. f_equal.
  replace (Z.of_nat k + 1) with (Z.of_nat (S k)) by lia.
  apply IH. lia.
Qed.

Lemma records_usage (l : list hid_item) :
  forall ndev idx,
    map usage (records ndev idx l) = map (fun hi => u32 (hi_usage hi)) l.
Proof. induction l; intros; simpl; [reflexivity | f_equal; auto]. Qed.

Lemma records_child (l : list hid_item) :
  forall ndev idx,
    map child (records ndev idx l) = seq ndev (length l).
Proof. induction l; intros; simpl; [reflexivity | f_equal; auto]. Qed.

Lemma is_tlc_false (hi : hid_item) :
  negb (hid_kind_eqb (hi_kind hi) hid_collection)
  || negb (hi_collevel hi =? 1) = negb (is_tlc hi).
Proof. unfold is_tlc. now rewrite negb_involutive. Qed.

(** The two [hidbus_set_*] calls reach the record just appended. *)
Lemma set_fresh_record (sc : hidbus_softc) (c : device_t) (i u : Z) :
  (forall t, In t (tlcs sc) -> (child t < c)%nat) ->
  hidbus_set_usage
    (hidbus_set_index
       (set_tlcs sc (tlcs sc ++ [mk_ivar c 0 0 false None])) c i) c u
  = set_tlcs sc (tlcs sc ++ [mk_ivar c (u8 i) (u32 u) false None]).
Proof.
  intros Hfresh.
  unfold hidbus_set_usage, hidbus_set_index, hidbus_write_ivar, set_tlcs.
  simpl. f_equal.
  rewrite map_map, map_app. simpl.
  rewrite Nat.eqb_refl. simpl. rewrite Nat.eqb_refl.
  f_equal.
  rewrite <- (map_untouched (fun t => set_usage (set_index t (u8 i)) (u32 u))
                            c (tlcs sc) Hfresh) at 2.
  apply map_ext_in. intros t Ht.
  apply Hfresh in Ht.
  destruct (Nat.eqb_spec (child t) c); [lia|].
  destruct (Nat.eqb_spec (child t) c); [lia | reflexivity].
Qed.

(** The loop, when every device allocation succeeds. *)
Lemma enumerate_loop_all_added (malloc_ok : nat -> bool) :
  (forall k, malloc_ok k = true) ->
  forall items sc idx ndev,
    (forall t, In t (tlcs sc) -> (child t < ndev)%nat) ->
    enumerate_loop malloc_ok items sc (u8 idx) ndev
    = (set_tlcs sc (tlcs sc ++ records ndev idx (filter is_tlc items)),
       u8 (idx + Z.of_nat (length (filter is_tlc items))),
       (ndev + length (filter is_tlc items))%nat).
Proof.
  intros Hm. induction items as [|hi items IH]; intros sc idx ndev Hfresh.
  - simpl. rewrite app_nil_r, Z.add_0_r, Nat.add_0_r.
    destruct sc; reflexivity.
  - cbn [enumerate_loop filter]. rewrite is_tlc_false.
    destruct (is_tlc hi) eqn:E; cbn [negb].
    + unfold hidbus_add_child, device_add_child_ordered. rewrite Hm.
      rewrite set_fresh_record by exact Hfresh.
      rewrite u8_succ, IH.
      * cbn [tlcs set_tlcs dev records length].
        rewrite <- app_assoc. cbn [app].
        replace (idx + 1 + Z.of_nat (length (filter is_tlc items)))
          with (idx + Z.of_nat (S (length (filter is_tlc items)))) by lia.
        replace (S ndev + length (filter is_tlc items))%nat
          with (ndev + S (length (filter is_tlc items)))%nat by lia.
        unfold set_tlcs. cbn [dev].
        rewrite u8_idem. reflexivity.
      * cbn [tlcs set_tlcs]. intros t Ht.
        apply in_app_or in Ht. destruct Ht as [Ht|[<-|[]]].
        -- apply Hfresh in Ht. lia.
        -- cbn. lia.
    + now apply IH.
Qed.

Lemma enumerate_loop_no_tlc (malloc_ok : nat -> bool) :
  forall items sc idx ndev,
    filter is_tlc items = [] ->
    enumerate_loop malloc_ok items sc idx ndev = (sc, idx, ndev).
Proof.
  induction items as [|hi items IH]; intros sc idx ndev H; [reflexivity|].
  cbn [enumerate_loop filter] in *. rewrite is_tlc_false.
  destruct (is_tlc hi); [discriminate | cbn [negb]; now apply IH].
Qed.

(** C1 (amended).  A descriptor without a top level collection makes
    enumeration fail with [ENXIO], and [hidbus_attach] then fails and
    leaves the subscriber queue empty.  A descriptor with [N] top level
    collections, [1 <= N <= 255], whose child devices can all be
    created, yields exactly [N] subscriber records, in descriptor
    order, with the indices [0 .. N-1] and the usages of the
    collections, and the bus attaches. *)
Theorem enumeration_indexes_subscribers
    (malloc_ok : nat -> bool) (items : list hid_item)
    (rc : Z) (d : device_t) (ndev : nat) :
  let found := filter is_tlc items in
  (found = [] ->
   fst (fst (hidbus_enumerate_children malloc_ok (Some items)
                                       (mk_softc d []) ndev)) = ENXIO
   /\ hidbus_attach malloc_ok (Some items) rc d ndev = (ENXIO, mk_softc d []))
  /\ ((forall k, malloc_ok k = true) ->
      (1 <= length found <= 255)%nat ->
      exists sc,
        hidbus_enumerate_children malloc_ok (Some items) (mk_softc d []) ndev
        = (0, sc, (ndev + length found)%nat)
        /\ hidbus_attach malloc_ok (Some items) rc d ndev = (0, sc)
        /\ length (tlcs sc) = length found
        /\ map index (tlcs sc) = map Z.of_nat (seq 0 (length found))
        /\ map usage (tlcs sc) = map (fun hi => u32 (hi_usage hi)) found
        /\ map child (tlcs sc) = seq ndev (length found)).
Proof.
  intros found. split.
  - intros H0. unfold hidbus_attach, hidbus_enumerate_children.
    rewrite (enumerate_loop_no_tlc malloc_ok items _ 0 ndev H0).
    split; reflexivity.
  - intros Hm HN.
    exists (mk_softc d (records ndev 0 found)).
    assert (Hloop :
      enumerate_loop malloc_ok items (mk_softc d []) 0 ndev
      = (mk_softc d (records ndev 0 found),
         Z.of_nat (length found), (ndev + length found)%nat)).
    { change 0 with (u8 0) at 1.
      rewrite (enumerate_loop_all_added malloc_ok Hm items (mk_softc d []) 0 ndev)
        by (intros t []).
      cbn [tlcs set_tlcs dev app]. fold found.
      rewrite Z.add_0_l, u8_small by lia. reflexivity. }
    assert (Hidx : (Z.of_nat (length found) =? 0) = false)
      by (apply Z.eqb_neq; lia).
    unfold hidbus_attach, hidbus_enumerate_children.
    rewrite Hloop, Hidx. cbn [negb Z.eqb tlcs].
    repeat split.
    + apply records_length.
    + apply (records_index found ndev 0). lia.
    + apply records_usage.
    + apply records_child.
Qed.

(** The amended C1 on a keyboard with a consumer-control collection,
    and on a descriptor without collections. *)
Lemma enumeration_indexes_subscribers_witness :
  hidbus_attach (fun _ => true) (Some [mk_hid_item hid_input 0 0]) 0 0%nat 1%nat
  = (ENXIO, mk_softc 0%nat [])
  /\ exists sc,
      hidbus_attach (fun _ => true)
        (Some [mk_hid_item hid_collection 1 65542;
               mk_hid_item hid_input 1 458976;
               mk_hid_item hid_endcollection 0 65542;
               mk_hid_item hid_collection 1 786433;
               mk_hid_item hid_collection 2 786433;
               mk_hid_item hid_endcollection 1 786433;
               mk_hid_item hid_endcollection 0 786433]) 0 0%nat 1%nat = (0, sc)
      /\ map index (tlcs sc) = [0; 1]
      /\ map usage (tlcs sc) = [65542; 786433].
Proof.
  split.
  - apply (proj1 (enumeration_indexes_subscribers
                    (fun _ => true) [mk_hid_item hid_input 0 0] 0 0%nat 1%nat)).
    reflexivity.
  - destruct (proj2 (enumeration_indexes_subscribers (fun _ => true)
        [mk_hid_item hid_collection 1 65542;
         mk_hid_item hid_input 1 458976;
         mk_hid_item hid_endcollection 0 65542;
         mk_hid_item hid_collection 1 786433;
         mk_hid_item hid_collection 2 786433;
         mk_hid_item hid_endcollection 1 786433;
         mk_hid_item hid_endcollection 0 786433] 0 0%nat 1%nat)
        (fun _ => eq_refl)) as [sc [_ [Ha [_ [Hi [Hu _]]]]]].
    + simpl. lia.
    + exists sc. repeat split; assumption.
Defined.

(** C1 as stated fails: with 256 top level collections the [uint8_t]
    counter is back at 0 when the loop ends, so enumeration reports
    [ENXIO] and the bus does not attach; and a collection whose child
    device cannot be allocated gets no record. *)
Lemma enumeration_counterexample :
  (length (filter is_tlc (collections 256 65538)) = 256%nat
   /\ fst (fst (hidbus_enumerate_children (fun _ => true)
                  (Some (collections 256 65538)) (mk_softc 0%nat []) 1%nat)) = ENXIO
   /\ hidbus_attach (fun _ => true) (Some (collections 256 65538)) 0 0%nat 1%nat
      = (ENXIO, mk_softc 0%nat []))
  /\ (length (filter is_tlc (collections 2 65538)) = 2%nat
      /\ exists sc,
          hidbus_attach (fun n => Nat.eqb n 1) (Some (collections 2 65538)) 0 0%nat 1%nat
          = (0, sc)
          /\ length (tlcs sc) = 1%nat).
Proof.
  split.
  - vm_compute. repeat split; reflexivity.
  - split; [reflexivity|]. eexists. split; [vm_compute; reflexivity|reflexivity].
Qed.

(** *** Open and close *)

Lemma start_loop_spec (c : device_t) :
  forall l opn,
    start_loop l c opn = (map (mark c true) l, opn || existsb open l).
Proof.
  induction l as [|t l IH]; intros opn; simpl.
  - now rewrite orb_false_r.
  - rewrite IH. now rewrite orb_assoc.
Qed.

Lemma stop_loop_spec (c : device_t) :
  forall l opn,
    stop_loop l c opn
    = (map (mark c false) l, opn || existsb open (map (mark c false) l)).
Proof.
  induction l as [|t l IH]; intros opn; simpl.
  - now rewrite orb_false_r.
  - rewrite IH. now rewrite orb_assoc.
Qed.

Lemma hid_start_spec (start_rc : Z) (sc : hidbus_softc) (c : device_t) :
  hid_start start_rc sc c
  = (if any_open sc then 0 else start_rc,
     set_tlcs sc (map (mark c true) (tlcs sc)),
     if any_open sc then [] else [HID_INTR_START]).
Proof.
  unfold hid_start, any_open. rewrite start_loop_spec. simpl.
  now destruct (existsb open (tlcs sc)).
Qed.

Lemma hid_stop_spec (stop_rc : Z) (sc : hidbus_softc) (c : device_t) :
  let sc' := set_tlcs sc (map (mark c false) (tlcs sc)) in
  hid_stop stop_rc sc c
  = (if any_open sc' then 0 else stop_rc, sc',
     if any_open sc' then [] else [HID_INTR_STOP]).
Proof.
  unfold hid_stop, any_open. rewrite stop_loop_spec. simpl.
  now destruct (existsb open (map (mark c false) (tlcs sc))).
Qed.

Lemma set_intr_loop_spec (c : device_t) (h : option hid_intr_t) :
  forall l,
    set_intr_loop l c h
    = map (fun t => if Nat.eqb (child t) c then set_intr t h else t) l.
Proof. induction l; simpl; [reflexivity | now f_equal]. Qed.

Lemma mark_child (c : device_t) (v : bool) (t : hidbus_ivar) :
  child (mark c v t) = child t.
Proof. unfold mark. now destruct (Nat.eqb (child t) c). Qed.

(** No call changes which devices subscribe. *)
Lemma exec_op_children (start_rc stop_rc : Z) (sc : hidbus_softc) (o : child_op) :
  map child (tlcs (fst (exec_op start_rc stop_rc sc o))) = map child (tlcs sc).
Proof.
  destruct o as [c h|c|c]; cbn [exec_op].
  - cbn. rewrite set_intr_loop_spec, map_map. apply map_ext.
    intros t. now destruct (Nat.eqb (child t) c).
  - rewrite hid_start_spec. cbn. rewrite map_map. apply map_ext.
    intros t. apply mark_child.
  - rewrite hid_stop_spec. cbn. rewrite map_map. apply map_ext.
    intros t. apply mark_child.
Qed.

Lemma existsb_child (c : device_t) (l : list hidbus_ivar) :
  existsb (fun t => Nat.eqb (child t) c) l
  = existsb (fun d => Nat.eqb d c) (map child l).
Proof. induction l; simpl; [reflexivity | now f_equal]. Qed.

Lemma subscriber_children (sc sc' : hidbus_softc) (c : device_t) :
  map child (tlcs sc') = map child (tlcs sc) ->
  subscriber sc' c = subscriber sc c.
Proof.
  unfold subscriber. intros H. now rewrite !existsb_child, H.
Qed.

(** Opening a subscriber of the bus leaves a subscriber open. *)
Lemma open_after_start (c : device_t) (l : list hidbus_ivar) :
  existsb (fun t => Nat.eqb (child t) c) l = true ->
  existsb open (map (mark c true) l) = true.
Proof.
  induction l as [|t l IH]; simpl; [discriminate|].
  unfold mark at 1.
  destruct (Nat.eqb (child t) c); simpl; [reflexivity|].
  intros H. rewrite (IH H). apply orb_true_r.
Qed.

(** C2 (amended).  Along every sequence of calls on subscribers of the
    bus, [hid_start] calls [HID_INTR_START] exactly when no subscriber
    was open before the call, which is a transition to "a subscriber is
    open"; [hid_stop] calls [HID_INTR_STOP] exactly when no subscriber
    is open after the call, whether or not one was open before it. *)
Theorem start_stop_calls (start_rc stop_rc : Z) (ops : list child_op) :
  forall sc : hidbus_softc,
    forallb (fun o => subscriber sc (op_child o)) ops = true ->
    Forall step_ok (run start_rc stop_rc sc ops).
Proof.
  induction ops as [|o ops IH]; intros sc Hsub; cbn [run]; [constructor|].
  cbn [forallb] in Hsub. apply andb_prop in Hsub. destruct Hsub as [Ho Hops].
  pose proof (exec_op_children start_rc stop_rc sc o) as Hch.
  destruct (exec_op start_rc stop_rc sc o) as [sc' calls] eqn:E.
  cbn [fst] in Hch. constructor.
  - unfold step_ok. cbn [the_op issued before after].
    destruct o as [c h|c|c]; cbn [exec_op op_child] in *.
    + now inversion E.
    + rewrite hid_start_spec in E. inversion E; subst. split; [reflexivity|].
      unfold any_open. cbn. now apply open_after_start.
    + rewrite hid_stop_spec in E. inversion E; subst. reflexivity.
  - apply IH. rewrite forallb_forall in *. intros o' Ho'.
    rewrite (subscriber_children sc sc' (op_child o') Hch). now apply Hops.
Qed.

(** The amended C2 on two subscribers: open both, close both. *)
Lemma start_stop_calls_witness :
  Forall step_ok
    (run 0 0 (mk_softc 0%nat [mk_ivar 1 0 65538 false None;
                              mk_ivar 2 1 65542 false None])
         [Start 2; Start 1; Stop 2; Stop 1]%nat)
  /\ map issued
       (run 0 0 (mk_softc 0%nat [mk_ivar 1 0 65538 false None;
                                 mk_ivar 2 1 65542 false None])
            [Start 2; Start 1; Stop 2; Stop 1]%nat)
     = [[HID_INTR_START]; []; []; [HID_INTR_STOP]].
Proof.
  split.
  - apply (start_stop_calls 0 0 [Start 2; Start 1; Stop 2; Stop 1]%nat).
    reflexivity.
  - reflexivity.
Defined.

(** C2 as stated fails: closing a subscriber of a bus on which no
    subscriber is open calls [HID_INTR_STOP], although the bus makes no
    transition from "a subscriber is open". *)
Lemma stop_on_idle_bus_counterexample :
  any_open (mk_softc 0%nat [mk_ivar 1 0 65538 false None]) = false
  /\ subscriber (mk_softc 0%nat [mk_ivar 1 0 65538 false None]) 1 = true
  /\ hid_stop 0 (mk_softc 0%nat [mk_ivar 1 0 65538 false None]) 1
     = (0, mk_softc 0%nat [mk_ivar 1 0 65538 false None], [HID_INTR_STOP]).
Proof. repeat split. Qed.

(** *** Dispatch *)

(** The calls a broadcast owes to the records [l]: one per open
    record with a handler, in order. *)
Lemma intr_loop_delivers (buf : list Z) (len : Z) :
  forall l,
    forallb (fun t => implb (open t) (has_intr t)) l = true ->
    exists calls,
      intr_loop l buf len = Delivered calls
      /\ map call_child calls = map child (filter open l)
      /\ map (fun c => Some (call_intr c)) calls = map intr (filter open l)
      /\ Forall (fun c => call_buf c = buf /\ call_len c = len) calls.
Proof.
  induction l as [|t l IH]; intros H.
  - exists []. repeat split; constructor.
  - cbn [forallb] in H. apply andb_prop in H. destruct H as [Ht Hl].
    destruct (IH Hl) as [calls [E [Hc [Hi Hb]]]].
    cbn [intr_loop filter]. unfold has_intr in Ht.
    destruct (open t) eqn:Eo.
    + destruct (intr t) as [h|] eqn:Ei; [|discriminate].
      exists (mk_call h (child t) buf len :: calls).
      rewrite E. cbn. rewrite Hc, Hi, Ei. repeat split.
      constructor; [split; reflexivity | exact Hb].
    + exists calls. repeat split; assumption.
Qed.

(** C3 (amended).  On a bus state in which every open subscriber has a
    handler registered, a broadcast of [(buf, len)] calls the handlers
    of exactly the subscribers whose open flag is set, in queue order,
    each with its own device, the same buffer and the same length; a
    closed subscriber is not called. *)
Theorem dispatch_reaches_open_subscribers
    (sc : hidbus_softc) (buf : list Z) (len : Z) :
  open_has_intr sc = true ->
  exists calls,
    hidbus_intr sc buf len = Delivered calls
    /\ map call_child calls = map child (filter open (tlcs sc))
    /\ map (fun c => Some (call_intr c)) calls
       = map intr (filter open (tlcs sc))
    /\ Forall (fun c => call_buf c = buf /\ call_len c = len) calls.
Proof. intros H. now apply intr_loop_delivers. Qed.

(** The amended C3 on the scenario of the specification: two
    subscribers, the second one open, an 8-byte report. *)
Lemma dispatch_reaches_open_subscribers_witness :
  exists calls,
    hidbus_intr (mk_softc 0 [mk_ivar 1 0 65538 false (Some 11%nat);
                             mk_ivar 2 1 65542 true (Some 12%nat)])
                [1; 2; 3; 4; 5; 6; 7; 8] 8 = Delivered calls
    /\ map call_child calls = [2%nat]
    /\ map (fun c => Some (call_intr c)) calls = [Some 12%nat]
    /\ Forall (fun c => call_buf c = [1; 2; 3; 4; 5; 6; 7; 8] /\ call_len c = 8)
              calls.
Proof.
  apply (dispatch_reaches_open_subscribers
           (mk_softc 0 [mk_ivar 1 0 65538 false (Some 11%nat);
                        mk_ivar 2 1 65542 true (Some 12%nat)])
           [1; 2; 3; 4; 5; 6; 7; 8] 8).
  reflexivity.
Defined.

(** C3 as stated fails: when an open subscriber has no handler, the
    assertion stops the broadcast, and an open subscriber behind it in
    the queue is not called. *)
Lemma dispatch_counterexample :
  filter open [mk_ivar 1 0 65538 true None; mk_ivar 2 1 65542 true (Some 12%nat)]
  = [mk_ivar 1 0 65538 true None; mk_ivar 2 1 65542 true (Some 12%nat)]
  /\ hidbus_intr (mk_softc 0 [mk_ivar 1 0 65538 true None;
                              mk_ivar 2 1 65542 true (Some 12%nat)])
                 [1; 2; 3; 4; 5; 6; 7; 8] 8 = Panic [].
Proof. split; reflexivity. Qed.

(** *** Open implies a handler *)

Lemma exec_op_keeps_handlers (start_rc stop_rc : Z) (sc : hidbus_softc)
    (o : child_op) :
  open_has_intr sc = true ->
  op_ok sc o = true ->
  open_has_intr (fst (exec_op start_rc stop_rc sc o)) = true.
Proof.
  unfold open_has_intr. intros Hinv Hok.
  rewrite forallb_forall in Hinv. apply forallb_forall.
  destruct o as [c h|c|c]; cbn [exec_op].
  - cbn. rewrite set_intr_loop_spec. intros t' Hin.
    apply in_map_iff in Hin. destruct Hin as [t [<- Hin]].
    specialize (Hinv t Hin).
    destruct (Nat.eqb (child t) c) eqn:Ec; [|exact Hinv].
    destruct h as [h|].
    + unfold has_intr, set_intr. cbn. apply implb_true_r.
    + cbn [op_ok] in Hok. rewrite forallb_forall in Hok.
      specialize (Hok t Hin). rewrite Ec in Hok. cbn in Hok.
      unfold set_intr. cbn. now destruct (open t).
  - rewrite hid_start_spec. cbn. intros t' Hin.
    apply in_map_iff in Hin. destruct Hin as [t [<- Hin]].
    specialize (Hinv t Hin). unfold mark.
    destruct (Nat.eqb (child t) c) eqn:Ec; [|exact Hinv].
    cbn [op_ok] in Hok. rewrite forallb_forall in Hok.
    specialize (Hok t Hin). rewrite Ec in Hok. cbn in Hok.
    unfold has_intr, set_open in *. cbn. exact Hok.
  - rewrite hid_stop_spec. cbn. intros t' Hin.
    apply in_map_iff in Hin. destruct Hin as [t [<- Hin]].
    specialize (Hinv t Hin). unfold mark.
    destruct (Nat.eqb (child t) c); [reflexivity | exact Hinv].
Qed.

(** C9 (amended).  From a bus state in which every open subscriber
    has a handler (such as the state after enumeration, where none is
    open), every sequence of calls in which a child opens only while
    it has a handler registered, and clears its handler only while it
    is closed, leads to a state in which every open subscriber has a
    handler; the assertion of the broadcast then does not fire. *)
Theorem open_implies_handler (start_rc stop_rc : Z) (ops : list child_op) :
  forall sc : hidbus_softc,
    open_has_intr sc = true ->
    ops_ok start_rc stop_rc sc ops = true ->
    open_has_intr (exec start_rc stop_rc sc ops) = true
    /\ forall buf len, exists calls,
         hidbus_intr (exec start_rc stop_rc sc ops) buf len = Delivered calls.
Proof.
  induction ops as [|o ops IH]; intros sc Hinv Hok; cbn [exec].
  - split; [exact Hinv|]. intros buf len.
    destruct (intr_loop_delivers buf len (tlcs sc) Hinv) as [calls [E _]].
    now exists calls.
  - cbn [ops_ok] in Hok. apply andb_prop in Hok. destruct Hok as [Ho Hops].
    apply IH; [now apply exec_op_keeps_handlers | exact Hops].
Qed.

(** The amended C9 on one subscriber: register, open, close, clear. *)
Lemma open_implies_handler_witness :
  open_has_intr
    (exec 0 0 (mk_softc 0 [mk_ivar 1 0 65538 false None])
          [SetIntr 1 (Some 11%nat); Start 1; Stop 1; SetIntr 1 None; Stop 1]%nat)
  = true
  /\ forall buf len, exists calls,
       hidbus_intr
         (exec 0 0 (mk_softc 0 [mk_ivar 1 0 65538 false None])
               [SetIntr 1 (Some 11%nat); Start 1; Stop 1; SetIntr 1 None; Stop 1]%nat)
         buf len = Delivered calls.
Proof.
  apply (open_implies_handler 0 0
           [SetIntr 1 (Some 11%nat); Start 1; Stop 1; SetIntr 1 None; Stop 1]%nat
           (mk_softc 0 [mk_ivar 1 0 65538 false None])); reflexivity.
Defined.

(** C9 as stated fails: a child of a freshly attached bus that calls
    [hid_start] without [hid_set_intr] is open without a handler, and
    the next broadcast trips the assertion; so does a child that
    clears its handler while it is open. *)
Lemma open_without_handler_counterexample :
  hidbus_attach (fun _ => true) (Some (collections 1 65538)) 0 0 1
  = (0, mk_softc 0 [mk_ivar 1 0 65538 false None])
  /\ open_has_intr
       (exec 0 0 (mk_softc 0 [mk_ivar 1 0 65538 false None]) [Start 1]) = false
  /\ hidbus_intr
       (exec 0 0 (mk_softc 0 [mk_ivar 1 0 65538 false None]) [Start 1])
       [0] 1 = Panic []
  /\ hidbus_intr
       (exec 0 0 (mk_softc 0 [mk_ivar 1 0 65538 false None])
             [SetIntr 1 (Some 11%nat); Start 1; SetIntr 1 None])
       [0] 1 = Panic [].
Proof. repeat split. Qed.

End HidbusFacts.

(** ** Properties of the I2C backend *)

Module IichidFacts.
Import Iichid.

Lemma low_byte (x : Z) : u8 (Z.land x 255) = x mod 256.
Proof.
  unfold u8. change 255 with (Z.ones 8).
  rewrite Z.land_ones by lia. change (2 ^ 8) with 256.
  now rewrite Z.mod_mod.
Qed.

Lemma high_byte (x : Z) : 0 <= x < 65536 -> u8 (Z.shiftr x 8) = x / 256.
Proof.
  intros H. unfold u8. rewrite Z.shiftr_div_pow2 by lia.
  change (2 ^ 8) with 256. apply Z.mod_small.
  split; [apply Z.div_pos; lia | apply Z.div_lt_upper_bound; lia].
Qed.

Lemma nibble_byte (id type : Z) :
  0 <= id < 16 -> 0 <= type < 16 ->
  u8 (Z.lor id (Z.shiftl type 4)) = Z.lor id (Z.shiftl type 4).
Proof.
  intros Hi Ht. unfold u8. apply Z.mod_small.
  assert (Hs : 0 <= Z.shiftl type 4) by (apply Z.shiftl_nonneg; lia).
  split; [apply Z.lor_nonneg; lia|].
  assert (Hlog : forall a, 0 <= a -> (a < 2 ^ 8 <-> Z.log2 a < 8)).
  { intros a Ha. destruct (Z.eq_dec a 0) as [->|Hn].
    - cbn. lia.
    - rewrite (Z.log2_lt_pow2 a 8) by lia. reflexivity. }
  change 256 with (2 ^ 8). apply Hlog; [apply Z.lor_nonneg; lia|].
  rewrite Z.log2_lor by lia.
  assert (H1 : Z.log2 id < 8).
  { apply Hlog; [lia|]. change (2 ^ 8) with 256. lia. }
  assert (H2 : Z.log2 (Z.shiftl type 4) < 8).
  { apply Hlog; [lia|]. rewrite Z.shiftl_mul_pow2 by lia.
    change (2 ^ 4) with 16. change (2 ^ 8) with 256. lia. }
  lia.
Qed.

Lemma u8_small_id (a : Z) : 0 <= a < 256 -> u8 a = a.
Proof. intros H. unfold u8. now apply Z.mod_small. Qed.

(** The first calls of [iichid_get_report], whatever the device answers. *)
Lemma get_report_events (bus : iicbus) (desc : i2c_hid_desc)
    (buf : list Z) (len type id : Z) :
  exists rest,
    snd (iichid_get_report bus desc buf len type id)
    = device_printf (msg_get_report id type len)
        :: malloc (len + 2 + (if id >=? 15 then 2 else 1))
        :: iicbus_transfer
             (firstn (Z.to_nat (get_report_cmdlen id))
                     (get_report_cmd desc type id))
             (len + 2 + (if id >=? 15 then 2 else 1))
        :: rest.
Proof.
  unfold iichid_get_report.
  destruct (iichid_fetch_buffer bus (get_report_cmd desc type id)
              (get_report_cmdlen id) _ _) as [err tmprep].
  destruct (negb (err =? 0)); [eexists; reflexivity|].
  match goal with |- context [if negb (?d =? id) then _ else _] =>
    destruct (negb (d =? id)) end; eexists; reflexivity.
Qed.

(** C4.  The command frame of a GET_REPORT exchange for report type
    [type] and report ID [id] is the one [iichid_get_report] writes to
    the bus: the transfer is asked of the bus with these bytes, the
    call returns [EIO] exactly when the bus fails the transfer of these
    bytes, and its result depends on the bus through the answer to
    these bytes only.  For [id < 15] the frame has six bytes: the low
    and the high byte of the command register, [id | type << 4] (as a
    byte), the GET_REPORT opcode, the low and the high byte of the data
    register.  For [id >= 15] it has seven: the command register,
    [0xF | type << 4] (as a byte), the opcode, the full [id], the data
    register. *)
Theorem get_report_frame (bus : iicbus) (desc : i2c_hid_desc)
    (buf : list Z) (len type id : Z) :
  0 <= id < 256 ->
  0 <= type < 256 ->
  0 <= wCommandRegister desc < 65536 ->
  0 <= wDataRegister desc < 65536 ->
  exists frame rest,
    snd (iichid_get_report bus desc buf len type id)
    = device_printf (msg_get_report id type len)
        :: malloc (len + 2 + (if id >=? 15 then 2 else 1))
        :: iicbus_transfer frame (len + 2 + (if id >=? 15 then 2 else 1))
        :: rest
    /\ (id < 15 ->
        frame = [wCommandRegister desc mod 256; wCommandRegister desc / 256;
                 Z.lor id (Z.shiftl type 4) mod 256;
                 I2C_HID_CMD_GET_REPORT;
                 wDataRegister desc mod 256; wDataRegister desc / 256]
        /\ length frame = 6%nat
        /\ (type < 16 ->
            Z.lor id (Z.shiftl type 4) mod 256 = Z.lor id (Z.shiftl type 4)))
    /\ (15 <= id ->
        frame = [wCommandRegister desc mod 256; wCommandRegister desc / 256;
                 Z.lor 15 (Z.shiftl type 4) mod 256;
                 I2C_HID_CMD_GET_REPORT;
                 id;
                 wDataRegister desc mod 256; wDataRegister desc / 256]
        /\ length frame = 7%nat
        /\ (type < 16 ->
            Z.lor 15 (Z.shiftl type 4) mod 256 = Z.lor 15 (Z.shiftl type 4)))
    /\ response bus desc len type id
       = (fst (bus frame (len + 2 + (if id >=? 15 then 2 else 1))),
          overlay
            (map u8 (snd (bus frame (len + 2 + (if id >=? 15 then 2 else 1)))))
            (repeat 0 (Z.to_nat (len + 2 + (if id >=? 15 then 2 else 1))))
            (len + 2 + (if id >=? 15 then 2 else 1)))
    /\ (fst (fst (iichid_get_report bus desc buf len type id)) = EIO
        <-> fst (bus frame (len + 2 + (if id >=? 15 then 2 else 1))) <> 0)
    /\ (forall bus' : iicbus,
          bus' frame (len + 2 + (if id >=? 15 then 2 else 1))
          = bus frame (len + 2 + (if id >=? 15 then 2 else 1)) ->
          iichid_get_report bus' desc buf len type id
          = iichid_get_report bus desc buf len type id).
Proof.
  intros Hid Hty Hc Hd.
  exists (firstn (Z.to_nat (get_report_cmdlen id)) (get_report_cmd desc type id)).
  destruct (get_report_events bus desc buf len type id) as [rest Hev].
  exists rest. split; [exact Hev|].
  split; [|split].
  - intros Hlt. unfold get_report_cmd, get_report_cmdlen, htole16.
    change (u8 I2C_HID_CMD_GET_REPORT) with I2C_HID_CMD_GET_REPORT.
    assert (E : (id >=? 15) = false) by (rewrite Z.geb_leb; apply Z.leb_gt; lia).
    rewrite E. change (Z.to_nat 6) with 6%nat. cbn [firstn].
    rewrite !low_byte, !high_byte by assumption.
    repeat split. intros Ht. apply (nibble_byte id type); lia.
  - intros Hlt. unfold get_report_cmd, get_report_cmdlen, htole16.
    change (u8 I2C_HID_CMD_GET_REPORT) with I2C_HID_CMD_GET_REPORT.
    assert (E : (id >=? 15) = true) by (rewrite Z.geb_leb; apply Z.leb_le; lia).
    rewrite E. change (Z.to_nat 7) with 7%nat. cbn [firstn].
    rewrite !low_byte, !high_byte by assumption.
    rewrite (u8_small_id id) by lia.
    repeat split. intros Ht. apply (nibble_byte 15 type); lia.
  - set (frame := firstn (Z.to_nat (get_report_cmdlen id))
                         (get_report_cmd desc type id)).
    set (report_len := len + 2 + (if id >=? 15 then 2 else 1)).
    split; [|split].
    + unfold response, iichid_fetch_buffer. fold frame report_len.
      now destruct (bus frame report_len).
    + unfold iichid_get_report, iichid_fetch_buffer. fold frame report_len.
      destruct (bus frame report_len) as [e data]. cbn [fst snd].
      destruct (Z.eqb_spec e 0) as [He|He]; cbn [negb].
      * match goal with |- context [if negb (?d =? id) then _ else _] =>
          destruct (negb (d =? id)) end; cbn [fst];
          (split; [unfold EIO; discriminate | intros H; now elim H]).
      * cbn [fst]. split; [intros _; exact He | reflexivity].
    + intros bus' E.
      unfold iichid_get_report, iichid_fetch_buffer. fold frame report_len.
      now rewrite E.
Qed.

(** The frames of the specification's examples, and the one of the
    comment in [iichid_get_report]. *)
Example frame_type3_id8 :
  firstn 6 (get_report_cmd (mk_desc 0 0 34 35) 3 8) = [34; 0; 56; 2; 35; 0].
Proof. reflexivity. Qed.

Example frame_id5 :
  firstn (Z.to_nat (get_report_cmdlen 5)) (get_report_cmd (mk_desc 0 0 34 35) 1 5)
  = [34; 0; 21; 2; 35; 0].
Proof. reflexivity. Qed.

Example frame_id20 :
  firstn (Z.to_nat (get_report_cmdlen 20)) (get_report_cmd (mk_desc 0 0 34 35) 1 20)
  = [34; 0; 31; 2; 20; 35; 0].
Proof. reflexivity. Qed.

(** The frame reaches the bus: a device that answers only to the frame
    of the comment in [iichid_get_report] ("type 3 id 8") is read, and
    one that waits for any other frame is not. *)
Example frame_reaches_bus :
  fst (iichid_get_report
         (answering_only [34; 0; 56; 2; 35; 0] [5; 0; 8; 7; 9])
         (mk_desc 0 0 34 35) [0; 0] 2 3 8)
  = (0, [7; 9])
  /\ fst (fst (iichid_get_report
                 (answering_only [34; 0; 56; 2; 35] [5; 0; 8; 7; 9])
                 (mk_desc 0 0 34 35) [0; 0] 2 3 8))
     = EIO.
Proof. split; reflexivity. Qed.

(** C4 at report ID 20, feature report, on a device that answers to
    the seven-byte frame only. *)
Lemma get_report_frame_witness :
  exists frame rest,
    snd (iichid_get_report (answering_only [34; 0; 63; 2; 20; 35; 0] [4; 0; 20; 0])
                           (mk_desc 0 0 34 35) [] 0 3 20)
    = device_printf (msg_get_report 20 3 0)
        :: malloc 4 :: iicbus_transfer frame 4 :: rest
    /\ (20 < 15 ->
        frame = [34 mod 256; 34 / 256; Z.lor 20 (Z.shiftl 3 4) mod 256;
                 I2C_HID_CMD_GET_REPORT; 35 mod 256; 35 / 256]
        /\ length frame = 6%nat
        /\ (3 < 16 ->
            Z.lor 20 (Z.shiftl 3 4) mod 256 = Z.lor 20 (Z.shiftl 3 4)))
    /\ (15 <= 20 ->
        frame = [34 mod 256; 34 / 256; Z.lor 15 (Z.shiftl 3 4) mod 256;
                 I2C_HID_CMD_GET_REPORT; 20; 35 mod 256; 35 / 256]
        /\ length frame = 7%nat
        /\ (3 < 16 ->
            Z.lor 15 (Z.shiftl 3 4) mod 256 = Z.lor 15 (Z.shiftl 3 4)))
    /\ response (answering_only [34; 0; 63; 2; 20; 35; 0] [4; 0; 20; 0])
                (mk_desc 0 0 34 35) 0 3 20
       = (fst (answering_only [34; 0; 63; 2; 20; 35; 0] [4; 0; 20; 0] frame 4),
          overlay
            (map u8 (snd (answering_only [34; 0; 63; 2; 20; 35; 0]
                                         [4; 0; 20; 0] frame 4)))
            (repeat 0 (Z.to_nat 4)) 4)
    /\ (fst (fst (iichid_get_report
                    (answering_only [34; 0; 63; 2; 20; 35; 0] [4; 0; 20; 0])
                    (mk_desc 0 0 34 35) [] 0 3 20)) = EIO
        <-> fst (answering_only [34; 0; 63; 2; 20; 35; 0] [4; 0; 20; 0] frame 4)
            <> 0)
    /\ (forall bus' : iicbus,
          bus' frame 4
          = answering_only [34; 0; 63; 2; 20; 35; 0] [4; 0; 20; 0] frame 4 ->
          iichid_get_report bus' (mk_desc 0 0 34 35) [] 0 3 20
          = iichid_get_report
              (answering_only [34; 0; 63; 2; 20; 35; 0] [4; 0; 20; 0])
              (mk_desc 0 0 34 35) [] 0 3 20).
Proof.
  apply (get_report_frame
           (answering_only [34; 0; 63; 2; 20; 35; 0] [4; 0; 20; 0])
           (mk_desc 0 0 34 35) [] 0 3 20);
    cbn; lia.
Defined.

(** *** The response *)

Ltac in_events := rewrite ?in_app_iff; cbn [In]; auto 12.

Ltac not_in_events H :=
  repeat match type of H with
         | In _ (_ ++ _) => apply in_app_or in H
         | In _ (if ?b then _ else _) => destruct b
         | In _ (_ :: _) => cbn [In] in H
         | In _ [] => destruct H
         | False => destruct H
         | _ \/ _ => destruct H as [H|H]
         | _ = _ => discriminate H
         end.

(** The bytes [memcpy] moves, when the device answered in full and the
    caller's buffer has room. *)
Lemma payload_copied (data buf : list Z) (len k : Z) :
  0 <= len -> 0 <= k ->
  (Z.to_nat (len + k) <= length data)%nat ->
  (Z.to_nat len <= length buf)%nat ->
  overlay
    (skipn (Z.to_nat k)
           (overlay (map u8 data) (repeat 0 (Z.to_nat (len + k))) (len + k)))
    buf len
  = firstn (Z.to_nat len) (skipn (Z.to_nat k) (map u8 data))
    ++ skipn (Z.to_nat len) buf.
Proof.
  intros Hl Hk Hd Hb. unfold overlay at 2.
  rewrite length_map, repeat_length.
  replace (Nat.min (Z.to_nat (len + k))
                   (Nat.min (length data) (Z.to_nat (len + k))))
    with (Z.to_nat (len + k)) by lia.
  rewrite (skipn_all2 (repeat 0 (Z.to_nat (len + k))))
    by (rewrite repeat_length; lia).
  rewrite app_nil_r. unfold overlay.
  rewrite length_skipn, length_firstn, length_map.
  replace (Nat.min (Z.to_nat len)
             (Nat.min (Nat.min (Z.to_nat (len + k)) (length data) - Z.to_nat k)
                      (length buf)))
    with (Z.to_nat len) by lia.
  f_equal. rewrite skipn_firstn_comm, firstn_firstn.
  f_equal. lia.
Qed.

(** C5.  The three outcomes of [iichid_get_report].  A failed
    transfer returns [EIO].  An echoed report ID that differs from the
    requested one is fatal: the temporary buffer is freed, nothing is
    copied to the caller's buffer and the call returns a nonzero error
    (the value 1).  Otherwise the call copies the payload out and
    returns 0, whether or not the declared length equals the expected
    one: a mismatch is only logged. *)
Theorem get_report_response (bus : iicbus) (desc : i2c_hid_desc)
    (buf : list Z) (len type id : Z) :
  let report_id_len := if id >=? 15 then 2 else 1 in
  let report_len := len + 2 + report_id_len in
  let err := fst (response bus desc len type id) in
  let tmprep := snd (response bus desc len type id) in
  let r := iichid_get_report bus desc buf len type id in
  (err <> 0 ->
   fst (fst r) = EIO /\ snd (fst r) = buf
   /\ In free (snd r) /\ ~ In (memcpy len) (snd r))
  /\ (err = 0 -> echoed_id id tmprep <> id ->
      fst (fst r) = 1 /\ fst (fst r) <> 0 /\ snd (fst r) = buf
      /\ In free (snd r) /\ ~ In (memcpy len) (snd r)
      /\ In (device_printf (msg_response_id (echoed_id id tmprep) id)) (snd r))
  /\ (err = 0 -> echoed_id id tmprep = id ->
      fst (fst r) = 0
      /\ snd (fst r)
         = overlay (skipn (Z.to_nat (2 + report_id_len)) tmprep) buf len
      /\ In (memcpy len) (snd r) /\ In free (snd r)
      /\ (declared_length tmprep <> report_len <->
          In (device_printf
                (msg_response_size (declared_length tmprep) report_len))
             (snd r))
      /\ (0 <= len ->
          (Z.to_nat report_len
           <= length (snd (bus (firstn (Z.to_nat (get_report_cmdlen id))
                                       (get_report_cmd desc type id))
                               report_len)))%nat ->
          (Z.to_nat len <= length buf)%nat ->
          snd (fst r)
          = firstn (Z.to_nat len)
              (skipn (Z.to_nat (2 + report_id_len))
                 (map u8 (snd (bus (firstn (Z.to_nat (get_report_cmdlen id))
                                           (get_report_cmd desc type id))
                                   report_len))))
            ++ skipn (Z.to_nat len) buf)).
Proof.
  cbv zeta. unfold response, iichid_get_report, echoed_id, declared_length.
  destruct (iichid_fetch_buffer bus (get_report_cmd desc type id)
              (get_report_cmdlen id) _ _) as [err tmprep] eqn:Ef.
  cbn [fst snd].
  assert (Hrid : ((if id >=? 15 then 2 else 1) =? 2) = (id >=? 15))
    by (now destruct (id >=? 15)).
  rewrite Hrid.
  destruct (Z.eqb_spec err 0) as [He|He]; cbn [negb fst snd].
  - split; [intros; contradiction|].
    match goal with |- context [if negb (?d =? id) then _ else _] =>
      destruct (Z.eqb_spec d id) as [Hd|Hd] end; cbn [negb fst snd].
    + split; [intros; contradiction|]. intros _ _.
      split; [reflexivity|]. split; [reflexivity|].
      split; [in_events|]. split; [in_events|].
      split.
      * split.
        -- intros Hne. apply Z.eqb_neq in Hne. rewrite Hne. cbn [negb].
           in_events.
        -- intros Hin Heq. apply Z.eqb_eq in Heq. rewrite Heq in Hin.
           cbn [negb] in Hin. not_in_events Hin.
      * intros Hl Hdata Hbuf.
        unfold iichid_fetch_buffer in Ef.
        destruct (bus _ _) as [e data] eqn:Eb. cbn [snd] in Hdata.
        inversion Ef; subst.
        replace (len + 2 + (if id >=? 15 then 2 else 1))
          with (len + (2 + (if id >=? 15 then 2 else 1))) in * by lia.
        apply payload_copied; cbn [snd]; try lia.
        destruct (id >=? 15); lia.
    + split.
      * intros _ _. split; [reflexivity|]. split; [discriminate|].
        split; [reflexivity|]. split; [in_events|].
        split; [intros Hin; not_in_events Hin | in_events].
      * intros; contradiction.
  - split.
    + intros _. split; [reflexivity|]. split; [reflexivity|].
      split; [in_events | intros Hin; not_in_events Hin].
    + split; intros; contradiction.
Qed.

(** C5 on a 4-byte report with ID 8: a device that answers with a
    wrong length but the right ID, one that echoes another ID, and a
    bus that fails. *)
Lemma get_report_response_witness :
  iichid_get_report (fun _ _ => (0, [9; 0; 8; 10; 11; 12; 13]))
                    (mk_desc 0 0 34 35) [0; 0; 0; 0] 4 3 8
  = (0, [10; 11; 12; 13],
     [device_printf (msg_get_report 8 3 4); malloc 7;
      iicbus_transfer [34; 0; 56; 2; 35; 0] 7;
      device_printf (msg_response_size 9 7);
      device_printf (msg_response 7 [9; 0; 8; 10; 11; 12; 13]);
      memcpy 4; free])
  /\ fst (iichid_get_report (fun _ _ => (0, [7; 0; 9; 10; 11; 12; 13]))
                            (mk_desc 0 0 34 35) [0; 0; 0; 0] 4 3 8)
     = (1, [0; 0; 0; 0])
  /\ fst (iichid_get_report (fun _ _ => (5, []))
                            (mk_desc 0 0 34 35) [0; 0; 0; 0] 4 3 8)
     = (EIO, [0; 0; 0; 0])
  /\ fst (fst (iichid_get_report (fun _ _ => (0, [9; 0; 8; 10; 11; 12; 13]))
                                 (mk_desc 0 0 34 35) [0; 0; 0; 0] 4 3 8)) = 0.
Proof.
  split; [reflexivity|]. split; [reflexivity|]. split; [reflexivity|].
  refine (proj1 (proj2 (proj2 (get_report_response
                                 (fun _ _ => (0, [9; 0; 8; 10; 11; 12; 13]))
                                 (mk_desc 0 0 34 35) [0; 0; 0; 0] 4 3 8))
                       _ _));
    reflexivity.
Defined.

(** *** Switching between polling and the interrupt *)

(** When the interrupt can be set up, a write of a negative rate in
    poll mode leaves the interrupt registered and the timer stopped,
    and a write of a positive rate in interrupt mode leaves the timer
    armed and the interrupt torn down. *)
Lemma switch_with_working_irq (hz : Z) (env : irq_env) (sc : iichid)
    (value : Z) (r : nat) :
  alloc_res env = Some r -> setup_intr_rc env = 0 ->
  let sc' := snd (iichid_sysctl_sampling_rate_handler hz env 0 (Some value) sc) in
  (0 <= sampling_rate sc -> value < 0 ->
   interrupt_registered sc' = true /\ timer_armed sc' = false)
  /\ (sampling_rate sc < 0 -> 0 < value ->
      interrupt_registered sc' = false /\ timer_armed sc' = true).
Proof.
  intros Ha Hrc. unfold iichid_sysctl_sampling_rate_handler.
  cbn [Z.eqb negb orb]. split; intros Hold Hnew.
  - assert (E1 : (value =? sampling_rate sc) = false) by (apply Z.eqb_neq; lia).
    assert (E2 : (sampling_rate sc <? 0) = false) by (apply Z.ltb_ge; lia).
    assert (E3 : (sampling_rate sc >=? 0) = true)
      by (rewrite Z.geb_leb; apply Z.leb_le; lia).
    assert (E4 : (value <? 0) = true) by (apply Z.ltb_lt; lia).
    assert (E5 : (value >? 0) = false) by (rewrite Z.gtb_ltb; apply Z.ltb_ge; lia).
    rewrite E1, E2, E3, E4, E5. cbn [andb snd].
    unfold iichid_setup_interrupt. rewrite Ha, Hrc. cbn. split; reflexivity.
  - assert (E1 : (value =? sampling_rate sc) = false) by (apply Z.eqb_neq; lia).
    assert (E2 : (sampling_rate sc <? 0) = true) by (apply Z.ltb_lt; lia).
    assert (E4 : (value >=? 0) = true)
      by (rewrite Z.geb_leb; apply Z.leb_le; lia).
    assert (E5 : (value >? 0) = true) by (rewrite Z.gtb_ltb; apply Z.ltb_lt; lia).
    assert (E6 : (value <? 0) = false) by (apply Z.ltb_ge; lia).
    assert (E7 : (value <=? 0) = false) by (apply Z.leb_gt; lia).
    rewrite E1, E2, E4, E5. cbn [andb snd].
    unfold iichid_setup_callout, iichid_teardown_interrupt.
    cbn [sampling_rate]. rewrite E6. cbn [snd].
    unfold iichid_reset_callout. cbn [sampling_rate callout_setup].
    rewrite E7. cbn. split; reflexivity.
Qed.

(** C7, at the failing input.  A device without an interrupt line
    starts in poll mode with the timer armed.  A write of -1 to the
    sampling rate tears the timer down, [bus_alloc_resource_any] finds
    no interrupt, [iichid_setup_interrupt] reports success all the same
    and the handler does not look at its result: no event source is
    left.  The same happens when [bus_setup_intr] fails, while at
    set-up [iichid_set_intr] falls back to the timer in that case (but
    not when the allocation fails, which is reported as success). *)
Theorem sampling_rate_switch_leaves_no_source :
  let no_irq := mk_irq_env None 0 0 0 in
  let bad_intr := mk_irq_env (Some 1%nat) 0 ENXIO 0 in
  let polling :=
    snd (iichid_set_intr 100 10 no_irq 0 (mk_iichid 0 false None 0 None None)) in
  polling = mk_iichid 10 true (Some 10) 0 None None
  /\ active_sources polling = 1%nat
  /\ iichid_sysctl_sampling_rate_handler 100 no_irq 0 (Some (-1)) polling
     = (0, mk_iichid (-1) false None 0 None None)
  /\ active_sources
       (snd (iichid_sysctl_sampling_rate_handler 100 no_irq 0 (Some (-1)) polling))
     = 0%nat
  /\ active_sources
       (snd (iichid_sysctl_sampling_rate_handler 100 bad_intr 0 (Some (-1)) polling))
     = 0%nat
  /\ active_sources
       (snd (iichid_set_intr 100 10 bad_intr 5 (mk_iichid 0 false None 0 None None)))
     = 1%nat
  /\ active_sources
       (snd (iichid_set_intr 100 10 no_irq 5 (mk_iichid 0 false None 0 None None)))
     = 0%nat.
Proof. cbv zeta. repeat split. Qed.

End IichidFacts.

(** ** Properties of the USB bridge *)

Module UsbhidFacts.
Import Usbhid.

(** C6 (amended).  Only the interrupt-write callback recovers: on an
    error other than cancellation it clears the stall and re-arms the
    transfer (the steps of [USB_ST_SETUP] after the length check)
    without touching the outcome, and on cancellation it completes the
    exchange with [EIO].  The control-read and control-write callbacks
    complete the exchange with [EIO] on every error, cancelled or not,
    with no stall-clear and no new submission. *)
Theorem error_state_of_callbacks (polling : bool) (err : usb_error_t)
    (max : Z) (c : usbhid_xfer_ctx) :
  usbhid_intr_wr_callback polling USB_ST_ERROR err max c
  = (if is_cancelled err
     then (set_error c EIO, tr_exit polling)
     else (c, [usbd_xfer_set_stall;
               usbd_copy_in_buf 0 (buf c) (len c);
               usbd_xfer_set_frame_len 0 (len c);
               usbd_transfer_submit]))
  /\ (usbhid_ctrl_wr_callback polling USB_ST_ERROR err max c
      = (set_error c EIO, tr_exit polling)
      /\ usbhid_ctrl_rd_callback polling USB_ST_ERROR err max c
         = (set_error c EIO, tr_exit polling))
  /\ existsb is_stall (tr_exit polling) = false
  /\ existsb is_submit (tr_exit polling) = false
  /\ error (set_error c EIO) = EIO.
Proof.
  repeat split.
  - unfold usbhid_intr_wr_callback. now destruct (is_cancelled err).
  - now destruct polling.
  - now destruct polling.
Qed.

(** C6 as stated fails: a stall on a control read (or write) is not
    cleared and the transfer is not re-armed; the exchange fails with
    [EIO] at once, where the same stall on the interrupt-write pipe is
    cleared and the retry succeeds. *)
Lemma control_stall_counterexample :
  usbhid_ctrl_rd_callback false USB_ST_ERROR USB_ERR_STALLED 64
    (mk_ctx None (Some 7%nat) 1 ETIMEDOUT 0 true)
  = (mk_ctx None (Some 7%nat) 1 EIO 0 true, [wakeup])
  /\ usbhid_ctrl_wr_callback false USB_ST_ERROR USB_ERR_STALLED 64
       (mk_ctx None (Some 7%nat) 1 ETIMEDOUT 0 true)
     = (mk_ctx None (Some 7%nat) 1 EIO 0 true, [wakeup])
  /\ one_byte_exchange USBHID_CTRL_DT_RD USB_ERR_STALLED
     = Some (EIO,
             [usbd_copy_in_req 0 None; usbd_xfer_set_frame_len 0 8;
              usbd_xfer_set_frame_len 1 1; usbd_xfer_set_frames 2;
              usbd_transfer_submit; wakeup])
  /\ one_byte_exchange USBHID_INTR_DT_WR USB_ERR_STALLED
     = Some (0,
             [usbd_copy_in_buf 0 (Some 7%nat) 1; usbd_xfer_set_frame_len 0 1;
              usbd_transfer_submit;
              usbd_xfer_set_stall;
              usbd_copy_in_buf 0 (Some 7%nat) 1; usbd_xfer_set_frame_len 0 1;
              usbd_transfer_submit;
              wakeup]).
Proof. repeat split; vm_compute; reflexivity. Qed.

(** *** The polling-mode checkpoint *)

(** C8.  A call of [usbhid_sync_xfer] in polling mode returns, and the
    shared transfer context is afterwards what it was before the call,
    field by field, whatever the transfer, the arguments and the
    outcome of the exchange. *)
Theorem polling_call_restores_context (stack : usb_stack) (sc : usbhid_softc)
    (xfer_idx : xfer_index) (rq : option usb_device_request)
    (bf : option nat) (ln : Z) :
  exists err sc' acts,
    usbhid_sync_xfer stack true sc xfer_idx rq bf ln = Some (err, sc', acts)
    /\ sc_tr sc' = sc_tr sc
    /\ req (sc_tr sc') = req (sc_tr sc)
    /\ buf (sc_tr sc') = buf (sc_tr sc)
    /\ len (sc_tr sc') = len (sc_tr sc)
    /\ error (sc_tr sc') = error (sc_tr sc)
    /\ waiters (sc_tr sc') = waiters (sc_tr sc)
    /\ influx (sc_tr sc') = influx (sc_tr sc).
Proof.
  unfold usbhid_sync_xfer. cbn [negb andb].
  destruct (usbd_transfer_start true _ xfer_idx) as [sc0 a0].
  destruct (poll_loop stack USB_DEFAULT_TIMEOUT 0 sc0 xfer_idx) as [sc1 a1].
  destruct (usbd_transfer_stop stack true sc1 xfer_idx) as [sc2 a2].
  do 3 eexists. split; [reflexivity|]. cbn [sc_tr set_tr]. repeat split.
Qed.

(** In polling mode the exchange does run on the shared context: a
    control read that succeeds at the second poll returns 0 although
    the context, in flux for another thread, is left as it was. *)
Example polling_call_in_flux :
  match
    usbhid_sync_xfer
      (mk_stack (fun k => match k with
                          | 1%nat => Some (USB_ERR_NORMAL_COMPLETION, 1)
                          | _ => None
                          end) false)
      true
      (mk_softc 0 64 None (fun _ => Some (mk_xfer 64 false))
                (mk_ctx None (Some 3%nat) 4 ETIMEDOUT 2 true))
      USBHID_CTRL_DT_RD None (Some 7%nat) 1
  with
  | Some (e, sc', _) => (e, sc_tr sc')
  | None => (1, mk_ctx None None 0 0 0 false)
  end
  = (0, mk_ctx None (Some 3%nat) 4 ETIMEDOUT 2 true).
Proof. vm_compute. reflexivity. Qed.

(** *** The length [usbhid_get_report] reports *)

(** For a control read the callbacks do not look at the number of
    bytes the hardware moved. *)
Lemma deliver_ctrl_rd_status (s s' : usb_stack) (polling : bool) (k : nat)
    (sc : usbhid_softc) :
  same_statuses s s' ->
  deliver s polling k sc USBHID_CTRL_DT_RD
  = deliver s' polling k sc USBHID_CTRL_DT_RD.
Proof.
  intros [H _]. unfold deliver. specialize (H k).
  destruct (sc_xfer sc USBHID_CTRL_DT_RD) as [x|]; [|reflexivity].
  destruct (pending x); [|reflexivity].
  destruct (completion s k) as [[e n]|], (completion s' k) as [[e' n']|];
    cbn in H; try discriminate; [|reflexivity].
  inversion H; subst. now destruct e'.
Qed.

Lemma poll_loop_ctrl_rd_status (s s' : usb_stack) :
  same_statuses s s' ->
  forall timeout k sc,
    poll_loop s timeout k sc USBHID_CTRL_DT_RD
    = poll_loop s' timeout k sc USBHID_CTRL_DT_RD.
Proof.
  intros H. induction timeout as [|t IH]; intros k sc; cbn [poll_loop];
    [reflexivity|].
  rewrite (deliver_ctrl_rd_status s s' true k sc H).
  destruct (deliver s' true k sc USBHID_CTRL_DT_RD) as [sc1 a1].
  now rewrite IH.
Qed.

Lemma sleep_loop_ctrl_rd_status (s s' : usb_stack) :
  same_statuses s s' ->
  forall timeout k sc,
    sleep_loop s timeout k sc USBHID_CTRL_DT_RD
    = sleep_loop s' timeout k sc USBHID_CTRL_DT_RD.
Proof.
  intros H. induction timeout as [|t IH]; intros k sc; cbn [sleep_loop];
    [reflexivity|].
  rewrite (deliver_ctrl_rd_status s s' false k sc H).
  destruct (deliver s' false k sc USBHID_CTRL_DT_RD) as [sc1 a1].
  now rewrite IH.
Qed.

Lemma sync_xfer_ctrl_rd_status (s s' : usb_stack) (polling : bool)
    (sc : usbhid_softc) (rq : option usb_device_request) (bf : option nat)
    (ln : Z) :
  same_statuses s s' ->
  usbhid_sync_xfer s polling sc USBHID_CTRL_DT_RD rq bf ln
  = usbhid_sync_xfer s' polling sc USBHID_CTRL_DT_RD rq bf ln.
Proof.
  intros H. unfold usbhid_sync_xfer.
  destruct (negb polling && influx (sc_tr sc)); [reflexivity|].
  destruct (usbd_transfer_start polling _ USBHID_CTRL_DT_RD) as [sc0 a0].
  rewrite (poll_loop_ctrl_rd_status s s' H),
          (sleep_loop_ctrl_rd_status s s' H).
  destruct (if polling then _ else _) as [sc1 a1].
  unfold usbd_transfer_stop. destruct H as [_ H]. now rewrite H.
Qed.

(** C10.  When [usbhid_get_report] succeeds and the caller passed a
    place for the actual length, that place holds [maxlen] afterwards;
    when the call fails the place is left as it was.  The number of
    bytes the device returned plays no part: two devices that differ
    only in these numbers give the same result. *)
Theorem get_report_reports_maxlen (stack stack' : usb_stack) (polling : bool)
    (sc sc' : usbhid_softc) (bf : option nat) (maxlen : Z)
    (actlen actlen' : option Z) (type id err : Z) :
  usbhid_get_report stack polling sc bf maxlen actlen type id
  = Some (err, sc', actlen') ->
  (err = 0 -> forall v, actlen = Some v -> actlen' = Some maxlen)
  /\ (err <> 0 -> actlen' = actlen)
  /\ (actlen = None -> actlen' = None)
  /\ (same_statuses stack stack' ->
      usbhid_get_report stack' polling sc bf maxlen actlen type id
      = Some (err, sc', actlen')).
Proof.
  intros H. repeat split.
  - intros He v Hv. unfold usbhid_get_report in H.
    destruct (usbhid_sync_xfer _ _ _ _ _ _ _) as [[[e s1] a]|]; [|discriminate].
    inversion H; subst. reflexivity.
  - intros He. unfold usbhid_get_report in H.
    destruct (usbhid_sync_xfer _ _ _ _ _ _ _) as [[[e s1] a]|]; [|discriminate].
    inversion H; subst. destruct actlen as [v|]; [|reflexivity].
    apply Z.eqb_neq in He. now rewrite He.
  - intros Hn. unfold usbhid_get_report in H.
    destruct (usbhid_sync_xfer _ _ _ _ _ _ _) as [[[e s1] a]|]; [|discriminate].
    inversion H; subst. reflexivity.
  - intros Hs. rewrite <- H. unfold usbhid_get_report.
    now rewrite (sync_xfer_ctrl_rd_status stack stack' polling sc _ bf maxlen Hs).
Qed.

(** C10 on a feature report of at most 8 bytes: the device returns 3
    bytes, the caller is told 8, as for a device that returns 8. *)
Lemma get_report_reports_maxlen_witness :
  exists sc',
    usbhid_get_report (short_device 3) false idle_softc (Some 7%nat) 8
                      (Some 99) 3 1
    = Some (0, sc', Some 8)
    /\ usbhid_get_report (short_device 8) false idle_softc (Some 7%nat) 8
                         (Some 99) 3 1
       = Some (0, sc', Some 8).
Proof.
  eexists. split.
  - vm_compute. reflexivity.
  - refine (proj2 (proj2 (proj2
      (get_report_reports_maxlen (short_device 3) (short_device 8) false
         idle_softc _ (Some 7%nat) 8 (Some 99) (Some 8) 3 1 0 _))) _).
    + vm_compute. reflexivity.
    + split; [intros [|[|[|k]]]; reflexivity | reflexivity].
Defined.

End UsbhidFacts.

(** ** Further properties of the bus registry *)

Module HidbusExtra.
Import Hidbus BusTrace Expected HidbusMore.

(** *** Lookup by usage *)

(** [hidbus_find_child] answers with the device of the first
    subscriber that has the usage, and with [NULL] exactly when no
    subscriber has it. *)
Theorem find_child_first_match (sc : hidbus_softc) (u : Z) :
  (forall c, hidbus_find_child sc u = Some c <->
     exists before t rest,
       tlcs sc = before ++ t :: rest
       /\ usage t = u /\ child t = c
       /\ Forall (fun t' => usage t' <> u) before)
  /\ (hidbus_find_child sc u = None <->
      Forall (fun t => usage t <> u) (tlcs sc)).
Proof.
  unfold hidbus_find_child. induction (tlcs sc) as [|t l [IHs IHn]].
  - split.
    + intros c. split; [discriminate|].
      intros [b [t [r [H _]]]]. destruct b; discriminate.
    + split; constructor.
  - cbn [find_child_loop]. destruct (Z.eqb_spec (usage t) u) as [E|E].
    + split.
      * intros c. split.
        -- intros H. inversion H; subst.
           exists [], t, l. repeat split. constructor.
        -- intros [b [t' [r [H [Hu [Hc Hb]]]]]].
           destruct b as [|t0 b]; cbn in H; inversion H; subst.
           ++ reflexivity.
           ++ inversion Hb; subst. contradiction.
      * split; [discriminate|]. intros H. inversion H; subst. contradiction.
    + split.
      * intros c. rewrite IHs. split.
        -- intros [b [t' [r [H [Hu [Hc Hb]]]]]].
           exists (t :: b), t', r. rewrite H. repeat split; auto.
        -- intros [b [t' [r [H [Hu [Hc Hb]]]]]].
           destruct b as [|t0 b]; cbn in H; inversion H; subst.
           ++ contradiction.
           ++ inversion Hb; subst. exists b, t', r. repeat split; auto.
      * rewrite IHn. split.
        -- intros H. constructor; assumption.
        -- intros H. now inversion H.
Qed.

(** *** Enumeration when devices cannot be created *)

Lemma enumerate_loop_created (malloc_ok : nat -> bool) :
  forall items sc idx ndev,
    (forall t, In t (tlcs sc) -> (child t < ndev)%nat) ->
    enumerate_loop malloc_ok items sc (u8 idx) ndev
    = (set_tlcs sc (tlcs sc ++ created malloc_ok ndev idx (filter is_tlc items)),
       u8 (idx + Z.of_nat
                   (length (created malloc_ok ndev idx (filter is_tlc items)))),
       (ndev + length (filter is_tlc items))%nat).
Proof.
  induction items as [|hi items IH]; intros sc idx ndev Hfresh.
  - simpl. rewrite app_nil_r, Z.add_0_r, Nat.add_0_r.
    destruct sc; reflexivity.
  - cbn [enumerate_loop filter]. rewrite HidbusFacts.is_tlc_false.
    destruct (is_tlc hi) eqn:E; cbn [negb]; [|now apply IH].
    unfold hidbus_add_child, device_add_child_ordered. cbn [created].
    destruct (malloc_ok ndev) eqn:Em.
    + rewrite HidbusFacts.set_fresh_record by exact Hfresh.
      rewrite HidbusFacts.u8_succ, IH.
      * cbn [tlcs set_tlcs dev length].
        rewrite <- app_assoc. cbn [app].
        rewrite HidbusFacts.u8_idem. unfold set_tlcs. cbn [dev].
        rewrite Nat.add_succ_r. cbn [Nat.add].
        match goal with |- (_, u8 ?a, _) = (_, u8 ?b, _) =>
          replace b with a by lia end.
        reflexivity.
      * cbn [tlcs set_tlcs]. intros t Ht.
        apply in_app_or in Ht. destruct Ht as [Ht|[<-|[]]].
        -- apply Hfresh in Ht. lia.
        -- cbn. lia.
    + rewrite IH.
      * cbn [length]. rewrite Nat.add_succ_r. reflexivity.
      * intros t Ht. apply Hfresh in Ht. lia.
Qed.

Lemma created_child (malloc_ok : nat -> bool) (l : list hid_item) :
  forall ndev idx,
    map child (created malloc_ok ndev idx l)
    = filter malloc_ok (seq ndev (length l)).
Proof.
  induction l as [|hi l IH]; intros ndev idx; cbn [created length seq filter];
    [reflexivity|].
  destruct (malloc_ok ndev); cbn [map child]; now rewrite IH.
Qed.

Lemma created_index (malloc_ok : nat -> bool) (l : list hid_item) :
  forall ndev (k : nat),
    map index (created malloc_ok ndev (Z.of_nat k) l)
    = map (fun i => u8 (Z.of_nat i))
          (seq k (length (created malloc_ok ndev (Z.of_nat k) l))).
Proof.
  induction l as [|hi l IH]; intros ndev k; cbn [created]; [reflexivity|].
  destruct (malloc_ok ndev); [|apply IH].
  cbn [map index length seq]. f_equal.
  replace (Z.of_nat k + 1) with (Z.of_nat (S k)) by lia. apply IH.
Qed.

Lemma created_closed (malloc_ok : nat -> bool) (l : list hid_item) :
  forall ndev idx,
    Forall (fun t => open t = false /\ intr t = None)
           (created malloc_ok ndev idx l).
Proof.
  induction l as [|hi l IH]; intros ndev idx; cbn [created]; [constructor|].
  destruct (malloc_ok ndev); [constructor; [split; reflexivity|]|]; apply IH.
Qed.

Lemma created_length (malloc_ok : nat -> bool) (l : list hid_item) :
  forall ndev idx, (length (created malloc_ok ndev idx l) <= length l)%nat.
Proof.
  induction l as [|hi l IH]; intros ndev idx; cbn [created length]; [lia|].
  destruct (malloc_ok ndev); cbn [length]; specialize (IH (S ndev)).
  - specialize (IH (idx + 1)). lia.
  - specialize (IH idx). lia.
Qed.

Lemma enumeration_skips_failed_children_aux (malloc_ok : nat -> bool)
    (items : list hid_item) (d : device_t) (ndev : nat) :
  let made := created malloc_ok ndev 0 (filter is_tlc items) in
  hidbus_enumerate_children malloc_ok (Some items) (mk_softc d []) ndev
  = (if u8 (Z.of_nat (length made)) =? 0 then ENXIO else 0,
     mk_softc d made, (ndev + length (filter is_tlc items))%nat)
  /\ map index made = map (fun i => u8 (Z.of_nat i)) (seq 0 (length made))
  /\ (length made <= length (filter is_tlc items))%nat.
Proof.
  cbv zeta. split; [|split].
  - unfold hidbus_enumerate_children. change 0 with (u8 0) at 1.
    rewrite (enumerate_loop_created malloc_ok items (mk_softc d []) 0 ndev)
      by (intros t []).
    cbn [tlcs set_tlcs dev app]. rewrite Z.add_0_l.
    now destruct (u8 _ =? 0).
  - apply (created_index malloc_ok (filter is_tlc items) ndev 0).
  - apply created_length.
Qed.

(** Whatever devices the kernel can create, enumeration makes one
    record per top level collection whose device was created, in
    descriptor order, closed and without handler, on the devices that
    were created, numbered consecutively from 0 (modulo 256); it fails
    with [ENXIO] exactly when the number of records is a multiple of
    256, zero included. *)
Theorem enumeration_skips_failed_children (malloc_ok : nat -> bool)
    (items : list hid_item) (d : device_t) (ndev : nat) :
  let found := filter is_tlc items in
  let made := created malloc_ok ndev 0 found in
  hidbus_enumerate_children malloc_ok (Some items) (mk_softc d []) ndev
  = (if u8 (Z.of_nat (length made)) =? 0 then ENXIO else 0,
     mk_softc d made, (ndev + length found)%nat)
  /\ map child made = filter malloc_ok (seq ndev (length found))
  /\ map index made = map (fun i => u8 (Z.of_nat i)) (seq 0 (length made))
  /\ Forall (fun t => open t = false /\ intr t = None) made.
Proof.
  cbv zeta. split; [|split; [|split]].
  - unfold hidbus_enumerate_children. change 0 with (u8 0) at 1.
    rewrite (enumerate_loop_created malloc_ok items (mk_softc d []) 0 ndev)
      by (intros t []).
    cbn [tlcs set_tlcs dev app]. rewrite Z.add_0_l.
    now destruct (u8 _ =? 0).
  - apply created_child.
  - apply (created_index malloc_ok (filter is_tlc items) ndev 0).
  - apply created_closed.
Qed.

(** *** Instance variables *)

Lemma device_get_ivars_map (f : hidbus_ivar -> hidbus_ivar) (c c' : device_t) :
  (forall t, child (f t) = child t) ->
  forall l,
    device_get_ivars
      (map (fun t => if Nat.eqb (child t) c then f t else t) l) c'
    = option_map (fun t => if Nat.eqb (child t) c then f t else t)
                 (device_get_ivars l c').
Proof.
  intros Hf. induction l as [|t l IH]; [reflexivity|].
  cbn [map device_get_ivars].
  replace (child (if Nat.eqb (child t) c then f t else t)) with (child t)
    by (destruct (Nat.eqb (child t) c); [now rewrite Hf | reflexivity]).
  destruct (Nat.eqb (child t) c'); [reflexivity | exact IH].
Qed.

Lemma device_get_ivars_child (c : device_t) :
  forall l t, device_get_ivars l c = Some t -> child t = c /\ In t l.
Proof.
  induction l as [|t0 l IH]; intros t H; [discriminate|].
  cbn [device_get_ivars] in H.
  destruct (Nat.eqb_spec (child t0) c) as [E|E].
  - inversion H; subst. split; [reflexivity | now left].
  - destruct (IH t H) as [Hc Hin]. split; [exact Hc | now right].
Qed.

Lemma device_get_ivars_subscriber (sc : hidbus_softc) (c : device_t) :
  subscriber sc c = true -> exists t, device_get_ivars (tlcs sc) c = Some t.
Proof.
  unfold subscriber. induction (tlcs sc) as [|t l IH]; [discriminate|].
  cbn [existsb device_get_ivars].
  destruct (Nat.eqb (child t) c); [intros _; now exists t | exact IH].
Qed.

(** Writing the index or the usage of a subscriber and reading it back
    gives the value written, cut to 8 and to 32 bits; the other
    variable of the subscriber and the variables of every other device
    read as before; the device information cannot be written. *)
Theorem write_then_read_ivar (devinfo : Z) (sc : hidbus_softc)
    (c : device_t) (v : Z) :
  subscriber sc c = true ->
  (hidbus_write_ivar sc c HIDBUS_IVAR_INDEX v = (0, hidbus_set_index sc c v)
   /\ hidbus_read_ivar devinfo (hidbus_set_index sc c v) c
                       (Known HIDBUS_IVAR_INDEX) = Some (0, Some (u8 v))
   /\ hidbus_read_ivar devinfo (hidbus_set_index sc c v) c
                       (Known HIDBUS_IVAR_USAGE)
      = hidbus_read_ivar devinfo sc c (Known HIDBUS_IVAR_USAGE))
  /\ (hidbus_write_ivar sc c HIDBUS_IVAR_USAGE v = (0, hidbus_set_usage sc c v)
      /\ hidbus_read_ivar devinfo (hidbus_set_usage sc c v) c
                          (Known HIDBUS_IVAR_USAGE) = Some (0, Some (u32 v))
      /\ hidbus_read_ivar devinfo (hidbus_set_usage sc c v) c
                          (Known HIDBUS_IVAR_INDEX)
         = hidbus_read_ivar devinfo sc c (Known HIDBUS_IVAR_INDEX))
  /\ (forall c' w, c' <> c ->
        hidbus_read_ivar devinfo (hidbus_set_index sc c v) c' w
        = hidbus_read_ivar devinfo sc c' w
        /\ hidbus_read_ivar devinfo (hidbus_set_usage sc c v) c' w
           = hidbus_read_ivar devinfo sc c' w)
  /\ hidbus_write_ivar sc c HIDBUS_IVAR_DEVINFO v = (EINVAL, sc).
Proof.
  intros Hs. destruct (device_get_ivars_subscriber sc c Hs) as [t Ht].
  destruct (device_get_ivars_child c _ _ Ht) as [Hc _].
  unfold hidbus_read_ivar, hidbus_set_index, hidbus_set_usage,
    hidbus_write_ivar.
  cbn [snd tlcs set_tlcs].
  rewrite !device_get_ivars_map by reflexivity.
  rewrite Ht. cbn [option_map]. rewrite Hc, Nat.eqb_refl.
  split; [repeat split|]. split; [repeat split|]. split; [|reflexivity].
  - intros c' w Hne. rewrite !device_get_ivars_map by reflexivity.
    destruct (device_get_ivars (tlcs sc) c') as [t'|] eqn:Et'; [|split; reflexivity].
    destruct (device_get_ivars_child c' _ _ Et') as [Hc' _].
    cbn [option_map]. rewrite Hc'.
    destruct (Nat.eqb_spec c' c); [contradiction | split; reflexivity].
Qed.

(** Index 7 written to and read back from the second of two
    subscribers. *)
Lemma write_then_read_ivar_witness :
  hidbus_read_ivar 0
    (hidbus_set_index (mk_softc 0 [mk_ivar 1 0 65538 false None;
                                   mk_ivar 2 1 65542 false None]) 2 (256 + 7))
    2 (Known HIDBUS_IVAR_INDEX)
  = Some (0, Some (u8 (256 + 7))).
Proof.
  refine (proj1 (proj2 (proj1
    (write_then_read_ivar 0
       (mk_softc 0 [mk_ivar 1 0 65538 false None;
                    mk_ivar 2 1 65542 false None]) 2 (256 + 7) _)))).
  reflexivity.
Defined.

(** *** The index reserved for the raw device *)

Lemma get_index_set_index (sc : hidbus_softc) (c : device_t) (v : Z) :
  subscriber sc c = true ->
  hidbus_get_index (hidbus_set_index sc c v) c = Some (u8 v).
Proof.
  intros Hs. destruct (device_get_ivars_subscriber sc c Hs) as [t Ht].
  destruct (device_get_ivars_child c _ _ Ht) as [Hc _].
  unfold hidbus_get_index, hidbus_read_ivar, hidbus_set_index,
    hidbus_write_ivar.
  cbn [snd tlcs set_tlcs].
  rewrite device_get_ivars_map by reflexivity.
  rewrite Ht. cbn [option_map]. now rewrite Hc, Nat.eqb_refl.
Qed.

(** [uhid_match] refuses every child that enumeration made from a
    descriptor of at most 255 top level collections, whatever devices
    could be created, and accepts a child whose index was set to
    [UHID_INDEX]: the indices enumeration gives stay below the
    reserved one. *)
Theorem uhid_match_tells_raw_device (malloc_ok : nat -> bool)
    (items : list hid_item) (d : device_t) (ndev : nat) :
  ((length (filter is_tlc items) <= 255)%nat ->
   forall t,
     In t (tlcs (snd (fst (hidbus_enumerate_children malloc_ok (Some items)
                             (mk_softc d []) ndev)))) ->
     uhid_match (snd (fst (hidbus_enumerate_children malloc_ok (Some items)
                             (mk_softc d []) ndev))) (child t)
     = Some ENXIO)
  /\ (forall sc c,
        subscriber sc c = true ->
        uhid_match (hidbus_set_index sc c UHID_INDEX) c
        = Some BUS_PROBE_GENERIC).
Proof.
  split.
  - intros HN t Hin.
    destruct (enumeration_skips_failed_children_aux malloc_ok items d ndev)
      as [E [Hi Hl]].
    rewrite E in *. cbn [fst snd tlcs] in *.
    unfold uhid_match, hidbus_get_index, hidbus_read_ivar. cbn [tlcs].
    assert (Hs : subscriber
                   (mk_softc d (created malloc_ok ndev 0 (filter is_tlc items)))
                   (child t) = true).
    { unfold subscriber. apply existsb_exists. exists t.
      split; [exact Hin | apply Nat.eqb_refl]. }
    destruct (device_get_ivars_subscriber _ _ Hs) as [t' Ht'].
    cbn [tlcs] in Ht'. rewrite Ht'.
    destruct (device_get_ivars_child _ _ _ Ht') as [_ Hin'].
    apply (in_map index) in Hin'. rewrite Hi in Hin'.
    apply in_map_iff in Hin'. destruct Hin' as [i [Hidx Hi']].
    apply in_seq in Hi'.
    assert (Hlt : 0 <= Z.of_nat i < 255) by lia.
    rewrite <- Hidx, HidbusFacts.u8_small by lia.
    assert (Hne : (Z.of_nat i =? UHID_INDEX) = false)
      by (apply Z.eqb_neq; unfold UHID_INDEX; lia).
    now rewrite Hne.
  - intros sc c Hs. unfold uhid_match.
    now rewrite (get_index_set_index sc c UHID_INDEX Hs).
Qed.

(** The raw-device test on the records of a two-collection
    descriptor whose first device could not be created. *)
Lemma uhid_match_tells_raw_device_witness :
  uhid_match (snd (fst (hidbus_enumerate_children (fun n => Nat.eqb n 2)
                          (Some (collections 2 65538)) (mk_softc 0 []) 1)))
             2
  = Some ENXIO.
Proof.
  refine (proj1 (uhid_match_tells_raw_device (fun n => Nat.eqb n 2)
                   (collections 2 65538) 0 1) _
                (mk_ivar 2 0 65538 false None) _).
  - cbn. lia.
  - cbn. now left.
Defined.

(** *** The engine follows the open flags *)

Lemma closing_keeps_closed (c : device_t) (l : list hidbus_ivar) :
  existsb open (map (mark c false) l) = true -> existsb open l = true.
Proof.
  induction l as [|t l IH]; cbn [map existsb]; [discriminate|].
  intros H. apply orb_true_iff in H. apply orb_true_iff.
  destruct H as [H|H]; [left | right; now apply IH].
  unfold mark in H. destruct (Nat.eqb (child t) c); [discriminate | exact H].
Qed.

Lemma set_intr_keeps_open (sc : hidbus_softc) (c : device_t)
    (h : option hid_intr_t) :
  any_open (hid_set_intr sc c h) = any_open sc.
Proof.
  unfold any_open, hid_set_intr. cbn [tlcs set_tlcs].
  rewrite HidbusFacts.set_intr_loop_spec.
  induction (tlcs sc) as [|t l IHl]; [reflexivity|].
  cbn [map existsb]. rewrite IHl. f_equal.
  now destruct (Nat.eqb (child t) c).
Qed.

(** If the engine runs exactly when a subscriber is open, this is
    still so after any sequence of [hid_set_intr], [hid_start] and
    [hid_stop] calls on subscribers of the bus, the engine obeying each
    [HID_INTR_START] and [HID_INTR_STOP] it is sent. *)
Theorem engine_runs_iff_open (start_rc stop_rc : Z) (ops : list child_op) :
  forall (sc : hidbus_softc) (running : bool),
    forallb (fun o => subscriber sc (op_child o)) ops = true ->
    running = any_open sc ->
    engine_after running (concat (map issued (run start_rc stop_rc sc ops)))
    = any_open (exec start_rc stop_rc sc ops).
Proof.
  induction ops as [|o ops IH]; intros sc running Hsub Hrun;
    cbn [run exec]; [exact Hrun|].
  cbn [forallb] in Hsub. apply andb_prop in Hsub. destruct Hsub as [Ho Hops].
  pose proof (HidbusFacts.exec_op_children start_rc stop_rc sc o) as Hch.
  destruct (exec_op start_rc stop_rc sc o) as [sc' calls] eqn:E.
  cbn [fst] in *. cbn [map issued concat].
  assert (Hsub' : forallb (fun o => subscriber sc' (op_child o)) ops = true).
  { rewrite forallb_forall in *. intros o' Ho'.
    rewrite (HidbusFacts.subscriber_children sc sc' (op_child o') Hch).
    now apply Hops. }
  assert (Hstep : forall rest,
             engine_after running (calls ++ rest)
             = engine_after (any_open sc') rest).
  { intros rest. destruct o as [c h|c|c]; cbn [exec_op op_child] in *.
    - inversion E; subst. cbn [app]. now rewrite set_intr_keeps_open.
    - rewrite HidbusFacts.hid_start_spec in E. inversion E; subst.
      assert (Ha : any_open (set_tlcs sc (map (mark c true) (tlcs sc))) = true)
        by (unfold any_open; cbn; now apply HidbusFacts.open_after_start).
      rewrite Ha. now destruct (any_open sc).
    - rewrite HidbusFacts.hid_stop_spec in E. inversion E; subst.
      destruct (any_open (set_tlcs sc (map (mark c false) (tlcs sc)))) eqn:Ea;
        [|reflexivity].
      cbn [app]. f_equal. unfold any_open in *. cbn in Ea.
      now apply closing_keeps_closed in Ea. }
  rewrite Hstep. now apply IH.
Qed.

(** The engine over two opens and two closes, then a close too many. *)
Lemma engine_runs_iff_open_witness :
  engine_after false
    (concat (map issued
       (run 0 0 (mk_softc 0 [mk_ivar 1 0 65538 false None;
                             mk_ivar 2 1 65542 false None])
            [Start 2; Start 1; Stop 2; Stop 1; Stop 1]%nat)))
  = any_open
      (exec 0 0 (mk_softc 0 [mk_ivar 1 0 65538 false None;
                             mk_ivar 2 1 65542 false None])
            [Start 2; Start 1; Stop 2; Stop 1; Stop 1]%nat).
Proof.
  apply (engine_runs_iff_open 0 0 [Start 2; Start 1; Stop 2; Stop 1; Stop 1]%nat);
    reflexivity.
Defined.

(** *** Open, then close *)

Lemma unmark_mark (c : device_t) (l : list hidbus_ivar) :
  forallb (fun t => implb (Nat.eqb (child t) c) (negb (open t))) l = true ->
  map (mark c false) (map (mark c true) l) = l.
Proof.
  induction l as [|t l IH]; cbn [forallb map]; [reflexivity|].
  intros H. apply andb_prop in H. destruct H as [Ht Hl].
  rewrite (IH Hl). f_equal. unfold mark.
  destruct (Nat.eqb (child t) c) eqn:Ec; cbn [set_open child].
  - rewrite Ec. destruct t as [ch i u o h]. cbn in *.
    destruct o; [discriminate | reflexivity].
  - now rewrite Ec.
Qed.

(** Opening a closed subscriber and closing it again restores the
    bus state; on an idle bus the pair starts the engine and stops it,
    on a bus with another subscriber open it calls the transport not
    at all. *)
Theorem start_then_stop_restores (start_rc stop_rc : Z) (sc : hidbus_softc)
    (c : device_t) :
  forallb (fun t => implb (Nat.eqb (child t) c) (negb (open t))) (tlcs sc)
  = true ->
  let started := hid_start start_rc sc c in
  let stopped := hid_stop stop_rc (snd (fst started)) c in
  snd (fst stopped) = sc
  /\ snd started = (if any_open sc then [] else [HID_INTR_START])
  /\ snd stopped = (if any_open sc then [] else [HID_INTR_STOP]).
Proof.
  intros Hc. cbv zeta.
  rewrite HidbusFacts.hid_start_spec. cbn [fst snd].
  rewrite HidbusFacts.hid_stop_spec. cbn [fst snd tlcs set_tlcs dev].
  unfold any_open. cbn [tlcs set_tlcs]. rewrite (unmark_mark c _ Hc).
  repeat split.
  - now destruct sc.
Qed.

(** Open and close of the second of two closed subscribers. *)
Lemma start_then_stop_restores_witness :
  snd (fst (hid_stop 0
              (snd (fst (hid_start 0
                           (mk_softc 0 [mk_ivar 1 0 65538 false None;
                                        mk_ivar 2 1 65542 false None]) 2)))
              2))
  = mk_softc 0 [mk_ivar 1 0 65538 false None; mk_ivar 2 1 65542 false None].
Proof.
  refine (proj1 (start_then_stop_restores 0 0
                   (mk_softc 0 [mk_ivar 1 0 65538 false None;
                                mk_ivar 2 1 65542 false None]) 2 _));
    reflexivity.
Defined.

(** *** Who is called *)

Lemma calls_of_add (c : intr_call) (r : intr_result) :
  calls_of (add_call c r) = c :: calls_of r.
Proof. now destruct r. Qed.

(** A broadcast calls only open records, each through its own handler. *)
Lemma intr_loop_calls_open (buf : list Z) (len : Z) :
  forall l,
    Forall (fun call =>
              exists t, In t l /\ open t = true
                        /\ child t = call_child call
                        /\ intr t = Some (call_intr call))
           (calls_of (intr_loop l buf len)).
Proof.
  induction l as [|t l IH]; cbn [intr_loop]; [constructor|].
  assert (IH' : Forall (fun call =>
              exists t0, In t0 (t :: l) /\ open t0 = true
                         /\ child t0 = call_child call
                         /\ intr t0 = Some (call_intr call))
           (calls_of (intr_loop l buf len))).
  { eapply Forall_impl; [|exact IH]. cbn beta.
    intros call [t0 [Hin H]]. exists t0. split; [now right | exact H]. }
  destruct (open t) eqn:Eo; [|exact IH'].
  destruct (intr t) as [h|] eqn:Ei; [|constructor].
  rewrite calls_of_add. constructor; [|exact IH'].
  exists t. cbn. repeat split; auto.
Qed.

(** After [hid_stop] on a device, no broadcast calls a handler for
    that device, whether the broadcast completes or trips the
    assertion; and a broadcast never calls a closed subscriber. *)
Theorem stopped_child_is_not_called (stop_rc : Z) (sc : hidbus_softc)
    (c : device_t) (buf : list Z) (len : Z) :
  ~ In c (map call_child
            (calls_of (hidbus_intr (snd (fst (hid_stop stop_rc sc c))) buf len)))
  /\ (forall call,
        In call (calls_of (hidbus_intr sc buf len)) ->
        exists t, In t (tlcs sc) /\ open t = true
                  /\ child t = call_child call
                  /\ intr t = Some (call_intr call)).
Proof.
  split.
  - rewrite HidbusFacts.hid_stop_spec. cbn [fst snd].
    unfold hidbus_intr. cbn [tlcs set_tlcs]. intros Hin.
    apply in_map_iff in Hin. destruct Hin as [call [Hc Hin]].
    pose proof (intr_loop_calls_open buf len (map (mark c false) (tlcs sc))) as H.
    rewrite Forall_forall in H. destruct (H call Hin) as [t [Ht [Ho [Hch _]]]].
    apply in_map_iff in Ht. destruct Ht as [t0 [<- _]].
    unfold mark in *. destruct (Nat.eqb_spec (child t0) c) as [E|E].
    + cbn in Ho. discriminate.
    + congruence.
  - intros call Hin.
    pose proof (intr_loop_calls_open buf len (tlcs sc)) as H.
    rewrite Forall_forall in H. now apply H.
Qed.

Lemma intr_loop_reaches (buf : list Z) (len : Z) (c : device_t)
    (h : hid_intr_t) :
  forall l calls,
    intr_loop l buf len = Delivered calls ->
    (exists t, In t l /\ open t = true /\ child t = c /\ intr t = Some h) ->
    In (mk_call h c buf len) calls.
Proof.
  induction l as [|t l IH]; intros calls E [t0 [Hin [Ho [Hc Hi]]]];
    [destruct Hin|].
  cbn [intr_loop] in E. destruct Hin as [<-|Hin].
  - rewrite Ho, Hi, Hc in E.
    destruct (intr_loop l buf len) as [l'|l']; cbn in E; inversion E.
    now left.
  - assert (Hex : exists t1, In t1 l /\ open t1 = true /\ child t1 = c
                             /\ intr t1 = Some h)
      by (exists t0; auto).
    destruct (open t).
    + destruct (intr t) as [h'|]; [|discriminate].
      destruct (intr_loop l buf len) as [l'|l'] eqn:El; cbn in E; inversion E.
      right. now apply (IH l').
    + now apply (IH calls).
Qed.

(** A subscriber that registers a handler and opens is called by the
    next broadcast, with its device, the buffer and the length, on any
    bus where the open subscribers have handlers. *)
Theorem registered_open_child_is_called (start_rc : Z) (sc : hidbus_softc)
    (c : device_t) (h : hid_intr_t) (buf : list Z) (len : Z) :
  open_has_intr sc = true ->
  subscriber sc c = true ->
  exists calls,
    hidbus_intr (snd (fst (hid_start start_rc (hid_set_intr sc c (Some h)) c)))
                buf len
    = Delivered calls
    /\ In (mk_call h c buf len) calls.
Proof.
  intros Hinv Hs.
  assert (Hinv1 : open_has_intr (hid_set_intr sc c (Some h)) = true)
    by (apply (HidbusFacts.exec_op_keeps_handlers 0 0 sc (SetIntr c (Some h)));
        [exact Hinv | reflexivity]).
  assert (Hok : op_ok (hid_set_intr sc c (Some h)) (Start c) = true).
  { unfold op_ok, hid_set_intr. cbn [tlcs set_tlcs].
    rewrite HidbusFacts.set_intr_loop_spec. apply forallb_forall.
    intros t' Hin. apply in_map_iff in Hin. destruct Hin as [t [<- _]].
    destruct (Nat.eqb (child t) c) eqn:Ec.
    - unfold set_intr, has_intr. cbn. now rewrite Ec.
    - now rewrite Ec. }
  pose proof (HidbusFacts.exec_op_keeps_handlers start_rc 0 _ (Start c)
                Hinv1 Hok) as Hinv2.
  cbn [exec_op] in Hinv2.
  destruct (hid_start start_rc (hid_set_intr sc c (Some h)) c)
    as [[rc sc2] calls2] eqn:E2.
  cbn [fst snd] in *.
  destruct (HidbusFacts.intr_loop_delivers buf len (tlcs sc2) Hinv2)
    as [calls [Ed _]].
  exists calls. split; [exact Ed|].
  apply (intr_loop_reaches buf len c h (tlcs sc2) calls Ed).
  rewrite HidbusFacts.hid_start_spec in E2. inversion E2; subst.
  cbn [tlcs set_tlcs]. unfold hid_set_intr. cbn [tlcs set_tlcs].
  rewrite HidbusFacts.set_intr_loop_spec.
  destruct (device_get_ivars_subscriber sc c Hs) as [t Ht].
  destruct (device_get_ivars_child c _ _ Ht) as [Hc Hin].
  exists (mark c true (set_intr t (Some h))).
  split.
  - apply in_map. apply in_map_iff. exists t. now rewrite Hc, Nat.eqb_refl.
  - unfold mark, set_intr. cbn. rewrite Hc, Nat.eqb_refl. cbn. auto.
Qed.

(** The scenario of two subscribers: the second registers and opens,
    and an 8-byte report reaches it. *)
Lemma registered_open_child_is_called_witness :
  exists calls,
    hidbus_intr
      (snd (fst (hid_start 0
                   (hid_set_intr (mk_softc 0 [mk_ivar 1 0 65538 false None;
                                              mk_ivar 2 1 65542 false None])
                                 2 (Some 12%nat)) 2)))
      [1; 2; 3; 4; 5; 6; 7; 8] 8
    = Delivered calls
    /\ In (mk_call 12 2 [1; 2; 3; 4; 5; 6; 7; 8] 8) calls.
Proof.
  apply (registered_open_child_is_called 0
           (mk_softc 0 [mk_ivar 1 0 65538 false None;
                        mk_ivar 2 1 65542 false None]) 2 12
           [1; 2; 3; 4; 5; 6; 7; 8] 8); reflexivity.
Defined.

(** *** What open, close and register leave alone *)

Lemma exec_op_identity (start_rc stop_rc : Z) (sc : hidbus_softc) (o : child_op) :
  map identity (tlcs (fst (exec_op start_rc stop_rc sc o)))
  = map identity (tlcs sc).
Proof.
  destruct o as [c h|c|c]; cbn [exec_op].
  - cbn. rewrite HidbusFacts.set_intr_loop_spec, map_map. apply map_ext.
    intros t. now destruct (Nat.eqb (child t) c).
  - rewrite HidbusFacts.hid_start_spec. cbn. rewrite map_map. apply map_ext.
    intros t. unfold mark. now destruct (Nat.eqb (child t) c).
  - rewrite HidbusFacts.hid_stop_spec. cbn. rewrite map_map. apply map_ext.
    intros t. unfold mark. now destruct (Nat.eqb (child t) c).
Qed.

Lemma find_child_identity (u : Z) :
  forall l l',
    map identity l = map identity l' ->
    find_child_loop l u = find_child_loop l' u.
Proof.
  induction l as [|t l IH]; intros [|t' l'] H; try discriminate;
    [reflexivity|].
  cbn [map] in H. inversion H as [[Hc Hi Hu Hl]].
  cbn [find_child_loop]. rewrite Hu, Hc. now rewrite (IH l' Hl).
Qed.

(** No sequence of [hid_set_intr], [hid_start] and [hid_stop] calls
    changes the number or the order of the subscribers, or the device,
    the index or the usage of any of them; so [hidbus_find_child]
    answers as before. *)
Theorem calls_keep_subscribers (start_rc stop_rc : Z) (ops : list child_op) :
  forall sc : hidbus_softc,
    map identity (tlcs (exec start_rc stop_rc sc ops)) = map identity (tlcs sc)
    /\ forall u,
         hidbus_find_child (exec start_rc stop_rc sc ops) u
         = hidbus_find_child sc u.
Proof.
  induction ops as [|o ops IH]; intros sc; cbn [exec]; [split; reflexivity|].
  destruct (IH (fst (exec_op start_rc stop_rc sc o))) as [Hi Hf].
  pose proof (exec_op_identity start_rc stop_rc sc o) as Ho.
  split.
  - now rewrite Hi.
  - intros u. rewrite Hf. unfold hidbus_find_child.
    now apply find_child_identity.
Qed.

(** *** Lookup after enumeration *)

Lemma find_in_records (u : Z) :
  forall pre ndev idx hi post,
    Forall (fun hi' => u32 (hi_usage hi') <> u) pre ->
    u32 (hi_usage hi) = u ->
    find_child_loop (records ndev idx (pre ++ hi :: post)) u
    = Some (ndev + length pre)%nat.
Proof.
  induction pre as [|p pre IH]; intros ndev idx hi post Hpre Hu;
    cbn [app records find_child_loop usage child length].
  - apply Z.eqb_eq in Hu. rewrite Hu. now rewrite Nat.add_0_r.
  - inversion Hpre as [|? ? Hp Hrest]; subst.
    apply Z.eqb_neq in Hp. rewrite Hp.
    rewrite (IH (S ndev) (idx + 1) hi post Hrest eq_refl).
    f_equal. lia.
Qed.

(** After an enumeration in which every device was created,
    [hidbus_find_child] maps the usage of a top level collection to the
    device made for the first collection with that usage: the device
    number [ndev + k] of collection number [k]. *)
Theorem find_child_after_enumeration (malloc_ok : nat -> bool)
    (items pre post : list hid_item) (hi : hid_item) (rc : Z)
    (d : device_t) (ndev : nat) (sc : hidbus_softc) :
  (forall k, malloc_ok k = true) ->
  hidbus_attach malloc_ok (Some items) rc d ndev = (0, sc) ->
  filter is_tlc items = pre ++ hi :: post ->
  Forall (fun hi' => u32 (hi_usage hi') <> u32 (hi_usage hi)) pre ->
  hidbus_find_child sc (u32 (hi_usage hi)) = Some (ndev + length pre)%nat.
Proof.
  intros Hm Ha Hf Hpre.
  unfold hidbus_attach, hidbus_enumerate_children in Ha.
  change 0 with (u8 0) in Ha at 1.
  rewrite (HidbusFacts.enumerate_loop_all_added malloc_ok Hm items
             (mk_softc d []) 0 ndev) in Ha by (intros t []).
  cbn [tlcs set_tlcs dev app] in Ha.
  destruct (u8 _ =? 0); cbn [negb Z.eqb] in Ha.
  - inversion Ha.
  - inversion Ha; subst. unfold hidbus_find_child. cbn [tlcs].
    rewrite Hf. now apply find_in_records.
Qed.

(** Lookup of the consumer-control usage on a keyboard with a
    consumer-control collection. *)
Lemma find_child_after_enumeration_witness :
  hidbus_find_child
    (mk_softc 0 [mk_ivar 1 0 65542 false None; mk_ivar 2 1 786433 false None])
    (u32 786433)
  = Some (1 + 1)%nat.
Proof.
  apply (find_child_after_enumeration (fun _ => true)
           [mk_hid_item hid_collection 1 65542;
            mk_hid_item hid_input 1 458976;
            mk_hid_item hid_endcollection 0 65542;
            mk_hid_item hid_collection 1 786433;
            mk_hid_item hid_endcollection 0 786433]
           [mk_hid_item hid_collection 1 65542] []
           (mk_hid_item hid_collection 1 786433) 0 0 1).
  - reflexivity.
  - reflexivity.
  - reflexivity.
  - constructor; [cbn; discriminate | constructor].
Defined.

(** *** The walk over one top level collection *)

Lemma walk_inner (t : Z) :
  forall body rest i,
    forallb inner_item body = true ->
    0 <= i < 256 ->
    tlc_foreach_from (body ++ rest) i t
    = (if i =? t then body else []) ++ tlc_foreach_from rest i t.
Proof.
  induction body as [|hi body IH]; intros rest i Hb Hi.
  - cbn [app]. now destruct (i =? t).
  - cbn [forallb] in Hb. apply andb_prop in Hb. destruct Hb as [Hhi Hb].
    unfold inner_item in Hhi. apply andb_prop in Hhi. destruct Hhi as [_ He].
    apply negb_true_iff in He.
    cbn [app tlc_foreach_from]. rewrite He, Z.add_0_r.
    rewrite HidbusFacts.u8_small by lia.
    rewrite (IH rest i Hb Hi). now destruct (i =? t).
Qed.

Lemma walk_block (t : Z) (b : tlc_block) (rest : list hid_item) (i : Z) :
  well_nested b = true ->
  0 <= i < 255 ->
  tlc_foreach_from (block_items b ++ rest) i t
  = (if i =? t then block_head b :: block_body b else [])
    ++ (if i + 1 =? t then [block_end b] else [])
    ++ tlc_foreach_from rest (i + 1) t.
Proof.
  intros Hb Hi. unfold block_items. cbn [app tlc_foreach_from].
  cbn [block_head hi_kind hi_collevel hid_kind_eqb andb].
  rewrite Z.add_0_r, HidbusFacts.u8_small by lia.
  rewrite <- app_assoc, (walk_inner t (block_body b) _ i Hb) by lia.
  cbn [app tlc_foreach_from block_end hi_kind hi_collevel hid_kind_eqb andb
       Z.eqb].
  rewrite HidbusFacts.u8_small by lia.
  destruct (i =? t), (i + 1 =? t); cbn [app]; rewrite <- ?app_assoc;
    reflexivity.
Qed.

Lemma walk_past (t : Z) :
  forall bs i,
    forallb well_nested bs = true ->
    0 <= i -> t < i -> i + Z.of_nat (length bs) <= 255 ->
    tlc_foreach_from (concat (map block_items bs)) i t = [].
Proof.
  induction bs as [|b bs IH]; intros i Hb Hi Hlt Hle; [reflexivity|].
  cbn [forallb] in Hb. apply andb_prop in Hb. destruct Hb as [Hb Hbs].
  cbn [map concat length] in *.
  rewrite (walk_block t b _ i Hb) by lia.
  assert (E1 : (i =? t) = false) by (apply Z.eqb_neq; lia).
  assert (E2 : (i + 1 =? t) = false) by (apply Z.eqb_neq; lia).
  rewrite E1, E2. cbn [app]. apply IH; [exact Hbs | lia | lia | lia].
Qed.

Lemma walk_selects (b : tlc_block) (post : list tlc_block) :
  forall pre i,
    forallb well_nested (pre ++ b :: post) = true ->
    0 <= i ->
    i + Z.of_nat (length (pre ++ b :: post)) <= 255 ->
    tlc_foreach_from (concat (map block_items (pre ++ b :: post))) i
                     (i + Z.of_nat (length pre))
    = prev_end pre ++ block_head b :: block_body b.
Proof.
  induction pre as [|p pre IH]; intros i Hb Hi Hle.
  - cbn [app forallb] in Hb. apply andb_prop in Hb. destruct Hb as [Hb Hpost].
    cbn [app map concat length prev_end] in *.
    rewrite Z.add_0_r, (walk_block i b _ i Hb) by lia.
    rewrite Z.eqb_refl.
    assert (E : (i + 1 =? i) = false) by (apply Z.eqb_neq; lia).
    rewrite E. cbn [app].
    rewrite (walk_past i post (i + 1) Hpost) by lia.
    now rewrite app_nil_r.
  - cbn [app forallb] in Hb. apply andb_prop in Hb. destruct Hb as [Hp Hrest].
    cbn [app map concat length] in *.
    rewrite (walk_block _ p _ i Hp) by lia.
    assert (E : (i =? i + Z.of_nat (S (length pre))) = false)
      by (apply Z.eqb_neq; lia).
    rewrite E. cbn [app].
    replace (i + Z.of_nat (S (length pre)))
      with (i + 1 + Z.of_nat (length pre)) by lia.
    rewrite (IH (i + 1) Hrest) by lia.
    destruct pre as [|q pre]; cbn [prev_end length].
    + now rewrite Z.add_0_r, Z.eqb_refl.
    + assert (E' : (i + 1 =? i + 1 + Z.of_nat (S (length pre))) = false)
        by (apply Z.eqb_neq; lia).
      now rewrite E'.
Qed.

Lemma no_tlc_inside (body : list hid_item) :
  forallb inner_item body = true -> filter is_tlc body = [].
Proof.
  induction body as [|hi body IH]; [reflexivity|].
  cbn [forallb filter]. intros H. apply andb_prop in H. destruct H as [Hhi Hb].
  unfold inner_item in Hhi. apply andb_prop in Hhi. destruct Hhi as [Ht _].
  apply negb_true_iff in Ht. rewrite Ht. now apply IH.
Qed.

Lemma tlc_of_blocks (bs : list tlc_block) :
  forallb well_nested bs = true ->
  filter is_tlc (concat (map block_items bs)) = map block_head bs.
Proof.
  induction bs as [|b bs IH]; [reflexivity|].
  cbn [forallb map concat]. intros H. apply andb_prop in H.
  destruct H as [Hb Hbs]. rewrite filter_app, (IH Hbs).
  unfold block_items.
  change (filter is_tlc (block_head b :: block_body b ++ [block_end b]))
    with (block_head b :: filter is_tlc (block_body b ++ [block_end b])).
  rewrite filter_app, (no_tlc_inside _ Hb). reflexivity.
Qed.

Lemma records_nth (post : list hid_item) (hi : hid_item) :
  forall pre ndev (k : nat),
    nth_error (records ndev (Z.of_nat k) (pre ++ hi :: post)) (length pre)
    = Some (mk_ivar (ndev + length pre) (u8 (Z.of_nat (k + length pre)))
                    (u32 (hi_usage hi)) false None).
Proof.
  induction pre as [|p pre IH]; intros ndev k; cbn [app records length nth_error].
  - now rewrite !Nat.add_0_r.
  - replace (Z.of_nat k + 1) with (Z.of_nat (S k)) by lia.
    rewrite IH, !Nat.add_succ_r. reflexivity.
Qed.

(** On a descriptor made of at most 255 well nested top level
    collections, the walk [HID_TLC_FOREACH_ITEM] for the index that
    enumeration gave to a collection runs over the collection item and
    the items inside that collection, preceded by the end of the
    collection before it (if any) and without its own end, which
    belongs to the walk of the next index. *)
Theorem walk_matches_enumeration (pre post : list tlc_block) (b : tlc_block)
    (rc : Z) (d : device_t) (ndev : nat) :
  forallb well_nested (pre ++ b :: post) = true ->
  (length (pre ++ b :: post) <= 255)%nat ->
  let items := concat (map block_items (pre ++ b :: post)) in
  exists sc t,
    hidbus_attach (fun _ => true) (Some items) rc d ndev = (0, sc)
    /\ nth_error (tlcs sc) (length pre) = Some t
    /\ child t = (ndev + length pre)%nat
    /\ usage t = u32 (block_usage b)
    /\ index t = Z.of_nat (length pre)
    /\ HID_TLC_FOREACH_ITEM items (index t)
       = prev_end pre ++ block_head b :: block_body b.
Proof.
  intros Hb Hlen. cbv zeta.
  pose proof (tlc_of_blocks _ Hb) as Hf.
  assert (Hloop :
    enumerate_loop (fun _ => true)
      (concat (map block_items (pre ++ b :: post))) (mk_softc d []) 0 ndev
    = (mk_softc d (records ndev 0 (map block_head (pre ++ b :: post))),
       Z.of_nat (length (pre ++ b :: post)),
       (ndev + length (pre ++ b :: post))%nat)).
  { change 0 with (u8 0) at 1.
    rewrite (HidbusFacts.enumerate_loop_all_added (fun _ => true)
               (fun _ => eq_refl) _ (mk_softc d []) 0 ndev) by (intros t []).
    cbn [tlcs set_tlcs dev app]. rewrite Hf, length_map, Z.add_0_l.
    rewrite HidbusFacts.u8_small by lia. reflexivity. }
  assert (Hidx : (Z.of_nat (length (pre ++ b :: post)) =? 0) = false)
    by (apply Z.eqb_neq; rewrite length_app; cbn [length]; lia).
  exists (mk_softc d (records ndev 0 (map block_head (pre ++ b :: post)))).
  exists (mk_ivar (ndev + length pre) (Z.of_nat (length pre))
                  (u32 (block_usage b)) false None).
  split; [|split].
  - unfold hidbus_attach, hidbus_enumerate_children.
    rewrite Hloop, Hidx. reflexivity.
  - cbn [tlcs]. rewrite map_app. cbn [map].
    pose proof (records_nth (map block_head post) (block_head b)
                  (map block_head pre) ndev 0) as H.
    rewrite length_map in H. cbn [Nat.add Z.of_nat] in H.
    change (Z.of_nat 0) with 0 in H. rewrite H.
    rewrite HidbusFacts.u8_small; [reflexivity|].
    rewrite length_app in Hlen. cbn [length] in Hlen. lia.
  - cbn [child usage index]. repeat split.
    unfold HID_TLC_FOREACH_ITEM.
    apply (walk_selects b post pre 0 Hb); lia.
Qed.

(** The walk over the second collection of a keyboard with a
    consumer-control collection. *)
Lemma walk_matches_enumeration_witness :
  exists sc t,
    hidbus_attach (fun _ => true)
      (Some (concat (map block_items
         ([mk_block 65542 [mk_hid_item hid_input 1 458976]]
          ++ mk_block 786433 [mk_hid_item hid_input 1 786665] :: []))))
      0 0 1 = (0, sc)
    /\ nth_error (tlcs sc) 1 = Some t
    /\ child t = 2%nat
    /\ usage t = u32 786433
    /\ index t = 1
    /\ HID_TLC_FOREACH_ITEM
         (concat (map block_items
            ([mk_block 65542 [mk_hid_item hid_input 1 458976]]
             ++ mk_block 786433 [mk_hid_item hid_input 1 786665] :: [])))
         (index t)
       = [mk_hid_item hid_endcollection 0 65542;
          mk_hid_item hid_collection 1 786433;
          mk_hid_item hid_input 1 786665].
Proof.
  apply (walk_matches_enumeration
           [mk_block 65542 [mk_hid_item hid_input 1 458976]] []
           (mk_block 786433 [mk_hid_item hid_input 1 786665]) 0 0 1).
  - reflexivity.
  - cbn. lia.
Defined.

End HidbusExtra.

(** ** Further properties of the I2C backend *)

Module IichidExtra.
Import Iichid IichidMore.

Lemma overlay_full (src dst : list Z) (n : Z) :
  length dst = Z.to_nat n -> (Z.to_nat n <= length src)%nat ->
  overlay src dst n = firstn (Z.to_nat n) src.
Proof.
  intros Hd Hs. unfold overlay.
  replace (Nat.min (Z.to_nat n) (Nat.min (length src) (length dst)))
    with (Z.to_nat n) by lia.
  rewrite skipn_all2 by lia. apply app_nil_r.
Qed.

Lemma byte_at_firstn (l : list Z) (n i : nat) :
  (i < n)%nat -> byte_at (firstn n l) i = byte_at l i.
Proof.
  unfold byte_at. revert n i. induction l as [|x l IH]; intros n i H.
  - now rewrite firstn_nil.
  - destruct n; [lia|]. destruct i; [reflexivity|].
    cbn [firstn nth]. apply IH. lia.
Qed.

(** *** The event task *)

(** The event task calls the interrupt handler exactly when the read
    succeeds and the length the device declares in the first two bytes
    exceeds 2; it then passes the bytes behind the two-byte header and
    the declared length less 2, which it does not compare with the
    size of the input buffer.  A failed read leaves the buffer alone.
    In every case the callout is reset exactly when it is set up and
    the sampling rate is positive. *)
Theorem event_task_delivery (hz : Z) (bus : iicbus) (desc : i2c_hid_desc)
    (input_buf : list Z) (input_size : Z) (sc : iichid) :
  2 <= input_size ->
  length input_buf = Z.to_nat input_size ->
  (Z.to_nat input_size <= length (snd (bus (input_cmd desc) input_size)))%nat ->
  let err := fst (bus (input_cmd desc) input_size) in
  let data := map u8 (snd (bus (input_cmd desc) input_size)) in
  let declared := Z.lor (byte_at data 0) (Z.shiftl (byte_at data 1) 8) in
  let r := iichid_event_task hz bus desc input_buf input_size sc in
  (err <> 0 -> fst (fst r) = input_buf /\ snd (fst r) = None)
  /\ (err = 0 ->
      fst (fst r) = firstn (Z.to_nat input_size) data
      /\ (declared <= 2 -> snd (fst r) = None)
      /\ (2 < declared ->
          snd (fst r)
          = Some (firstn (Z.to_nat input_size - 2) (skipn 2 data),
                  declared - 2)))
  /\ timer_armed (snd r)
     = (callout_setup sc && (sampling_rate sc >? 0)) || timer_armed sc
  /\ (callout_setup sc = true -> 0 < sampling_rate sc ->
      periodic_callout (snd r) = Some (Z.quot hz (sampling_rate sc)))
  /\ interrupt_registered (snd r) = interrupt_registered sc.
Proof.
  intros Hsz Hlen Hdata. cbv zeta.
  unfold iichid_event_task, iichid_fetch_input_report, iichid_fetch_buffer.
  change (firstn (Z.to_nat 2) (input_cmd desc)) with (input_cmd desc).
  destruct (bus (input_cmd desc) input_size) as [err data] eqn:Eb.
  cbn [fst snd] in *.
  assert (Hov : overlay (map u8 data) (repeat 0 (Z.to_nat input_size)) input_size
                = firstn (Z.to_nat input_size) (map u8 data)).
  { apply overlay_full; [apply repeat_length | now rewrite length_map]. }
  rewrite Hov.
  assert (Hov2 : overlay (firstn (Z.to_nat input_size) (map u8 data))
                         input_buf input_size
                 = firstn (Z.to_nat input_size) (map u8 data)).
  { rewrite overlay_full.
    - now rewrite firstn_firstn, Nat.min_id.
    - exact Hlen.
    - rewrite length_firstn, length_map. lia. }
  split; [|split; [|split; [|split]]].
  - intros He. apply Z.eqb_neq in He. rewrite He. cbn [negb fst snd].
    rewrite He. split; reflexivity.
  - intros He. subst err. cbn [Z.eqb negb fst snd]. rewrite Hov2.
    rewrite !byte_at_firstn by lia.
    split; [reflexivity|]. split.
    + intros Hd. apply Z.leb_le in Hd. now rewrite Hd.
    + intros Hd. apply Z.leb_gt in Hd. rewrite Hd.
      rewrite skipn_firstn_comm. reflexivity.
  - destruct (negb (err =? 0)); cbn [fst snd];
      destruct (callout_setup sc && (sampling_rate sc >? 0)); reflexivity.
  - intros Hs Hr.
    assert (E : (sampling_rate sc >? 0) = true)
      by (rewrite Z.gtb_ltb; apply Z.ltb_lt; lia).
    rewrite Hs, E. destruct (negb (err =? 0)); reflexivity.
  - destruct (negb (err =? 0)); cbn [fst snd];
      destruct (callout_setup sc && (sampling_rate sc >? 0)); reflexivity.
Qed.

(** An input read of 6 bytes in a poll-mode engine: the device declares
    5 bytes, three of them behind the header. *)
Lemma event_task_delivery_witness :
  snd (fst (iichid_event_task 100 (answering [5; 0; 7; 8; 9; 0])
              (mk_desc 6 3 34 35) [0; 0; 0; 0; 0; 0] 6
              (mk_iichid 10 true None 0 None None)))
  = Some (firstn (Z.to_nat 6 - 2) (skipn 2 (map u8 [5; 0; 7; 8; 9; 0])),
          Z.lor (byte_at (map u8 [5; 0; 7; 8; 9; 0]) 0)
                (Z.shiftl (byte_at (map u8 [5; 0; 7; 8; 9; 0]) 1) 8) - 2).
Proof.
  refine (proj2 (proj2 (proj1 (proj2
    (event_task_delivery 100 (answering [5; 0; 7; 8; 9; 0])
       (mk_desc 6 3 34 35) [0; 0; 0; 0; 0; 0] 6
       (mk_iichid 10 true None 0 None None) _ _ _)) _)) _);
    cbn; try reflexivity; lia.
Defined.

(** *** The mode chosen at set-up *)

(** On a fresh engine, with a positive default rate, [iichid_set_intr]
    leaves exactly one event source: the timer at the default rate
    when the hardware description has no interrupt or [bus_setup_intr]
    fails, the interrupt when it can be allocated and installed. *)
Theorem set_intr_selects_one_source (hz default_rate hw_irq : Z)
    (env : irq_env) (sc : iichid) :
  0 < default_rate ->
  periodic_callout sc = None ->
  let sc' := snd (iichid_set_intr hz default_rate env hw_irq sc) in
  (hw_irq <= 0 ->
   sampling_rate sc' = default_rate
   /\ periodic_callout sc' = Some (Z.quot hz default_rate)
   /\ interrupt_registered sc' = interrupt_registered sc)
  /\ (0 < hw_irq -> forall r,
        alloc_res env = Some r ->
        (setup_intr_rc env = 0 ->
         sampling_rate sc' = -1
         /\ interrupt_registered sc' = true /\ timer_armed sc' = false)
        /\ (setup_intr_rc env <> 0 ->
            sampling_rate sc' = default_rate
            /\ interrupt_registered sc' = false
            /\ periodic_callout sc' = Some (Z.quot hz default_rate))).
Proof.
  intros Hd Hc. cbv zeta. unfold iichid_set_intr.
  assert (E1 : (default_rate <? 0) = false) by (apply Z.ltb_ge; lia).
  assert (E2 : (default_rate >=? 0) = true)
    by (rewrite Z.geb_leb; apply Z.leb_le; lia).
  assert (E3 : (default_rate <=? 0) = false) by (apply Z.leb_gt; lia).
  split.
  - intros Hi.
    assert (E : (hw_irq >? 0) = false)
      by (rewrite Z.gtb_ltb; apply Z.ltb_ge; lia).
    rewrite E. unfold iichid_setup_callout, iichid_reset_callout.
    repeat (progress (cbn [sampling_rate callout_setup snd fst];
                      rewrite ?E1, ?E2, ?E3)).
    cbn. repeat split.
  - intros Hi r Ha.
    assert (E : (hw_irq >? 0) = true)
      by (rewrite Z.gtb_ltb; apply Z.ltb_lt; lia).
    rewrite E. cbn [sampling_rate]. cbn [Z.ltb Z.compare].
    unfold iichid_setup_interrupt. rewrite Ha. split; intros Hrc.
    + rewrite Hrc. cbn. rewrite Hc. repeat split.
    + apply Z.eqb_neq in Hrc. rewrite Hrc.
      unfold iichid_setup_callout, iichid_reset_callout.
      repeat (progress (cbn [sampling_rate callout_setup snd fst negb];
                        rewrite ?E1, ?E2, ?E3, ?Hrc)).
      cbn. repeat split.
Qed.

(** Set-up without an interrupt line, at 10 reports a second. *)
Lemma set_intr_selects_one_source_witness :
  periodic_callout
    (snd (iichid_set_intr 100 10 (mk_irq_env None 0 0 0) 0
                          (mk_iichid 0 false None 0 None None)))
  = Some (Z.quot 100 10).
Proof.
  refine (proj1 (proj2 (proj1
    (set_intr_selects_one_source 100 10 0 (mk_irq_env None 0 0 0)
       (mk_iichid 0 false None 0 None None) _ _) _)));
    cbn; try reflexivity; lia.
Defined.

(** *** Other writes of the sampling rate *)

(** A read of the sampling rate, a failed request and a write of the
    current value change nothing.  In poll mode a write of another
    positive rate resets the callout to [hz / rate] ticks and registers
    no interrupt.  In interrupt mode a write of 0 tears the interrupt
    down and arms no timer: no event source is left. *)
Theorem other_sampling_rate_writes (hz : Z) (env : irq_env) (sc : iichid) :
  (forall err newval,
     (err <> 0 \/ newval = None \/ newval = Some (sampling_rate sc)) ->
     iichid_sysctl_sampling_rate_handler hz env err newval sc = (err, sc))
  /\ (forall value,
        0 < sampling_rate sc -> callout_setup sc = true ->
        0 < value -> value <> sampling_rate sc ->
        iichid_sysctl_sampling_rate_handler hz env 0 (Some value) sc
        = (0, mk_iichid value true (Some (Z.quot hz value))
                        (irq_rid sc) (irq_cookie sc) (irq_res sc)))
  /\ (sampling_rate sc < 0 -> periodic_callout sc = None ->
      iichid_sysctl_sampling_rate_handler hz env 0 (Some 0) sc
      = (0, mk_iichid 0 true None 0 None None)
      /\ active_sources
           (snd (iichid_sysctl_sampling_rate_handler hz env 0 (Some 0) sc))
         = 0%nat).
Proof.
  split; [|split].
  - intros err newval H. unfold iichid_sysctl_sampling_rate_handler.
    destruct (Z.eqb_spec err 0) as [He|He]; cbn [negb orb]; [|reflexivity].
    destruct H as [H|[H|H]]; [contradiction | now subst newval |].
    subst newval. now rewrite Z.eqb_refl.
  - intros value Hr Hs Hv Hne. unfold iichid_sysctl_sampling_rate_handler.
    cbn [Z.eqb negb orb].
    assert (E1 : (value =? sampling_rate sc) = false) by (apply Z.eqb_neq; lia).
    assert (E2 : (sampling_rate sc <? 0) = false) by (apply Z.ltb_ge; lia).
    assert (E3 : (value <? 0) = false) by (apply Z.ltb_ge; lia).
    assert (E4 : (value >? 0) = true)
      by (rewrite Z.gtb_ltb; apply Z.ltb_lt; lia).
    assert (E5 : (value <=? 0) = false) by (apply Z.leb_gt; lia).
    rewrite E1, E2, E3, E4, andb_false_r. cbn [andb].
    unfold iichid_reset_callout. cbn [sampling_rate callout_setup].
    now rewrite E5, Hs.
  - intros Hr Hc. unfold iichid_sysctl_sampling_rate_handler.
    change (0 =? 0) with true. cbn [negb orb].
    assert (E1 : (0 =? sampling_rate sc) = false) by (apply Z.eqb_neq; lia).
    assert (E2 : (sampling_rate sc <? 0) = true) by (apply Z.ltb_lt; lia).
    rewrite E1, E2. cbn. split; reflexivity.
Qed.

(** A change of the rate from 10 to 20 in poll mode. *)
Lemma other_sampling_rate_writes_witness :
  iichid_sysctl_sampling_rate_handler 100 (mk_irq_env None 0 0 0) 0 (Some 20)
    (mk_iichid 10 true (Some 10) 0 None None)
  = (0, mk_iichid 20 true (Some (Z.quot 100 20)) 0 None None).
Proof.
  refine (proj1 (proj2
    (other_sampling_rate_writes 100 (mk_irq_env None 0 0 0)
       (mk_iichid 10 true (Some 10) 0 None None))) 20 _ _ _ _);
    cbn; try reflexivity; lia.
Defined.

(** A switch to the interrupt and back to the timer, on a device whose
    interrupt can be set up. *)
Lemma switch_with_working_irq_witness :
  (interrupt_registered
     (snd (iichid_sysctl_sampling_rate_handler 100 (mk_irq_env (Some 1%nat) 0 0 7)
             0 (Some (-1)) (mk_iichid 10 true (Some 10) 0 None None))) = true
   /\ timer_armed
        (snd (iichid_sysctl_sampling_rate_handler 100
                (mk_irq_env (Some 1%nat) 0 0 7)
                0 (Some (-1)) (mk_iichid 10 true (Some 10) 0 None None)))
      = false)
  /\ (interrupt_registered
        (snd (iichid_sysctl_sampling_rate_handler 100
                (mk_irq_env (Some 1%nat) 0 0 7)
                0 (Some 10)
                (mk_iichid (-1) false None 0 (Some 7%nat) (Some 1%nat))))
      = false
      /\ timer_armed
           (snd (iichid_sysctl_sampling_rate_handler 100
                   (mk_irq_env (Some 1%nat) 0 0 7)
                   0 (Some 10)
                   (mk_iichid (-1) false None 0 (Some 7%nat) (Some 1%nat))))
         = true).
Proof.
  split.
  - refine (proj1 (IichidFacts.switch_with_working_irq 100
                     (mk_irq_env (Some 1%nat) 0 0 7)
                     (mk_iichid 10 true (Some 10) 0 None None) (-1) 1 _ _) _ _);
      cbn; try reflexivity; lia.
  - refine (proj2 (IichidFacts.switch_with_working_irq 100
                     (mk_irq_env (Some 1%nat) 0 0 7)
                     (mk_iichid (-1) false None 0 (Some 7%nat) (Some 1%nat))
                     10 1 _ _) _ _);
      cbn; try reflexivity; lia.
Defined.

(** *** A device that follows the protocol *)

Lemma two_bytes (n : Z) :
  0 <= n < 65536 ->
  Z.lor (n mod 256) (Z.shiftl (n / 256 mod 256) 8) = n.
Proof.
  intros H.
  rewrite (Z.mod_small (n / 256)) by
    (split; [apply Z.div_pos; lia | apply Z.div_lt_upper_bound; lia]).
  apply Z.bits_inj'. intros k Hk.
  rewrite Z.lor_spec. change 256 with (2 ^ 8).
  destruct (Z.ltb_spec k 8).
  - rewrite Z.mod_pow2_bits_low, Z.shiftl_spec_low by lia.
    apply orb_false_r.
  - rewrite Z.mod_pow2_bits_high, Z.shiftl_spec by lia.
    rewrite Z.div_pow2_bits by lia. cbn [orb]. f_equal. lia.
Qed.

Lemma map_u8_bytes (l : list Z) :
  Forall (fun b => 0 <= b < 256) l -> map u8 l = l.
Proof.
  induction 1 as [|b l Hb _ IH]; [reflexivity|].
  cbn [map]. rewrite IH. f_equal. unfold u8. now apply Z.mod_small.
Qed.

Lemma overlay_exact (src dst : list Z) :
  (length src <= length dst)%nat ->
  overlay src dst (Z.of_nat (length src)) = src ++ skipn (length src) dst.
Proof.
  intros H. unfold overlay. rewrite Nat2Z.id.
  replace (Nat.min (length src) (Nat.min (length src) (length dst)))
    with (length src) by lia.
  now rewrite firstn_all.
Qed.

(** When the device answers GET_REPORT as the protocol prescribes (the
    length of the response, the report ID, the report),
    [iichid_get_report] returns 0 with the report at the start of the
    caller's buffer and the rest of the buffer untouched, and logs no
    length mismatch. *)
Theorem get_report_returns_report (desc : i2c_hid_desc) (buf payload : list Z)
    (type id : Z) :
  0 <= id < 256 ->
  Forall (fun b => 0 <= b < 256) payload ->
  (length payload <= length buf)%nat ->
  Z.of_nat (length payload) + 4 < 65536 ->
  let len := Z.of_nat (length payload) in
  let report_len := len + 2 + (if id >=? 15 then 2 else 1) in
  iichid_get_report (answering (report_response id payload)) desc buf len type id
  = (0, payload ++ skipn (length payload) buf,
     [device_printf (msg_get_report id type len);
      malloc report_len;
      iicbus_transfer (firstn (Z.to_nat (get_report_cmdlen id))
                              (get_report_cmd desc type id)) report_len;
      device_printf (msg_response report_len (report_response id payload));
      memcpy len; free]).
Proof.
  intros Hid Hp Hb Hn. cbv zeta.
  unfold iichid_get_report, iichid_fetch_buffer, answering, report_response.
  set (len := Z.of_nat (length payload)).
  assert (Hov : forall l : list Z,
             Forall (fun b => 0 <= b < 256) l ->
             forall rl, rl = Z.of_nat (length l) ->
             overlay (map u8 l) (repeat 0 (Z.to_nat rl)) rl = l).
  { intros l Hl rl ->. rewrite (map_u8_bytes l Hl), overlay_exact
      by (rewrite Nat2Z.id, repeat_length; lia).
    rewrite skipn_all2 by (rewrite Nat2Z.id, repeat_length; lia).
    apply app_nil_r. }
  destruct (id >=? 15) eqn:E.
  - set (n := len + 2 + 2).
    assert (Hn' : 0 <= n < 65536) by (unfold n, len; lia).
    rewrite (Hov ([n mod 256; n / 256 mod 256] ++ [id; 0] ++ payload)).
    + cbn [app byte_at nth]. rewrite (two_bytes n Hn'), Z.eqb_refl.
      change (2 =? 2) with true. cbn iota.
      change (Z.shiftl 0 8) with 0. rewrite Z.lor_0_r, Z.eqb_refl.
      cbn [negb app]. change (Z.to_nat (2 + 2)) with 4%nat. cbn [skipn].
      unfold len. rewrite ?Z.eqb_refl. cbn [negb app].
      now rewrite overlay_exact.
    + cbn [app]. repeat constructor; try lia; try exact Hp;
        try (apply Z.mod_pos_bound; lia).
    + unfold n, len. cbn [app length]. lia.
  - set (n := len + 2 + 1).
    assert (Hn' : 0 <= n < 65536) by (unfold n, len; lia).
    rewrite (Hov ([n mod 256; n / 256 mod 256] ++ [id] ++ payload)).
    + cbn [app byte_at nth]. rewrite (two_bytes n Hn'), Z.eqb_refl.
      change (1 =? 2) with false. cbn iota. rewrite Z.eqb_refl.
      cbn [negb app]. change (Z.to_nat (2 + 1)) with 3%nat. cbn [skipn].
      unfold len. rewrite ?Z.eqb_refl. cbn [negb app].
      now rewrite overlay_exact.
    + cbn [app]. repeat constructor; try lia; try exact Hp;
        try (apply Z.mod_pos_bound; lia).
    + unfold n, len. cbn [app length]. lia.
Qed.

(** A feature report of three bytes with ID 20 into a buffer of four. *)
Lemma get_report_returns_report_witness :
  fst (iichid_get_report (answering (report_response 20 [7; 8; 9]))
                         (mk_desc 0 0 34 35) [0; 0; 0; 1]
                         (Z.of_nat (length [7; 8; 9])) 3 20)
  = (0, [7; 8; 9] ++ skipn (length [7; 8; 9]) [0; 0; 0; 1]).
Proof.
  rewrite (get_report_returns_report (mk_desc 0 0 34 35) [0; 0; 0; 1]
             [7; 8; 9] 3 20).
  - reflexivity.
  - lia.
  - repeat constructor; lia.
  - cbn. lia.
  - cbn. lia.
Defined.

End IichidExtra.

(** ** Further properties of the USB bridge *)

Module UsbhidExtra.
Import Usbhid UsbhidMore.

(** *** The stack, one step at a time *)

Lemma xfer_set_pending (sc : usbhid_softc) (i : xfer_index) (p : bool) :
  sc_xfer (set_pending sc i p) i
  = match sc_xfer sc i with
    | Some x => Some (mk_xfer (max_len x) p)
    | None => None
    end.
Proof. unfold set_pending. cbn [sc_xfer]. now destruct i. Qed.

Lemma deliver_idle (stack : usb_stack) (polling : bool) (k : nat)
    (sc : usbhid_softc) (i : xfer_index) :
  match sc_xfer sc i with
  | Some x => pending x = false \/ completion stack k = None
  | None => True
  end ->
  deliver stack polling k sc i = (sc, []).
Proof.
  unfold deliver. destruct (sc_xfer sc i) as [x|]; [|reflexivity].
  intros [H|H].
  - now rewrite H.
  - rewrite H. now destruct (pending x).
Qed.

(** While nothing is delivered the polling loop only counts down. *)
Lemma poll_loop_wait (stack : usb_stack) (sc : usbhid_softc) (i : xfer_index) :
  error (sc_tr sc) = ETIMEDOUT ->
  forall d timeout k,
    (forall j, (k <= j < k + d)%nat -> deliver stack true j sc i = (sc, [])) ->
    poll_loop stack (d + timeout) k sc i = poll_loop stack timeout (k + d) sc i.
Proof.
  intros He. induction d as [|d IH]; intros timeout k H.
  - now rewrite Nat.add_0_r.
  - cbn [Nat.add poll_loop]. rewrite He, Z.eqb_refl.
    rewrite (H k) by lia. rewrite IH by (intros j Hj; apply H; lia).
    rewrite Nat.add_succ_r. cbn [Nat.add].
    now destruct (poll_loop stack timeout (S (k + d)) sc i).
Qed.

Lemma sleep_loop_wait (stack : usb_stack) (sc : usbhid_softc) (i : xfer_index) :
  forall d timeout k,
    (forall j, (k <= j < k + d)%nat -> deliver stack false j sc i = (sc, [])) ->
    sleep_loop stack (d + timeout) k sc i = sleep_loop stack timeout (k + d) sc i.
Proof.
  induction d as [|d IH]; intros timeout k H.
  - now rewrite Nat.add_0_r.
  - cbn [Nat.add sleep_loop]. rewrite (H k) by lia. cbn [existsb].
    rewrite IH by (intros j Hj; apply H; lia).
    rewrite Nat.add_succ_r. cbn [Nat.add].
    now destruct (sleep_loop stack timeout (S (k + d)) sc i).
Qed.

Lemma wait_loop_wait (stack : usb_stack) (polling : bool)
    (sc : usbhid_softc) (i : xfer_index) :
  error (sc_tr sc) = ETIMEDOUT ->
  forall d timeout k,
    (forall j, (k <= j < k + d)%nat -> deliver stack polling j sc i = (sc, [])) ->
    wait_loop stack polling (d + timeout) k sc i
    = wait_loop stack polling timeout (k + d) sc i.
Proof.
  intros He d timeout k H. unfold wait_loop. destruct polling.
  - now apply poll_loop_wait.
  - now apply sleep_loop_wait.
Qed.

Lemma wait_loop_idle (stack : usb_stack) (polling : bool)
    (sc : usbhid_softc) (i : xfer_index) :
  (forall j, deliver stack polling j sc i = (sc, [])) ->
  forall timeout k, wait_loop stack polling timeout k sc i = (sc, []).
Proof.
  intros H. unfold wait_loop.
  induction timeout as [|t IH]; intros k; destruct polling; try reflexivity.
  - cbn [poll_loop]. destruct (error (sc_tr sc) =? ETIMEDOUT); [|reflexivity].
    now rewrite H, IH.
  - cbn [sleep_loop]. rewrite H. cbn [existsb]. now rewrite IH.
Qed.

Lemma set_tr_same (sc : usbhid_softc) : set_tr sc (sc_tr sc) = sc.
Proof. now destruct sc. Qed.

Lemma stop_idle (stack : usb_stack) (polling : bool) (sc : usbhid_softc)
    (i : xfer_index) :
  match sc_xfer sc i with Some x => pending x = false | None => True end ->
  usbd_transfer_stop stack polling sc i = (sc, []).
Proof.
  unfold usbd_transfer_stop. destruct (sc_xfer sc i) as [x|]; [|reflexivity].
  now intros ->.
Qed.

(** [usbhid_sync_xfer] for a caller that enters at once, in terms of
    the three steps: start, wait, stop. *)
Lemma sync_xfer_steps (stack : usb_stack) (polling : bool) (sc : usbhid_softc)
    (i : xfer_index) (rq : option usb_device_request) (bf : option nat)
    (ln : Z) :
  enters polling sc = true ->
  exists w fl,
    w = waiters (sc_tr sc)
    /\ forall sc1 a0 sc2 a1 sc3 a2,
      usbd_transfer_start polling
        (set_tr sc (mk_ctx rq bf ln ETIMEDOUT w fl)) i = (sc1, a0) ->
      wait_loop stack polling USB_DEFAULT_TIMEOUT 0 sc1 i = (sc2, a1) ->
      usbd_transfer_stop stack polling sc2 i = (sc3, a2) ->
      outcome (usbhid_sync_xfer stack polling sc i rq bf ln)
      = Some (error (sc_tr sc3))
      /\ actions (usbhid_sync_xfer stack polling sc i rq bf ln)
         = a0 ++ a1 ++ a2
           ++ (if negb polling && negb (waiters (sc_tr sc3) =? 0)
               then [wakeup_one] else []).
Proof.
  intros Hen. unfold enters in Hen. unfold usbhid_sync_xfer, wait_loop.
  destruct polling; cbn [negb andb orb] in *.
  - exists (waiters (sc_tr sc)), (influx (sc_tr sc)). split; [reflexivity|].
    intros sc1 a0 sc2 a1 sc3 a2 H0 H1 H2.
    cbn [waiters influx] . rewrite H0, H1, H2. split; reflexivity.
  - apply negb_true_iff in Hen. rewrite Hen.
    exists (waiters (sc_tr sc) + 1 - 1), true. split; [lia|].
    intros sc1 a0 sc2 a1 sc3 a2 H0 H1 H2.
    cbn [waiters influx req buf len error]. rewrite H0, H1, H2.
    split; reflexivity.
Qed.

Lemma xfer_set_tr (sc : usbhid_softc) (c : usbhid_xfer_ctx) (i : xfer_index) :
  sc_xfer (set_tr sc c) i = sc_xfer sc i.
Proof. reflexivity. Qed.

(** *** Exchanges that cannot start *)



(** A request longer than the transfer can hold is refused with
    [ENOBUFS], in either mode and on each of the three bridged
    transfers, and nothing is submitted to the device. *)
Theorem oversize_request_is_refused (stack : usb_stack) (polling : bool)
    (sc : usbhid_softc) (i : xfer_index) (x : usb_xfer)
    (rq : option usb_device_request) (bf : option nat) (ln : Z) :
  bridged i = true ->
  sc_xfer sc i = Some x ->
  pending x = false ->
  max_len x < ln ->
  enters polling sc = true ->
  outcome (usbhid_sync_xfer stack polling sc i rq bf ln) = Some ENOBUFS
  /\ existsb is_submit (actions (usbhid_sync_xfer stack polling sc i rq bf ln))
     = false.
Proof.
  intros Hb Hx Hp Hln Hen.
  destruct (sync_xfer_steps stack polling sc i rq bf ln Hen)
    as [w [fl [Hw H]]].
  set (c0 := mk_ctx rq bf ln ETIMEDOUT w fl) in *.
  set (sc1 := set_pending (set_tr (set_tr sc c0) (set_error c0 ENOBUFS)) i false).
  assert (Hx1 : sc_xfer sc1 i = Some (mk_xfer (max_len x) false)).
  { unfold sc1. rewrite xfer_set_pending, !xfer_set_tr. now rewrite Hx. }
  assert (Hgt : (ln >? max_len x) = true)
    by (rewrite Z.gtb_ltb; apply Z.ltb_lt; lia).
  destruct (H sc1 (tr_exit polling) sc1 [] sc1 []) as [Ho Ha].
  - unfold usbd_transfer_start. rewrite xfer_set_tr, Hx, Hp.
    unfold run_callback. cbn [sc_tr set_tr].
    destruct i; try discriminate Hb;
      unfold usbhid_intr_wr_callback, usbhid_ctrl_wr_callback,
        usbhid_ctrl_rd_callback; cbn [len c0]; rewrite Hgt;
      unfold sc1; now destruct polling.
  - apply wait_loop_idle. intros j. apply deliver_idle. rewrite Hx1. now left.
  - apply stop_idle. now rewrite Hx1.
  - split; [exact Ho|]. rewrite Ha.
    destruct polling; cbn [tr_exit negb app andb existsb is_submit orb];
      [reflexivity|].
    now destruct (negb (waiters (sc_tr sc1) =? 0)).
Qed.

(** A report of 65 bytes on a device whose transfers hold 64. *)
Lemma oversize_request_is_refused_witness :
  outcome (usbhid_sync_xfer (short_device 1) false idle_softc
             USBHID_CTRL_DT_WR None (Some 7%nat) 65)
  = Some ENOBUFS.
Proof.
  refine (proj1 (oversize_request_is_refused (short_device 1) false idle_softc
                   USBHID_CTRL_DT_WR (mk_xfer 64 false) None (Some 7%nat) 65
                   _ _ _ _ _)); cbn; try reflexivity; lia.
Defined.

(** *** Exchanges with a device that answers *)

(** A request that fits is submitted by [usbd_transfer_start]. *)
Lemma start_submits (polling : bool) (sc : usbhid_softc) (i : xfer_index)
    (x : usb_xfer) :
  bridged i = true ->
  sc_xfer sc i = Some x ->
  pending x = false ->
  len (sc_tr sc) <= max_len x ->
  exists a0,
    usbd_transfer_start polling sc i = (set_pending sc i true, a0)
    /\ existsb is_stall a0 = false
    /\ length (filter is_submit a0) = 1%nat
    /\ (forall o d m, ~ In (usbd_copy_out o d m) a0)
    /\ (is_control i = true -> In (usbd_copy_in_req 0 (req (sc_tr sc))) a0)
    /\ (is_control i = true -> len (sc_tr sc) = 0 -> In (usbd_xfer_set_frames 1) a0).
Proof.
  intros Hb Hx Hp Hln.
  assert (Hgt : (len (sc_tr sc) >? max_len x) = false)
    by (rewrite Z.gtb_ltb; apply Z.ltb_ge; lia).
  unfold usbd_transfer_start. rewrite Hx, Hp. unfold run_callback.
  destruct i; try discriminate Hb;
    unfold usbhid_intr_wr_callback, usbhid_ctrl_wr_callback,
      usbhid_ctrl_rd_callback; rewrite Hgt, set_tr_same.
  - eexists. split; [reflexivity|]. cbn.
    repeat split; try discriminate; intros; intuition discriminate.
  - destruct (len (sc_tr sc) >? 0) eqn:E; eexists; (split; [reflexivity|]);
      cbn; repeat split; intros; try (intuition discriminate); auto 10.
    apply Z.gtb_lt in E. lia.
  - destruct (len (sc_tr sc) =? 0) eqn:E; eexists; (split; [reflexivity|]);
      cbn; repeat split; intros; try (intuition discriminate); auto 10.
    apply Z.eqb_neq in E. lia.
Qed.

(** The callback of a control transfer ends the exchange at the first
    report of the hardware. *)
Lemma deliver_control (stack : usb_stack) (polling : bool) (k : nat)
    (sc : usbhid_softc) (i : xfer_index) (x : usb_xfer) (st : usb_error_t)
    (n : Z) :
  is_control i = true ->
  sc_xfer sc i = Some x ->
  pending x = true ->
  completion stack k = Some (st, n) ->
  exists a,
    deliver stack polling k sc i
    = (set_pending (set_tr sc (set_error (sc_tr sc)
                                 (if is_normal st then 0 else EIO))) i false, a)
    /\ existsb is_wakeup a = negb polling
    /\ existsb is_stall a = false
    /\ existsb is_submit a = false
    /\ (In (usbd_copy_out sizeof_req (buf (sc_tr sc)) (len (sc_tr sc))) a
        <-> i = USBHID_CTRL_DT_RD /\ is_normal st = true).
Proof.
  intros Hc Hx Hp Hk. unfold deliver. rewrite Hx, Hp, Hk.
  destruct i; try discriminate Hc; destruct st; unfold run_callback;
    unfold usbhid_ctrl_wr_callback, usbhid_ctrl_rd_callback, tr_exit;
    destruct polling; cbn [negb is_normal];
    (eexists; split; [reflexivity|]); cbn;
    repeat split; intros; try (intuition discriminate); auto.
Qed.

(** The wait ends with the report that ends the exchange. *)
Lemma wait_step_done (stack : usb_stack) (polling : bool) (timeout k : nat)
    (sc sc' : usbhid_softc) (i : xfer_index) (a : list usb_action) :
  error (sc_tr sc) = ETIMEDOUT ->
  deliver stack polling k sc i = (sc', a) ->
  error (sc_tr sc') <> ETIMEDOUT ->
  existsb is_wakeup a = negb polling ->
  wait_loop stack polling (S timeout) k sc i = (sc', a).
Proof.
  intros He Hd Hne Hw. unfold wait_loop. destruct polling.
  - cbn [poll_loop]. rewrite He, Z.eqb_refl, Hd.
    assert (Hs : poll_loop stack timeout (S k) sc' i = (sc', [])).
    { destruct timeout; [reflexivity|]. cbn [poll_loop].
      now apply Z.eqb_neq in Hne as ->. }
    now rewrite Hs, app_nil_r.
  - cbn [sleep_loop]. rewrite Hd, Hw. reflexivity.
Qed.

Lemma wait_until (stack : usb_stack) (polling : bool) (k : nat)
    (sc sc' : usbhid_softc) (i : xfer_index) (a : list usb_action) :
  error (sc_tr sc) = ETIMEDOUT ->
  (k < USB_DEFAULT_TIMEOUT)%nat ->
  (forall j, (j < k)%nat -> deliver stack polling j sc i = (sc, [])) ->
  deliver stack polling k sc i = (sc', a) ->
  error (sc_tr sc') <> ETIMEDOUT ->
  existsb is_wakeup a = negb polling ->
  wait_loop stack polling USB_DEFAULT_TIMEOUT 0 sc i = (sc', a).
Proof.
  intros He Hk Hidle Hd Hne Hw.
  replace USB_DEFAULT_TIMEOUT
    with (k + S (USB_DEFAULT_TIMEOUT - S k))%nat by lia.
  rewrite wait_loop_wait; [|exact He|intros j Hj; apply Hidle; lia].
  cbn [Nat.add]. eapply wait_step_done; eassumption.
Qed.

Lemma existsb_filter_nil {A : Type} (f : A -> bool) (l : list A) :
  existsb f l = false -> length (filter f l) = 0%nat.
Proof.
  induction l as [|a l IH]; [reflexivity|]. cbn.
  destruct (f a); [discriminate|]. exact IH.
Qed.

(** A control exchange with a device that reports at tick [k]. *)
Lemma control_exchange (stack : usb_stack) (polling : bool)
    (sc : usbhid_softc) (i : xfer_index) (x : usb_xfer)
    (rq : option usb_device_request) (bf : option nat) (ln : Z)
    (k : nat) (st : usb_error_t) (n : Z) :
  is_control i = true ->
  sc_xfer sc i = Some x ->
  pending x = false ->
  ln <= max_len x ->
  enters polling sc = true ->
  (k < USB_DEFAULT_TIMEOUT)%nat ->
  (forall j, (j < k)%nat -> completion stack j = None) ->
  completion stack k = Some (st, n) ->
  outcome (usbhid_sync_xfer stack polling sc i rq bf ln)
  = Some (if is_normal st then 0 else EIO)
  /\ existsb is_stall (actions (usbhid_sync_xfer stack polling sc i rq bf ln))
     = false
  /\ length (filter is_submit
               (actions (usbhid_sync_xfer stack polling sc i rq bf ln)))
     = 1%nat
  /\ (In (usbd_copy_out sizeof_req bf ln)
         (actions (usbhid_sync_xfer stack polling sc i rq bf ln))
      <-> i = USBHID_CTRL_DT_RD /\ is_normal st = true)
  /\ In (usbd_copy_in_req 0 rq)
        (actions (usbhid_sync_xfer stack polling sc i rq bf ln))
  /\ (ln = 0 -> In (usbd_xfer_set_frames 1)
                   (actions (usbhid_sync_xfer stack polling sc i rq bf ln))).
Proof.
  intros Hc Hx Hp Hln Hen Hk Hnone Hrep.
  assert (Hb : bridged i = true) by (destruct i; try discriminate; reflexivity).
  destruct (sync_xfer_steps stack polling sc i rq bf ln Hen)
    as [w [fl [Hw H]]].
  set (c0 := mk_ctx rq bf ln ETIMEDOUT w fl) in *.
  destruct (start_submits polling (set_tr sc c0) i x Hb Hx Hp Hln)
    as [a0 [H0 [Hs0 [Hn0 [Hco0 [Hrq0 Hfr0]]]]]].
  set (sc1 := set_pending (set_tr sc c0) i true) in *.
  assert (Hx1 : sc_xfer sc1 i = Some (mk_xfer (max_len x) true)).
  { unfold sc1. rewrite xfer_set_pending, xfer_set_tr. now rewrite Hx. }
  destruct (deliver_control stack polling k sc1 i _ st n Hc Hx1 eq_refl Hrep)
    as [a1 [H1 [Hw1 [Hs1 [Hn1 Hco1]]]]].
  set (sc2 := set_pending _ i false) in H1.
  assert (Hx2 : sc_xfer sc2 i = Some (mk_xfer (max_len x) false)).
  { unfold sc2. rewrite xfer_set_pending, xfer_set_tr. now rewrite Hx1. }
  destruct (H sc1 a0 sc2 a1 sc2 []) as [Ho Ha].
  - exact H0.
  - apply wait_until with (k := k); try assumption.
    + reflexivity.
    + intros j Hj. apply deliver_idle. rewrite Hx1. right. now apply Hnone.
    + unfold sc2. cbn. destruct (is_normal st); discriminate.
  - apply stop_idle. now rewrite Hx2.
  - cbn [app] in Ha. rewrite Ho, Ha. clear Ho Ha H.
    set (a3 := if negb polling && negb (waiters (sc_tr sc2) =? 0)
               then [wakeup_one] else []).
    assert (Ha3 : a3 = [] \/ a3 = [wakeup_one])
      by (unfold a3; destruct (negb polling && _); auto).
    split; [reflexivity|].
    split.
    { rewrite !existsb_app, Hs0, Hs1.
      destruct Ha3 as [-> | ->]; reflexivity. }
    split.
    { rewrite !filter_app, !length_app, Hn0, (existsb_filter_nil _ _ Hn1).
      destruct Ha3 as [-> | ->]; reflexivity. }
    split.
    { rewrite !in_app_iff. cbn [sc_tr sc1 set_pending buf len c0] in Hco1.
      rewrite <- Hco1. split; [|auto].
      intros [Hi|[Hi|Hi]]; [now apply Hco0 in Hi | exact Hi |].
      destruct Ha3 as [E | E]; rewrite E in Hi; cbn in Hi;
        intuition discriminate. }
    split.
    { rewrite in_app_iff. left. now apply Hrq0. }
    intros ->. rewrite in_app_iff. left. now apply Hfr0.
Qed.

(** The first report of the hardware decides a control exchange: the
    result is 0 when the transfer completed and [EIO] for every error,
    a read copies the caller's [ln] bytes out from behind the request
    only when it completed, the endpoint is never asked to clear a
    stall and the transfer is submitted once. *)
Theorem first_report_decides_control_exchange (stack : usb_stack)
    (polling : bool) (sc : usbhid_softc) (i : xfer_index) (x : usb_xfer)
    (rq : option usb_device_request) (bf : option nat) (ln : Z)
    (k : nat) (st : usb_error_t) (n : Z) :
  is_control i = true ->
  sc_xfer sc i = Some x ->
  pending x = false ->
  ln <= max_len x ->
  enters polling sc = true ->
  (k < USB_DEFAULT_TIMEOUT)%nat ->
  (forall j, (j < k)%nat -> completion stack j = None) ->
  completion stack k = Some (st, n) ->
  outcome (usbhid_sync_xfer stack polling sc i rq bf ln)
  = Some (if is_normal st then 0 else EIO)
  /\ existsb is_stall (actions (usbhid_sync_xfer stack polling sc i rq bf ln))
     = false
  /\ length (filter is_submit
               (actions (usbhid_sync_xfer stack polling sc i rq bf ln)))
     = 1%nat
  /\ (In (usbd_copy_out sizeof_req bf ln)
         (actions (usbhid_sync_xfer stack polling sc i rq bf ln))
      <-> i = USBHID_CTRL_DT_RD /\ is_normal st = true).
Proof.
  intros Hc Hx Hp Hln Hen Hk Hnone Hrep.
  destruct (control_exchange stack polling sc i x rq bf ln k st n
              Hc Hx Hp Hln Hen Hk Hnone Hrep) as [H1 [H2 [H3 [H4 _]]]].
  repeat split; try assumption; apply H4; assumption.
Qed.

(** A read of one byte that completes at the third tick. *)
Lemma first_report_decides_control_exchange_witness :
  outcome (usbhid_sync_xfer (short_device 1) false idle_softc
             USBHID_CTRL_DT_RD None (Some 7%nat) 1)
  = Some 0.
Proof.
  refine (proj1 (first_report_decides_control_exchange (short_device 1) false
                   idle_softc USBHID_CTRL_DT_RD (mk_xfer 64 false) None
                   (Some 7%nat) 1 2 USB_ERR_NORMAL_COMPLETION 1
                   _ _ _ _ _ _ _ _)); try reflexivity.
  - cbn. lia.
  - unfold USB_DEFAULT_TIMEOUT. lia.
  - intros [|[|j]] Hj; [reflexivity | reflexivity | lia].
Defined.

(** [usbhid_set_idle] with a device that answers: the request sent
    carries the report id and the duration in units of 4 ms, rounded
    up, in one frame, and the result is that of the device. *)
Theorem set_idle_rounds_up (stack : usb_stack) (polling : bool)
    (sc : usbhid_softc) (x : usb_xfer) (duration id : Z)
    (k : nat) (st : usb_error_t) (n : Z) :
  sc_xfer sc USBHID_CTRL_DT_WR = Some x ->
  pending x = false ->
  0 <= max_len x ->
  enters polling sc = true ->
  (k < USB_DEFAULT_TIMEOUT)%nat ->
  (forall j, (j < k)%nat -> completion stack j = None) ->
  completion stack k = Some (st, n) ->
  0 <= duration <= 1020 ->
  0 <= id < 256 ->
  exists units,
    4 * units - 3 <= duration <= 4 * units
    /\ In (usbd_copy_in_req 0
             (Some (mk_req UT_WRITE_CLASS_INTERFACE UR_SET_IDLE (id, units)
                           (sc_iface_no sc, 0) (0, 0))))
          (actions (usbhid_set_idle stack polling sc duration id))
    /\ In (usbd_xfer_set_frames 1)
          (actions (usbhid_set_idle stack polling sc duration id))
    /\ outcome (usbhid_set_idle stack polling sc duration id)
       = Some (if is_normal st then 0 else EIO).
Proof.
  intros Hx Hp Hln Hen Hk Hnone Hrep Hd Hid.
  destruct (control_exchange stack polling sc USBHID_CTRL_DT_WR x
              (Some (set_idle_request sc duration id)) None 0 k st n
              eq_refl Hx Hp Hln Hen Hk Hnone Hrep)
    as [H1 [_ [_ [_ [H5 H6]]]]].
  exists (Z.quot (duration + 3) 4).
  assert (Hq : Z.quot (duration + 3) 4 = (duration + 3) / 4)
    by (apply Z.quot_div_nonneg; lia).
  split.
  { rewrite Hq. pose proof (Z.div_mod (duration + 3) 4 ltac:(lia)).
    pose proof (Z.mod_pos_bound (duration + 3) 4 ltac:(lia)). lia. }
  split; [|split; [now apply H6 | exact H1]].
  unfold usbhid_set_idle.
  replace (mk_req UT_WRITE_CLASS_INTERFACE UR_SET_IDLE
             (id, Z.quot (duration + 3) 4) (sc_iface_no sc, 0) (0, 0))
    with (set_idle_request sc duration id); [exact H5|].
  unfold set_idle_request, USETW2, USETW. f_equal.
  - f_equal; apply Z.mod_small; [lia|].
    rewrite Hq. split; [apply Z.div_pos; lia|].
    apply Z.div_lt_upper_bound; lia.
Qed.

(** An idle time of 10 ms becomes 3 units. *)
Lemma set_idle_rounds_up_witness :
  exists units,
    4 * units - 3 <= 10 <= 4 * units
    /\ In (usbd_copy_in_req 0
             (Some (mk_req UT_WRITE_CLASS_INTERFACE UR_SET_IDLE (1, units)
                           (0, 0) (0, 0))))
          (actions (usbhid_set_idle (short_device 0) false idle_softc 10 1))
    /\ In (usbd_xfer_set_frames 1)
          (actions (usbhid_set_idle (short_device 0) false idle_softc 10 1))
    /\ outcome (usbhid_set_idle (short_device 0) false idle_softc 10 1)
       = Some 0.
Proof.
  refine (set_idle_rounds_up (short_device 0) false idle_softc
            (mk_xfer 64 false) 10 1 2 USB_ERR_NORMAL_COMPLETION 0
            _ _ _ _ _ _ _ _ _); try reflexivity.
  - cbn. lia.
  - unfold USB_DEFAULT_TIMEOUT. lia.
  - intros [|[|j]] Hj; [reflexivity | reflexivity | lia].
  - lia.
  - lia.
Defined.

(** *** Exchanges with a device that stays silent *)




(** *** Writes on the interrupt pipe *)

Lemma deliver_failure (stack : usb_stack) (polling : bool) (k : nat)
    (sc : usbhid_softc) (x : usb_xfer) (e : usb_error_t) (n : Z) :
  sc_xfer sc USBHID_INTR_DT_WR = Some x ->
  pending x = true ->
  completion stack k = Some (e, n) ->
  is_failure e = true ->
  deliver stack polling k sc USBHID_INTR_DT_WR
  = (set_pending sc USBHID_INTR_DT_WR true,
     [usbd_xfer_set_stall;
      usbd_copy_in_buf 0 (buf (sc_tr sc)) (len (sc_tr sc));
      usbd_xfer_set_frame_len 0 (len (sc_tr sc));
      usbd_transfer_submit]).
Proof.
  intros Hx Hp Hk Hf. unfold deliver. rewrite Hx, Hp, Hk.
  destruct e; try discriminate Hf; unfold run_callback,
    usbhid_intr_wr_callback; cbn [is_cancelled negb]; now rewrite set_tr_same.
Qed.

(** The wait through [m] failed attempts in a row. *)
Lemma retry_loop (stack : usb_stack) (polling : bool) :
  forall m timeout k sc x,
    sc_xfer sc USBHID_INTR_DT_WR = Some x ->
    pending x = true ->
    error (sc_tr sc) = ETIMEDOUT ->
    (forall j, (k <= j < k + m)%nat ->
               exists e n, completion stack j = Some (e, n)
                           /\ is_failure e = true) ->
    exists sc' acts,
      sc_tr sc' = sc_tr sc
      /\ sc_xfer sc' USBHID_INTR_DT_WR = Some (mk_xfer (max_len x) true)
      /\ length (filter is_stall acts) = m
      /\ length (filter is_submit acts) = m
      /\ forall sc'' a,
          wait_loop stack polling timeout (k + m) sc' USBHID_INTR_DT_WR
          = (sc'', a) ->
          wait_loop stack polling (m + timeout) k sc USBHID_INTR_DT_WR
          = (sc'', acts ++ a).
Proof.
  induction m as [|m IH]; intros timeout k sc x Hx Hp He Hfail.
  - exists sc, []. repeat split.
    + rewrite Hx. destruct x as [mx p]. cbn in *. now subst.
    + intros sc'' a. now rewrite Nat.add_0_r.
  - destruct (Hfail k ltac:(lia)) as [e [n [Hk Hf]]].
    pose proof (deliver_failure stack polling k sc x e n Hx Hp Hk Hf) as Hd.
    set (sc1 := set_pending sc USBHID_INTR_DT_WR true) in *.
    assert (Hx1 : sc_xfer sc1 USBHID_INTR_DT_WR
                  = Some (mk_xfer (max_len x) true)).
    { unfold sc1. rewrite xfer_set_pending. now rewrite Hx. }
    destruct (IH timeout (S k) sc1 _ Hx1 eq_refl He) as
      [sc' [acts [Htr [Hx' [Hst [Hsu Hw]]]]]].
    { intros j Hj. apply Hfail. lia. }
    exists sc'. eexists. split; [exact Htr|]. split; [exact Hx'|].
    split; [|split]; cycle 2.
    + intros sc'' a Ha. replace (k + S m)%nat with (S k + m)%nat in Ha by lia.
      apply Hw in Ha. unfold wait_loop in *. destruct polling.
      * cbn [Nat.add poll_loop]. rewrite He, Z.eqb_refl, Hd, Ha.
        rewrite app_assoc. reflexivity.
      * cbn [Nat.add sleep_loop]. rewrite Hd. cbn [existsb is_wakeup orb].
        rewrite Ha. rewrite app_assoc. reflexivity.
    + rewrite filter_app, length_app, Hst. reflexivity.
    + rewrite filter_app, length_app, Hsu. reflexivity.
Qed.

(** [usbhid_write] to a device that fails [m] attempts and then takes
    the report: every failure makes the callback clear the stall and
    submit the report again, and the caller gets 0, after [m]
    stall-clears and [m + 1] submissions. *)
Theorem interrupt_write_retries (stack : usb_stack) (polling : bool)
    (sc : usbhid_softc) (x : usb_xfer) (bf : option nat) (ln : Z)
    (m : nat) (n : Z) :
  sc_xfer sc USBHID_INTR_DT_WR = Some x ->
  pending x = false ->
  ln <= max_len x ->
  enters polling sc = true ->
  (m < USB_DEFAULT_TIMEOUT)%nat ->
  (forall j, (j < m)%nat ->
             exists e n', completion stack j = Some (e, n')
                          /\ is_failure e = true) ->
  completion stack m = Some (USB_ERR_NORMAL_COMPLETION, n) ->
  outcome (usbhid_write stack polling sc bf ln) = Some 0
  /\ length (filter is_stall (actions (usbhid_write stack polling sc bf ln)))
     = m
  /\ length (filter is_submit (actions (usbhid_write stack polling sc bf ln)))
     = S m.
Proof.
  intros Hx Hp Hln Hen Hm Hfail Hok. unfold usbhid_write.
  destruct (sync_xfer_steps stack polling sc USBHID_INTR_DT_WR None bf ln Hen)
    as [w [fl [Hw H]]].
  set (c0 := mk_ctx None bf ln ETIMEDOUT w fl) in *.
  destruct (start_submits polling (set_tr sc c0) USBHID_INTR_DT_WR x
              eq_refl Hx Hp Hln) as [a0 [H0 [Hs0 [Hn0 _]]]].
  set (sc1 := set_pending (set_tr sc c0) USBHID_INTR_DT_WR true) in *.
  assert (Hx1 : sc_xfer sc1 USBHID_INTR_DT_WR
                = Some (mk_xfer (max_len x) true)).
  { unfold sc1. rewrite xfer_set_pending, xfer_set_tr. now rewrite Hx. }
  destruct (retry_loop stack polling m (S (USB_DEFAULT_TIMEOUT - S m)) 0 sc1
              _ Hx1 eq_refl eq_refl) as [sc' [acts [Htr [Hx' [Hst [Hsu Hwl]]]]]].
  { intros j Hj. apply Hfail. lia. }
  set (sc2 := set_pending (set_tr sc' (set_error (sc_tr sc') 0))
                          USBHID_INTR_DT_WR false).
  assert (Hd : deliver stack polling m sc' USBHID_INTR_DT_WR
               = (sc2, tr_exit polling)).
  { unfold deliver. rewrite Hx'. cbn [pending]. rewrite Hok.
    unfold run_callback, usbhid_intr_wr_callback, sc2.
    now destruct polling. }
  assert (Hx2 : sc_xfer sc2 USBHID_INTR_DT_WR
                = Some (mk_xfer (max_len x) false)).
  { unfold sc2. rewrite xfer_set_pending, xfer_set_tr. now rewrite Hx'. }
  destruct (H sc1 a0 sc2 (acts ++ tr_exit polling) sc2 []) as [Ho Ha].
  - exact H0.
  - replace USB_DEFAULT_TIMEOUT
      with (m + S (USB_DEFAULT_TIMEOUT - S m))%nat at 1 by lia.
    apply Hwl. cbn [Nat.add].
    eapply wait_step_done; [now rewrite Htr | exact Hd | discriminate |].
    now destruct polling.
  - apply stop_idle. now rewrite Hx2.
  - rewrite Ho, Ha. split; [reflexivity|]. cbn [app].
    rewrite !filter_app, !length_app, Hst, Hsu, Hn0,
      (existsb_filter_nil _ _ Hs0).
    destruct polling; cbn [tr_exit negb andb filter length is_stall is_submit];
      [split; lia|].
    destruct (negb (waiters (sc_tr sc2) =? 0)); cbn; split; lia.
Qed.

(** A report that goes out at the second attempt. *)
Lemma interrupt_write_retries_witness :
  outcome (usbhid_write
             (mk_stack (fun k => match k with
                                 | O => Some (USB_ERR_STALLED, 0)
                                 | _ => Some (USB_ERR_NORMAL_COMPLETION, 1)
                                 end) false)
             false idle_softc (Some 7%nat) 1)
  = Some 0.
Proof.
  refine (proj1 (interrupt_write_retries
                   (mk_stack (fun k => match k with
                                       | O => Some (USB_ERR_STALLED, 0)
                                       | _ => Some (USB_ERR_NORMAL_COMPLETION, 1)
                                       end) false)
                   false idle_softc (mk_xfer 64 false) (Some 7%nat) 1 1 1
                   _ _ _ _ _ _ _)); try reflexivity.
  - cbn. lia.
  - unfold USB_DEFAULT_TIMEOUT. lia.
  - intros [|j] Hj; [|lia]. exists USB_ERR_STALLED, 0. now split.
Defined.

End UsbhidExtra.
